(** * ProcessWatch: a shallow embedding of the process supervision code

    The development follows the two source files.

    - [process_attach.py]: [ProcessListener] (the monitor that runs inside a
      [multiprocessing.Process] and polls a [Popen] child) and
      [SafetyProcessCall] (the controller-side handle with its three queues).
    - [cui_main.py]: [Process] (one row of the dashboard) and [ProcessTable]
      (the registry), with the text configuration format.

    Python objects are records, methods are state transformers that return
    an outcome (a value or a raised exception) together with the state after
    the call: a mutation made before an exception is raised stays visible,
    as in Python.  Strings are [string]s whose characters stand for the code
    points below 256.

    The controller is sequential.  What runs beside it is given from
    outside: the monitor process acts on the world between two calls of the
    controller ([monitor_put_stdout], [monitor_put_stderr], [monitor_exit]),
    and the polling loop of the monitor reads, pass by pass, what its
    listener threads and its child did meanwhile (an [observation]).  The
    library calls whose result depends on their argument ([shlex.split],
    [float], [time.sleep], [Popen]) are a [Runtime]. *)

From Stdlib Require Import ZArith String Ascii List Lia Bool.
From Stdlib Require Import DecimalString.
From stdpp Require Import base list strings.

Open Scope string_scope.
Open Scope list_scope.

(** ** Python strings *)

Module PyStr.

(** [str.isspace] on one character, for the code points below 256
    (CPython's [_PyUnicode_IsWhitespace]). *)
Definition isspace (c : ascii) : bool :=
  let n := nat_of_ascii c in
  (((9 <=? n) && (n <=? 13)) || ((28 <=? n) && (n <=? 32))
   || (n =? 133) || (n =? 160))%nat.

Fixpoint lstrip (s : string) : string :=
  match s with
  | EmptyString => EmptyString
  | String c t => if isspace c then lstrip t else s
  end.

Fixpoint rstrip (s : string) : string :=
  match s with
  | EmptyString => EmptyString
  | String c t =>
      match rstrip t with
      | EmptyString => if isspace c then EmptyString else String c EmptyString
      | t' => String c t'
      end
  end.

(** [s.strip()] *)
Definition strip (s : string) : string := rstrip (lstrip s).

(** [s.startswith(p)] *)
Fixpoint startswith (p s : string) : bool :=
  match p, s with
  | EmptyString, _ => true
  | String a p', String b s' => Ascii.eqb a b && startswith p' s'
  | String _ _, EmptyString => false
  end.

(** The scan of [s.split(sep)] for a non-empty [sep]: [cur] is the field
    being read, [skip] counts the characters of a separator occurrence
    that was recognised and is still to be passed over. *)
Fixpoint split_scan (sep : string) (skip : nat) (cur : string) (s : string)
  : list string :=
  match s with
  | EmptyString => [cur]
  | String c t =>
      match skip with
      | S k => split_scan sep k cur t
      | O =>
          if startswith sep s
          then cur :: split_scan sep (String.length sep - 1) EmptyString t
          else split_scan sep 0 (cur +:+ String c EmptyString) t
      end
  end.

(** [s.split(sep)] *)
Definition split (sep s : string) : list string := split_scan sep 0 "" s.

(** [sep.join(l)] *)
Fixpoint join (sep : string) (l : list string) : string :=
  match l with
  | [] => ""
  | [x] => x
  | x :: rest => x +:+ sep +:+ join sep rest
  end.

Definition nl : string := String (ascii_of_nat 10) EmptyString.

(** [s[:n]] for [n >= 0] *)
Fixpoint take (n : nat) (s : string) : string :=
  match n, s with
  | S k, String c t => String c (take k t)
  | _, _ => EmptyString
  end.

Fixpoint spaces (n : nat) : string :=
  match n with
  | O => EmptyString
  | S k => String " " (spaces k)
  end.

(** Format specification [{s:w}] on a [str]: left aligned in width [w]. *)
Definition ljust (w : nat) (s : string) : string :=
  s +:+ spaces (w - String.length s).

(** Format specification [{n:w}] on an [int]: right aligned in width [w]. *)
Definition rjust (w : nat) (s : string) : string :=
  spaces (w - String.length s) +:+ s.

(** [str(n)] on an [int] *)
Definition str_int (z : Z) : string := NilZero.string_of_int (Z.to_int z).

Definition hex_digit (n : nat) : ascii :=
  if (n <? 10)%nat then ascii_of_nat (48 + n) else ascii_of_nat (87 + n).

(** [str.isprintable] on one character, for the code points below 256. *)
Definition isprintable (c : ascii) : bool :=
  let n := nat_of_ascii c in
  (((32 <=? n) && (n <? 127)) || ((161 <=? n) && negb (n =? 173)))%nat.

Fixpoint contains_char (c : ascii) (s : string) : bool :=
  match s with
  | EmptyString => false
  | String a t => Ascii.eqb a c || contains_char c t
  end.

Definition squote : ascii := ascii_of_nat 39.
Definition dquote : ascii := ascii_of_nat 34.
Definition backslash : ascii := ascii_of_nat 92.

Definition repr_char (q : ascii) (c : ascii) : string :=
  let n := nat_of_ascii c in
  if Ascii.eqb c q || Ascii.eqb c backslash then String backslash (String c "")
  else if (n =? 9)%nat then String backslash "t"
  else if (n =? 10)%nat then String backslash "n"
  else if (n =? 13)%nat then String backslash "r"
  else if isprintable c then String c ""
  else String backslash
         (String "x" (String (hex_digit (n / 16)) (String (hex_digit (n mod 16)) ""))).

Fixpoint repr_body (q : ascii) (s : string) : string :=
  match s with
  | EmptyString => EmptyString
  | String c t => repr_char q c +:+ repr_body q t
  end.

(** [repr(s)] on a [str]: single quotes, unless [s] has a single quote and
    no double quote. *)
Definition repr (s : string) : string :=
  let q := if contains_char squote s && negb (contains_char dquote s)
           then dquote else squote in
  String q (repr_body q s) +:+ String q "".

(** [str(l)] on a list of [str] *)
Definition repr_list (l : list string) : string :=
  "[" +:+ join ", " (map repr l) +:+ "]".

End PyStr.

(** ** Exceptions, outcomes and the state monad of method calls *)

Inductive exn : Type :=
| ValueError (msg : string)
| AttributeError (msg : string)
| IndexError (msg : string)
| FileNotFoundError (msg : string)
| OSError (msg : string)
| OverflowError (msg : string).

Inductive outcome (A : Type) : Type :=
| Ok (a : A)
| Raise (e : exn).
Arguments Ok {A} a.
Arguments Raise {A} e.

(** A call runs on a state [S] and leaves a state behind whether it returns
    or raises. *)
Definition M (S A : Type) : Type := S -> outcome A * S.

Definition ret {S A : Type} (a : A) : M S A := fun s => (Ok a, s).
Definition raise {S A : Type} (e : exn) : M S A := fun s => (Raise e, s).
Definition bind {S A B : Type} (m : M S A) (k : A -> M S B) : M S B :=
  fun s =>
    match m s with
    | (Ok a, s') => k a s'
    | (Raise e, s') => (Raise e, s')
    end.

Notation "x <- m ;; k" := (bind m (fun x => k))
  (at level 100, m at next level, k at level 200, only parsing).
Notation "m ;; k" := (bind m (fun _ => k))
  (at level 100, k at level 200, only parsing).

Definition no_attribute (attr : string) : exn :=
  AttributeError ("'NoneType' object has no attribute '" +:+ attr +:+ "'").

Definition is_ok {A : Type} (r : outcome A) : bool :=
  match r with Ok _ => true | Raise _ => false end.

Definition is_index_error {A : Type} (r : outcome A) : bool :=
  match r with Raise (IndexError _) => true | _ => false end.

(** ** Values held by a dashboard row *)

(** [commands] is a [str] (sample rows, rows read from a configuration) or
    a list of [str] (rows made by the [add] command). *)
Inductive command : Type :=
| CmdStr (s : string)
| CmdList (l : list string).

(** [delay] is a [float] (the default [0.] of [add]) or the [str] read
    from a configuration.  A float is represented by the text [str] prints
    for it. *)
Inductive delay_t : Type :=
| DelayFloat (text : string)
| DelayStr (s : string).

(** [str(commands)] and [str(delay)] as the f-string of [save_config]
    evaluates them. *)
Definition str_command (c : command) : string :=
  match c with
  | CmdStr s => s
  | CmdList l => PyStr.repr_list l
  end.

Definition str_delay (d : delay_t) : string :=
  match d with
  | DelayFloat t => t
  | DelayStr s => s
  end.

(** ** The library and the operating system

    The behaviour of the library calls that the code makes on its data is
    a parameter of the model:
    - [shlex_split s]: [shlex.split(s)], which raises on an unbalanced quote;
    - [sleep_float d]: [time.sleep(float(d))], [None] when it returns;
    - [popen args]: whether [Popen(args, ..., shell=True)] raises. *)
Record Runtime : Type := {
  shlex_split : string -> outcome (list string);
  sleep_float : delay_t -> option exn;
  popen : list string -> option exn
}.

(** ** The world of the controller

    Every [multiprocessing.Process] that [SafetyProcessCall.start] creates
    is a [Child]; it is identified by its position in [children].  The three
    queues made by the same [start] are kept with it. *)
Definition pid : Type := nat.

Record Child : Type := {
  alive : bool;               (* the monitor process has not exited *)
  qstdout : list string;      (* chunks put by the monitor, oldest first *)
  qstderr : list string;
  qkill : list string;
  queues_closed : bool;
  closed : bool;              (* [Process.close] was called *)
  target_args : list string   (* [process_args] given to [process_entry] *)
}.

Inductive event : Type :=
| EvSpawn (p : pid)           (* [Process(...).start()] *)
| EvKillMessage (p : pid)     (* [qkill.put("kill")] *)
| EvJoin (p : pid)            (* [proc.join()] returned *)
| EvClose (p : pid)           (* [proc.close()] *)
| EvSleep.                    (* [time.sleep] returned *)

Record World : Type := {
  children : list Child;
  events : list event;                  (* oldest first *)
  files : list (string * string)        (* path, contents; first match wins *)
}.

Definition new_child (args : list string) : Child :=
  {| alive := true; qstdout := []; qstderr := []; qkill := [];
     queues_closed := false; closed := false; target_args := args |}.

Definition set_children (cs : list Child) (w : World) : World :=
  {| children := cs; events := events w; files := files w |}.

Definition log (e : event) (w : World) : World :=
  {| children := children w; events := events w ++ [e]; files := files w |}.

Definition update_child (p : pid) (f : Child -> Child) (w : World) : World :=
  match children w !! p with
  | Some c => set_children (<[p := f c]> (children w)) w
  | None => w
  end.

Definition child_alive (w : World) (p : pid) : bool :=
  match children w !! p with
  | Some c => alive c
  | None => false
  end.

(** The text that is stored under [path]: what the last
    [open(path, "w").write(text)] put there.  The line separator of the
    platform is the line feed, so that writing in text mode stores the text
    as it is. *)
Definition file_text (path : string) (w : World) : option string :=
  snd <$> find (fun e => String.eqb (fst e) path) (files w).

(** What reading in text mode makes of a stored text: the newlines are
    universal, a carriage return, alone or followed by a line feed, is read
    as one line feed. *)
Fixpoint universal_newlines (s : string) : string :=
  match s with
  | EmptyString => EmptyString
  | String c t =>
      if (nat_of_ascii c =? 13)%nat then
        match t with
        | String c' t' =>
            if (nat_of_ascii c' =? 10)%nat
            then String (ascii_of_nat 10) (universal_newlines t')
            else String (ascii_of_nat 10) (universal_newlines t)
        | EmptyString => String (ascii_of_nat 10) EmptyString
        end
      else String c (universal_newlines t)
  end.

(** [open(path, "r").read()], [None] when there is no such file. *)
Definition read_file (path : string) (w : World) : option string :=
  universal_newlines <$> file_text path w.

(** [open(path, "w").write(text)] *)
Definition write_file (path text : string) (w : World) : World :=
  {| children := children w; events := events w;
     files := (path, text) :: files w |}.

(** What the monitor process does to the world while the controller is
    between two calls. *)
Definition put_stdout (chunk : string) (c : Child) : Child :=
  {| alive := alive c; qstdout := qstdout c ++ [chunk]; qstderr := qstderr c;
     qkill := qkill c; queues_closed := queues_closed c; closed := closed c;
     target_args := target_args c |}.

Definition put_stderr (chunk : string) (c : Child) : Child :=
  {| alive := alive c; qstdout := qstdout c; qstderr := qstderr c ++ [chunk];
     qkill := qkill c; queues_closed := queues_closed c; closed := closed c;
     target_args := target_args c |}.

Definition set_exited (c : Child) : Child :=
  {| alive := false; qstdout := qstdout c; qstderr := qstderr c;
     qkill := qkill c; queues_closed := queues_closed c; closed := closed c;
     target_args := target_args c |}.

Definition monitor_put_stdout (p : pid) (chunk : string) : World -> World :=
  update_child p (put_stdout chunk).
Definition monitor_put_stderr (p : pid) (chunk : string) : World -> World :=
  update_child p (put_stderr chunk).
Definition monitor_exit (p : pid) : World -> World :=
  update_child p set_exited.

(** Access to the two halves of a state [(object, world)]. *)
Definition self {O : Type} : M (O * World) O := fun s => (Ok (fst s), s).
Definition set_self {O : Type} (o : O) : M (O * World) unit :=
  fun s => (Ok tt, (o, snd s)).
Definition world {O : Type} : M (O * World) World := fun s => (Ok (snd s), s).
Definition on_world {O : Type} (f : World -> World) : M (O * World) unit :=
  fun s => (Ok tt, (fst s, f (snd s))).
Definition lift {S A : Type} (r : outcome A) : M S A := fun s => (r, s).

(** ** process_attach.py: ProcessListener *)

Module ProcessListener.

(** What one pass of the polling loop of [process_entry] finds: the text
    the two listener threads appended to the buffers since the previous
    pass released the lock, whether [qkill] holds a message, and whether
    [Popen.poll()] is still [None]. *)
Record observation : Type := {
  new_stdout : string;
  new_stderr : string;
  kill_requested : bool;
  running : bool
}.

Inductive action : Type :=
| Popen (args : list string)
| PutStdout (chunk : string)   (* [qstdout.put] *)
| PutStderr (chunk : string)   (* [qstderr.put] *)
| Sleep                        (* [time.sleep(wait)] *)
| Kill                         (* [self.process.kill()] *)
| Wait.                        (* [self.process.wait()] *)

Record t : Type := {
  process_args : list string;
  stdoutString : string;
  stderrString : string;
  process : bool                (* [self.process is not None] *)
}.

Definition init (args : list string) : t :=
  {| process_args := args; stdoutString := ""; stderrString := "";
     process := false |}.

(** The locked part of one pass: a non-empty buffer is put on its queue
    and emptied. *)
Definition flush (ob : observation) (st : t) : t * list action :=
  let out := stdoutString st +:+ new_stdout ob in
  let err := stderrString st +:+ new_stderr ob in
  let '(out', a1) :=
    if (0 <? String.length out)%nat then ("", [PutStdout out]) else (out, []) in
  let '(err', a2) :=
    if (0 <? String.length err)%nat then ("", [PutStderr err]) else (err, []) in
  ({| process_args := process_args st; stdoutString := out';
      stderrString := err'; process := process st |}, a1 ++ a2).

(** [is_alive] as the loop calls it *)
Definition is_alive (ob : observation) (st : t) : bool :=
  if process st then running ob else false.

(** [for _ in range(n)]: the passes from number [i] on.  The result is the
    number of passes made, the listener and the actions so far. *)
Fixpoint poll_loop (n : nat) (i : nat) (obs : nat -> observation) (st : t)
    (acts : list action) : nat * t * list action :=
  match n with
  | O => (i, st, acts)
  | S n' =>
      let '(st1, put) := flush (obs i) st in
      if kill_requested (obs i) then (S i, st1, acts ++ put)
      else if negb (is_alive (obs i) st1) then (S i, st1, acts ++ put)
      else poll_loop n' (S i) obs st1 (acts ++ put ++ [Sleep])
  end.

Record run : Type := {
  polls : nat;
  actions : list action;
  listener : t
}.

(** [start()]: [Popen] and the two listener threads. *)
Definition start (rt : Runtime) (st : t) : outcome unit * (t * list action) :=
  match popen rt (process_args st) with
  | Some e => (Raise e, (st, []))
  | None =>
      (Ok tt,
       ({| process_args := process_args st; stdoutString := stdoutString st;
           stderrString := stderrString st; process := true |},
        [Popen (process_args st)]))
  end.

(** [kill()]: kill, wait, forget the handle. *)
Definition kill (st : t) : outcome unit * (t * list action) :=
  if process st
  then (Ok tt,
        ({| process_args := process_args st; stdoutString := stdoutString st;
            stderrString := stderrString st; process := false |},
         [Kill; Wait]))
  else (Raise (no_attribute "kill"), (st, [])).

(** [process_entry(qstdout, qstderr, qkill, process_args, wait)] *)
Definition process_entry (rt : Runtime) (args : list string)
    (obs : nat -> observation) : outcome unit * run :=
  match start rt (init args) with
  | (Raise e, (st, acts)) =>
      (Raise e, {| polls := 0; actions := acts; listener := st |})
  | (Ok _, (st1, acts1)) =>
      let '(n, st2, acts2) := poll_loop 1000 0 obs st1 acts1 in
      let '(r, (st3, acts3)) := kill st2 in
      (r, {| polls := n; actions := acts2 ++ acts3; listener := st3 |})
  end.

Definition stdout_chunks (acts : list action) : list string :=
  omap (fun a => match a with PutStdout c => Some c | _ => None end) acts.

Definition stderr_chunks (acts : list action) : list string :=
  omap (fun a => match a with PutStderr c => Some c | _ => None end) acts.

End ProcessListener.

(** ** process_attach.py: SafetyProcessCall *)

Module SafetyProcessCall.

Record t : Type := {
  process_args : list string;
  proc : option pid
}.

(** [__init__(process_args)] *)
Definition init (rt : Runtime) (c : command) : outcome t :=
  match c with
  | CmdStr s =>
      match shlex_split rt s with
      | Ok args => Ok {| process_args := args; proc := None |}
      | Raise e => Raise e
      end
  | CmdList l => Ok {| process_args := l; proc := None |}
  end.

Definition set_proc (h : option pid) (s : t) : t :=
  {| process_args := process_args s; proc := h |}.

Definition put_kill (c : Child) : Child :=
  {| alive := alive c; qstdout := qstdout c; qstderr := qstderr c;
     qkill := qkill c ++ ["kill"]; queues_closed := queues_closed c;
     closed := closed c; target_args := target_args c |}.

Definition set_closed (c : Child) : Child :=
  {| alive := alive c; qstdout := qstdout c; qstderr := qstderr c;
     qkill := qkill c; queues_closed := queues_closed c;
     closed := true; target_args := target_args c |}.

Definition close_queues (c : Child) : Child :=
  {| alive := alive c; qstdout := qstdout c; qstderr := qstderr c;
     qkill := qkill c; queues_closed := true;
     closed := closed c; target_args := target_args c |}.

(** [kill()]: the monitor leaves its loop on the message, kills its child
    and exits, which is when [join] returns. *)
Definition kill : M (t * World) unit :=
  s <- self ;;
  match proc s with
  | None => raise (ValueError "Not started")
  | Some p =>
      on_world (fun w => log (EvKillMessage p) (update_child p put_kill w)) ;;
      on_world (fun w => log (EvJoin p) (update_child p set_exited w)) ;;
      on_world (fun w => log (EvClose p) (update_child p set_closed w)) ;;
      on_world (log EvSleep) ;;
      on_world (update_child p close_queues) ;;
      set_self (set_proc None s)
  end.

(** [start(wait=1.0)] *)
Definition start : M (t * World) unit :=
  s <- self ;;
  (match proc s with
   | Some _ => kill
   | None => ret tt
   end) ;;
  s <- self ;;
  w <- world ;;
  let p := length (children w) in
  on_world (fun w =>
    log (EvSpawn p) (set_children (children w ++ [new_child (process_args s)]) w)) ;;
  set_self (set_proc (Some p) s).

(** [is_alive()] *)
Definition is_alive : M (t * World) bool :=
  s <- self ;;
  match proc s with
  | None => ret false
  | Some p => w <- world ;; ret (child_alive w p)
  end.

Definition pop_stdout (c : Child) : Child :=
  {| alive := alive c; qstdout := tail (qstdout c); qstderr := qstderr c;
     qkill := qkill c; queues_closed := queues_closed c;
     closed := closed c; target_args := target_args c |}.

Definition pop_stderr (c : Child) : Child :=
  {| alive := alive c; qstdout := qstdout c; qstderr := tail (qstderr c);
     qkill := qkill c; queues_closed := queues_closed c;
     closed := closed c; target_args := target_args c |}.

(** [readlines()]: one item of [qstdout], or [None]. *)
Definition readlines : M (t * World) (option string) :=
  s <- self ;;
  match proc s with
  | None => raise (ValueError "Not started")
  | Some p =>
      w <- world ;;
      match qstdout <$> children w !! p with
      | Some (chunk :: _) => on_world (update_child p pop_stdout) ;; ret (Some chunk)
      | _ => ret None
      end
  end.

(** [readlines_stderr()] *)
Definition readlines_stderr : M (t * World) (option string) :=
  s <- self ;;
  match proc s with
  | None => raise (ValueError "Not started")
  | Some p =>
      w <- world ;;
      match qstderr <$> children w !! p with
      | Some (chunk :: _) => on_world (update_child p pop_stderr) ;; ret (Some chunk)
      | _ => ret None
      end
  end.

End SafetyProcessCall.

(** ** cui_main.py: Process *)

Module Process.

Record t : Type := {
  name : string;
  commands : command;
  delay : delay_t;
  result : list string;
  status : string;
  proc : option SafetyProcessCall.t
}.

(** [__init__(name, commands, delay)] *)
Definition init (n : string) (c : command) (d : delay_t) : t :=
  {| name := n; commands := c; delay := d; result := []; status := "Stop";
     proc := None |}.

Definition set_proc (h : option SafetyProcessCall.t) (s : t) : t :=
  {| name := name s; commands := commands s; delay := delay s;
     result := result s; status := status s; proc := h |}.

Definition set_status (st : string) (s : t) : t :=
  {| name := name s; commands := commands s; delay := delay s;
     result := result s; status := st; proc := proc s |}.

Definition extend_result (lines : list string) (s : t) : t :=
  {| name := name s; commands := commands s; delay := delay s;
     result := result s ++ lines; status := status s; proc := proc s |}.

Definition update (f : t -> t) : M (t * World) unit :=
  s <- self ;; set_self (f s).

(** A method call [self.proc.attr(...)]: an [AttributeError] when
    [self.proc] is [None], else the method runs on the object in place. *)
Definition on_proc {A : Type} (attr : string)
    (m : M (SafetyProcessCall.t * World) A) : M (t * World) A :=
  fun '(s, w) =>
    match proc s with
    | None => (Raise (no_attribute attr), (s, w))
    | Some h =>
        let '(r, (h', w')) := m (h, w) in (r, (set_proc (Some h') s, w'))
    end.

(** [time.sleep(float(self.delay))] *)
Definition settle (rt : Runtime) : M (t * World) unit :=
  s <- self ;;
  match sleep_float rt (delay s) with
  | Some e => raise e
  | None => on_world (log EvSleep)
  end.

(** [kill()] *)
Definition kill : M (t * World) unit :=
  on_proc "kill" SafetyProcessCall.kill ;;
  update (set_proc None) ;;
  update (set_status "Stop").

(** [start()] *)
Definition start (rt : Runtime) : M (t * World) unit :=
  s <- self ;;
  (match proc s with
   | Some _ => kill
   | None => ret tt
   end) ;;
  s <- self ;;
  h <- lift (SafetyProcessCall.init rt (commands s)) ;;
  update (set_proc (Some h)) ;;
  on_proc "start" SafetyProcessCall.start ;;
  update (set_status "Run") ;;
  settle rt.

(** [mes.strip().split("\n")] *)
Definition lines_of (mes : string) : list string :=
  PyStr.split PyStr.nl (PyStr.strip mes).

(** [refresh_status()] *)
Definition refresh_status : M (t * World) unit :=
  s <- self ;;
  (match proc s with
   | None => update (set_status "Stop")
   | Some _ =>
       a <- on_proc "is_alive" SafetyProcessCall.is_alive ;;
       update (set_status (if a : bool then "Run" else "Stop"))
   end) ;;
  mes <- on_proc "readlines" SafetyProcessCall.readlines ;;
  (match mes with
   | Some m => update (extend_result (lines_of m))
   | None => ret tt
   end) ;;
  mes <- on_proc "readlines_stderr" SafetyProcessCall.readlines_stderr ;;
  match mes with
  | Some m => update (extend_result (lines_of m))
  | None => ret tt
  end.

(** The process the row is associated with, if any. *)
Definition handle (s : t) : option pid :=
  match proc s with
  | Some h => SafetyProcessCall.proc h
  | None => None
  end.

End Process.

(** ** cui_main.py: ProcessTable *)

Module ProcessTable.

Record t : Type := { process_list : list Process.t }.

(** [__init__()] *)
Definition init : t := {| process_list := [] |}.

(** The position that a Python list index denotes: [-n <= i < 0] counts
    from the end. *)
Definition py_index {A : Type} (l : list A) (i : Z) : option nat :=
  let n := Z.of_nat (length l) in
  if ((0 <=? i) && (i <? n))%Z then Some (Z.to_nat i)
  else if ((- n <=? i) && (i <? 0))%Z then Some (Z.to_nat (i + n))
  else None.

(** The largest index of a 64-bit CPython, [sys.maxsize]. *)
Definition ssize_max : Z := 9223372036854775807.

(** The integer can be converted to an index. *)
Definition fits_index (i : Z) : bool :=
  ((- ssize_max - 1 <=? i) && (i <=? ssize_max))%Z.

(** What [l[index]] raises when [index] addresses no item of [l]: the
    integer is first converted to an index, which fails when it does not fit,
    and then compared with the length. *)
Definition index_error (index : Z) : exn :=
  IndexError (if fits_index index then "list index out of range"
              else "cannot fit 'int' into an index-sized integer").

(** A method call [self.process_list[index].method()].  A list holds at most
    [ssize_max] items, so that an index that addresses a row fits: the test
    on the size is made where no row is addressed. *)
Definition at_index {A : Type} (index : Z) (m : M (Process.t * World) A)
  : M (t * World) A :=
  fun '(s, w) =>
    match py_index (process_list s) index with
    | None => (Raise (index_error index), (s, w))
    | Some k =>
        match process_list s !! k with
        | None => (Raise (index_error index), (s, w))
        | Some p =>
            let '(r, (p', w')) := m (p, w) in
            (r, ({| process_list := <[k := p']> (process_list s) |}, w'))
        end
    end.

(** [for proc in self.process_list: proc.method()]: the rows in [todo] are
    still to be visited, those in [done] have been. *)
Fixpoint for_each (m : M (Process.t * World) unit)
    (done todo : list Process.t) (w : World) : outcome unit * (t * World) :=
  match todo with
  | [] => (Ok tt, ({| process_list := done |}, w))
  | p :: rest =>
      match m (p, w) with
      | (Ok _, (p', w')) => for_each m (done ++ [p']) rest w'
      | (Raise e, (p', w')) =>
          (Raise e, ({| process_list := done ++ p' :: rest |}, w'))
      end
  end.

Definition for_all (m : M (Process.t * World) unit) : M (t * World) unit :=
  fun '(s, w) => for_each m [] (process_list s) w.

(** [add(name, commands, delay=0.)] *)
Definition add (rt : Runtime) (n : string) (c : command) (d : delay_t)
  : M (t * World) unit :=
  fun '(s, w) =>
    match Process.start rt (Process.init n c d, w) with
    | (Ok _, (p, w')) => (Ok tt, ({| process_list := process_list s ++ [p] |}, w'))
    | (Raise e, (_, w')) => (Raise e, (s, w'))
    end.

Definition default_delay : delay_t := DelayFloat "0.0".

(** [refresh(index)] *)
Definition refresh (index : Z) : M (t * World) unit :=
  at_index index Process.refresh_status.

(** [restart(index)] *)
Definition restart (rt : Runtime) (index : Z) : M (t * World) unit :=
  at_index index (Process.start rt).

(** [restart_all()] *)
Definition restart_all (rt : Runtime) : M (t * World) unit :=
  for_all (Process.start rt).

(** [kill(index)] *)
Definition kill (index : Z) : M (t * World) unit :=
  at_index index Process.kill.

(** [kill_all()] *)
Definition kill_all : M (t * World) unit := for_all Process.kill.

(** [list.pop(index)] *)
Definition pop (index : Z) : M (t * World) unit :=
  fun '(s, w) =>
    match py_index (process_list s) index with
    | None =>
        (Raise (if fits_index index
                then IndexError "pop index out of range"
                else OverflowError
                       "Python int too large to convert to C ssize_t"),
         (s, w))
    | Some k => (Ok tt, ({| process_list := delete k (process_list s) |}, w))
    end.

(** [delete(index)] *)
Definition delete (index : Z) : M (t * World) unit :=
  at_index index Process.kill ;;
  pop index.

(** [delete_all()] *)
Definition delete_all : M (t * World) unit :=
  kill_all ;;
  (fun '(_, w) => (Ok tt, ({| process_list := [] |}, w))).

(** [get_count()] *)
Definition get_count : M (t * World) nat :=
  s <- self ;; ret (length (process_list s)).

(** [get_status(idx)] *)
Definition get_status (idx : Z) : M (t * World) string :=
  at_index idx
    (p <- self ;;
     ret ("id: " +:+ PyStr.rjust 5 (PyStr.str_int idx)
          +:+ " | status: " +:+ PyStr.ljust 6 (Process.status p)
          +:+ " | com: " +:+ PyStr.ljust 20 (PyStr.take 20 (Process.name p))
          +:+ " | res: " +:+ List.last (Process.result p) "")).

(** The line of one row in [save_config]. *)
Definition config_line (p : Process.t) : string :=
  Process.name p +:+ ":::" +:+ str_command (Process.commands p) +:+ ":::"
  +:+ str_delay (Process.delay p) +:+ PyStr.nl.

Definition config_text (l : list Process.t) : string :=
  fold_left (fun s p => s +:+ config_line p) l "".

(** [save_config(fname)] *)
Definition save_config (fname : string) : M (t * World) unit :=
  s <- self ;;
  on_world (write_file fname (config_text (process_list s))).

(** [name, commands, delay = line.split(":::")] *)
Definition unpack3 (fields : list string) : outcome (string * string * string) :=
  match fields with
  | [a; b; c] => Ok (a, b, c)
  | _ =>
      if (length fields <? 3)%nat
      then Raise (ValueError ("not enough values to unpack (expected 3, got "
                              +:+ PyStr.str_int (Z.of_nat (length fields)) +:+ ")"))
      else Raise (ValueError "too many values to unpack (expected 3)")
  end.

(** The loop of [load_config] over the lines still to be read. *)
Fixpoint load_lines (rt : Runtime) (lines : list string) : M (t * World) unit :=
  match lines with
  | [] => ret tt
  | line :: rest =>
      f <- lift (unpack3 (PyStr.split ":::" line)) ;;
      (let '(n, c, d) := f in add rt n (CmdStr c) (DelayStr d)) ;;
      load_lines rt rest
  end.

(** [load_config(fname)] *)
Definition load_config (rt : Runtime) (fname : string) : M (t * World) unit :=
  w <- world ;;
  match read_file fname w with
  | None => raise (FileNotFoundError fname)
  | Some config =>
      delete_all ;;
      load_lines rt (PyStr.split PyStr.nl (PyStr.strip config))
  end.

End ProcessTable.

(** ** A reference runtime

    The theorems hold for every [Runtime].  The examples run on this one,
    which follows CPython on the texts it accepts. *)

Module CPython.

(** [shlex.split(s)]: the scanner of [shlex] in POSIX mode, with
    [whitespace_split] set and no comment characters. *)
Inductive scan_state : Type :=
| Blank                 (* between two tokens *)
| Word                  (* inside a token *)
| Quoted (q : ascii)    (* inside quotes opened by [q] *)
| EscapedWord           (* after a backslash in a token *)
| EscapedQuoted.        (* after a backslash inside double quotes *)

Definition is_blank (c : ascii) : bool :=
  let n := nat_of_ascii c in
  ((n =? 32) || (n =? 9) || (n =? 13) || (n =? 10))%nat.

Definition is_quote (c : ascii) : bool :=
  Ascii.eqb c PyStr.squote || Ascii.eqb c PyStr.dquote.

Definition snoc (s : string) (c : ascii) : string := s +:+ String c "".

Definition emit (tok : string) (quoted : bool) (r : outcome (list string))
  : outcome (list string) :=
  match r with
  | Ok l => Ok (if quoted || negb (String.eqb tok "") then tok :: l else l)
  | Raise e => Raise e
  end.

Fixpoint scan (st : scan_state) (tok : string) (quoted : bool) (s : string)
  : outcome (list string) :=
  match s with
  | EmptyString =>
      match st with
      | Blank => Ok []
      | Word => emit tok quoted (Ok [])
      | Quoted _ => Raise (ValueError "No closing quotation")
      | EscapedWord | EscapedQuoted => Raise (ValueError "No escaped character")
      end
  | String c t =>
      match st with
      | Blank =>
          if is_blank c then scan Blank "" false t
          else if Ascii.eqb c PyStr.backslash then scan EscapedWord "" false t
          else if is_quote c then scan (Quoted c) "" true t
          else scan Word (String c "") false t
      | Word =>
          if is_blank c then emit tok quoted (scan Blank "" false t)
          else if is_quote c then scan (Quoted c) tok true t
          else if Ascii.eqb c PyStr.backslash then scan EscapedWord tok quoted t
          else scan Word (snoc tok c) quoted t
      | Quoted q =>
          if Ascii.eqb c q then scan Word tok true t
          else if Ascii.eqb c PyStr.backslash && Ascii.eqb q PyStr.dquote
               then scan EscapedQuoted tok true t
          else scan (Quoted q) (snoc tok c) true t
      | EscapedWord => scan Word (snoc tok c) quoted t
      | EscapedQuoted =>
          if Ascii.eqb c PyStr.backslash || Ascii.eqb c PyStr.dquote
          then scan (Quoted PyStr.dquote) (snoc tok c) true t
          else scan (Quoted PyStr.dquote) (snoc (snoc tok PyStr.backslash) c) true t
      end
  end.

Definition shlex_split (s : string) : outcome (list string) := scan Blank "" false s.

Definition is_digit (c : ascii) : bool :=
  let n := nat_of_ascii c in ((48 <=? n) && (n <=? 57))%nat.

Fixpoint all_digits (s : string) : bool :=
  match s with
  | EmptyString => true
  | String c t => is_digit c && all_digits t
  end.

(** A decimal literal without sign and exponent, of at most nine
    characters: [float] accepts it and [time.sleep] takes the value. *)
Definition plain_decimal (s : string) : bool :=
  match PyStr.split "." s with
  | [a] => negb (String.eqb a "") && all_digits a && (String.length s <=? 9)%nat
  | [a; b] =>
      negb (String.eqb (a +:+ b) "") && all_digits a && all_digits b
      && (String.length s <=? 9)%nat
  | _ => false
  end.

(** [time.sleep(float(d))] on the plain decimals; any other text is
    refused as [float] refuses a text that is no number. *)
Definition sleep_float (d : delay_t) : option exn :=
  if plain_decimal (PyStr.strip (str_delay d)) then None
  else Some (ValueError ("could not convert string to float: "
                         +:+ PyStr.repr (str_delay d))).

(** [Popen] with [shell=True] starts the shell and returns. *)
Definition runtime : Runtime :=
  Build_Runtime shlex_split sleep_float (fun _ => None).


End CPython.

Definition empty_world : World := {| children := []; events := []; files := [] |}.

(** ** Vocabulary of the statements *)

(** The calls on a [SafetyProcessCall] other than [start], and their
    results. *)
Inductive query : Type := AskAlive | AskReadlines | AskReadlinesStderr | AskKill.

Inductive answer : Type :=
| Alive (b : bool)
| Text (o : option string)
| Killed.

Definition ask (q : query) : M (SafetyProcessCall.t * World) answer :=
  match q with
  | AskAlive => b <- SafetyProcessCall.is_alive ;; ret (Alive b)
  | AskReadlines => o <- SafetyProcessCall.readlines ;; ret (Text o)
  | AskReadlinesStderr => o <- SafetyProcessCall.readlines_stderr ;; ret (Text o)
  | AskKill => SafetyProcessCall.kill ;; ret Killed
  end.

(** A caller that makes the calls one after the other and goes on after an
    exception. *)
Fixpoint ask_all (qs : list query) (s : SafetyProcessCall.t * World)
  : list (outcome answer) * (SafetyProcessCall.t * World) :=
  match qs with
  | [] => ([], s)
  | q :: rest =>
      let '(r, s1) := ask q s in
      let '(rs, s2) := ask_all rest s1 in
      (r :: rs, s2)
  end.

Definition not_started : exn := ValueError "Not started".

Definition answer_without_process (q : query) : outcome answer :=
  match q with
  | AskAlive => Ok (Alive false)
  | AskReadlines | AskReadlinesStderr | AskKill => Raise not_started
  end.

(** The world after [SafetyProcessCall.start] spawned a monitor for [args]. *)
Definition spawned (args : list string) (w : World) : World :=
  log (EvSpawn (length (children w)))
    (set_children (children w ++ [new_child args]) w).

(** A [SafetyProcessCall] on process [p]. *)
Definition attached (args : list string) (p : pid) : SafetyProcessCall.t :=
  {| SafetyProcessCall.process_args := args; SafetyProcessCall.proc := Some p |}.

(** A row is stopped when no [SafetyProcessCall] is associated. *)
Definition stopped (p : Process.t) : Prop := Process.proc p = None.

(** The world after the body of [SafetyProcessCall.kill] on process [p]. *)
Definition killed (p : pid) (w : World) : World :=
  update_child p SafetyProcessCall.close_queues
    (log EvSleep
       (log (EvClose p) (update_child p SafetyProcessCall.set_closed
          (log (EvJoin p) (update_child p set_exited
             (log (EvKillMessage p)
                (update_child p SafetyProcessCall.put_kill w))))))).

(** The row after a [start] that got as far as spawning the monitor. *)
Definition started (args : list string) (h : pid) (p : Process.t) : Process.t :=
  Process.set_status "Run" (Process.set_proc (Some (attached args h)) p).

(** The lines that [refresh_status] takes from a queue: those of its oldest
    chunk, when it has one. *)
Definition head_lines (q : list string) : list string :=
  match q with
  | chunk :: _ => Process.lines_of chunk
  | [] => []
  end.

(** A row has a live handle when a [SafetyProcessCall] with a process is
    associated. *)
Definition is_attached (p : Process.t) : Prop :=
  exists args h, Process.proc p = Some (attached args h).

(** The row after a successful [kill]. *)
Definition halted (p : Process.t) : Process.t :=
  Process.set_status "Stop" (Process.set_proc None p).

(** The world after the rows of [l] were killed in order. *)
Definition kill_world (l : list Process.t) (w : World) : World :=
  fold_left (fun w p => match Process.handle p with
                        | Some h => killed h w
                        | None => w
                        end) l w.

(** The indices that Python accepts on a list of length [n]. *)
Definition in_range (n : nat) (i : Z) : Prop :=
  (- Z.of_nat n <= i < Z.of_nat n)%Z.

(** A row that [start] can (re)start on runtime [rt]: its [SafetyProcessCall],
    when it has one, holds a process, [shlex] accepts its command and
    [time.sleep] its delay.  Every row that [add] appended is one. *)
Definition restartable (rt : Runtime) (p : Process.t) : Prop :=
  (stopped p \/ is_attached p)
  /\ is_ok (SafetyProcessCall.init rt (Process.commands p)) = true
  /\ sleep_float rt (Process.delay p) = None.

(** ** Scenarios for the examples *)

Definition blank : ProcessTable.t * World := (ProcessTable.init, empty_world).

(** The dashboard after [add a echo hi]. *)
Definition one_row : ProcessTable.t * World :=
  snd (ProcessTable.add CPython.runtime "a" (CmdList ["echo"; "hi"])
         ProcessTable.default_delay blank).

(** ... and after [kill 0]. *)
Definition one_row_killed : ProcessTable.t * World :=
  snd (ProcessTable.kill 0 one_row).

(** The dashboard after [add a echo hi] and [add b sleep 5]. *)
Definition two_rows : ProcessTable.t * World :=
  snd (ProcessTable.add CPython.runtime "b" (CmdList ["sleep"; "5"])
         ProcessTable.default_delay one_row).

(** ** Vocabulary for the monitor *)

Definition is_sleep (a : ProcessListener.action) : bool :=
  match a with ProcessListener.Sleep => true | _ => false end.

Definition is_kill (a : ProcessListener.action) : bool :=
  match a with ProcessListener.Kill => true | _ => false end.

(** The number of polling intervals and of kills in a list of actions. *)
Definition sleeps (acts : list ProcessListener.action) : nat :=
  length (List.filter is_sleep acts).

Definition kills (acts : list ProcessListener.action) : nat :=
  length (List.filter is_kill acts).

(** The text that the stdout listener appended during the passes
    [i, i+1, ..., i+n-1]. *)
Fixpoint observed_stdout (obs : nat -> ProcessListener.observation)
    (i n : nat) : string :=
  match n with
  | O => ""
  | S n' => ProcessListener.new_stdout (obs i) +:+ observed_stdout obs (S i) n'
  end.

Fixpoint concat_text (l : list string) : string :=
  match l with
  | [] => ""
  | x :: rest => x +:+ concat_text rest
  end.

(** A child that never exits and a controller that never asks to kill. *)
Definition keeps_running (obs : nat -> ProcessListener.observation) : Prop :=
  forall j, j < 1000 ->
    ProcessListener.kill_requested (obs j) = false
    /\ ProcessListener.running (obs j) = true.

(** The observations of a child that prints one line between two passes,
    for ever. *)
Definition ticking (j : nat) : ProcessListener.observation :=
  {| ProcessListener.new_stdout := "tick" +:+ PyStr.nl;
     ProcessListener.new_stderr := "";
     ProcessListener.kill_requested := false;
     ProcessListener.running := true |}.

(** ** Vocabulary for the life cycle of a row *)

(** Every live monitor in the world is the one the row is associated with:
    the row has at most one live child. *)
Definition sole_owner (p : Process.t) (w : World) : Prop :=
  forall q, child_alive w q = true -> Process.handle p = Some q.



(** A [SafetyProcessCall] on its first process, in a world that holds it. *)
Definition first_call : SafetyProcessCall.t * World :=
  (attached ["echo"; "hi"] 0,
   spawned ["echo"; "hi"] empty_world).

(** ** Vocabulary for the configuration text *)

(** The fields of one line of a configuration. *)
Definition fields (line : string) : list string := PyStr.split ":::" line.

(** The lines that [load_config] reads from a text. *)
Definition config_lines (config : string) : list string :=
  PyStr.split PyStr.nl (PyStr.strip config).

(** A line that [load_config] turns into the running row [p] when the line
    is reached: it has three fields, [shlex] accepts the second and
    [time.sleep] the third. *)
Definition loads_as (line : string) (p : Process.t) : Prop :=
  exists c d,
    fields line = [Process.name p; c; d]
    /\ Process.commands p = CmdStr c
    /\ Process.delay p = DelayStr d
    /\ Process.status p = "Run"
    /\ is_attached p.

Definition loadable (rt : Runtime) (line : string) : Prop :=
  exists n c d,
    fields line = [n; c; d]
    /\ is_ok (SafetyProcessCall.init rt (CmdStr c)) = true
    /\ sleep_float rt (DelayStr d) = None.

(** A row as [load_config] makes them: command and delay are texts. *)
Definition text_row (p : Process.t) : Prop :=
  (exists c, Process.commands p = CmdStr c)
  /\ (exists d, Process.delay p = DelayStr d).

(** A configuration whose second line has no delimiter. *)
Definition partial_config : string := "a:::echo:::0" +:+ PyStr.nl +:+ "bad".

(** The arguments that a row's [SafetyProcessCall] hands to [Popen]. *)
Definition row_args (p : Process.t) : option (list string) :=
  SafetyProcessCall.process_args <$> Process.proc p.

(** ** Vocabulary for the output of a child *)

(** The text of a group of lines: each line followed by a newline, as
    [readline] hands them to the buffer. *)
Definition text_of (group : list string) : string :=
  concat_text (map (fun l => l +:+ PyStr.nl) group).

Definition newline : ascii := ascii_of_nat 10.

Fixpoint no_newline (s : string) : bool :=
  match s with
  | EmptyString => true
  | String c t => negb (Ascii.eqb newline c) && no_newline t
  end.

(** The line is not empty and its first character is no whitespace. *)
Definition starts_clean (s : string) : bool :=
  match s with
  | EmptyString => false
  | String c _ => negb (PyStr.isspace c)
  end.

(** The line is not empty and its last character is no whitespace. *)
Fixpoint ends_clean (s : string) : bool :=
  match s with
  | EmptyString => false
  | String c t =>
      match t with
      | EmptyString => negb (PyStr.isspace c)
      | String _ _ => ends_clean t
      end
  end.

(** A group of lines that [strip] leaves whole when they form one chunk. *)
Definition edge_clean (group : list string) : Prop :=
  Forall (fun l => no_newline l = true) group
  /\ (exists first rest, group = first :: rest /\ starts_clean first = true)
  /\ (exists front final, group = front ++ [final] /\ ends_clean final = true).

(** One step of a schedule: the monitor puts a chunk on a queue, or the
    controller refreshes the row. *)
Inductive step : Type :=
| MonitorPutStdout (chunk : string)
| MonitorPutStderr (chunk : string)
| ControllerRefresh.

Definition run_step (h : pid) (s : step) (st : Process.t * World)
  : Process.t * World :=
  match s with
  | MonitorPutStdout chunk => (fst st, monitor_put_stdout h chunk (snd st))
  | MonitorPutStderr chunk => (fst st, monitor_put_stderr h chunk (snd st))
  | ControllerRefresh => snd (Process.refresh_status st)
  end.

Definition run_steps (h : pid) (steps : list step) (st : Process.t * World)
  : Process.t * World :=
  fold_left (fun st s => run_step h s st) steps st.

Definition stdout_puts (steps : list step) : list string :=
  omap (fun s => match s with MonitorPutStdout c => Some c | _ => None end) steps.

Definition stderr_puts (steps : list step) : list string :=
  omap (fun s => match s with MonitorPutStderr c => Some c | _ => None end) steps.

(** The lines that the chunks of a queue contribute to [result]. *)
Definition lines_of_chunks (chunks : list string) : list string :=
  concat (map Process.lines_of chunks).

(** [merge a b l]: [l] interleaves [a] and [b], each in its order and each
    element once. *)
Inductive merge {A : Type} : list A -> list A -> list A -> Prop :=
| merge_nil : merge [] [] []
| merge_left x a b l : merge a b l -> merge (x :: a) b (x :: l)
| merge_right y a b l : merge a b l -> merge a (y :: b) (y :: l).

(** A child that prints an empty line and then [ok], and has exited when
    the monitor makes its first pass. *)
Definition blank_then_ok (j : nat) : ProcessListener.observation :=
  {| ProcessListener.new_stdout := PyStr.nl +:+ "ok" +:+ PyStr.nl;
     ProcessListener.new_stderr := "";
     ProcessListener.kill_requested := false;
     ProcessListener.running := false |}.

(** What a schedule has established for the row [p0] on process [h], when
    the monitor has put the chunks [outs] and [errs] so far: the row still
    holds the process, [result] is the old one followed by an interleaving
    of the lines of the chunks taken from either queue, and the chunks not
    yet taken wait in the queues, at most [no] and [ne] of them. *)
Definition delivered (p0 : Process.t) (args : list string) (h : pid)
    (outs errs : list string) (no ne : nat) (st : Process.t * World) : Prop :=
  exists c taken_out taken_err new,
    Process.proc (fst st) = Some (attached args h)
    /\ children (snd st) !! h = Some c
    /\ outs = taken_out ++ qstdout c
    /\ errs = taken_err ++ qstderr c
    /\ length (qstdout c) <= no
    /\ length (qstderr c) <= ne
    /\ Process.result (fst st) = Process.result p0 ++ new
    /\ merge (lines_of_chunks taken_out) (lines_of_chunks taken_err) new.

(** The dashboard after [add] of a script, and its one row. *)
Definition script_table : ProcessTable.t * World :=
  snd (ProcessTable.add CPython.runtime "s" (CmdStr "./script.sh")
         ProcessTable.default_delay blank).

Definition script_row : Process.t :=
  started ["./script.sh"] 0
    (Process.init "s" (CmdStr "./script.sh") ProcessTable.default_delay).


(** A child that prints [hi] and has exited when the monitor makes its
    first pass. *)
Definition prints_hi (j : nat) : ProcessListener.observation :=
  {| ProcessListener.new_stdout := "hi" +:+ PyStr.nl;
     ProcessListener.new_stderr := "";
     ProcessListener.kill_requested := false;
     ProcessListener.running := false |}.

(** ** Vocabulary for rows that the configuration format can carry *)

Fixpoint no_colon (s : string) : bool :=
  match s with
  | EmptyString => true
  | String c t => negb (Ascii.eqb ":" c) && no_colon t
  end.

(** The text holds neither a line feed nor a carriage return. *)
Fixpoint no_line_break (s : string) : bool :=
  match s with
  | EmptyString => true
  | String c t =>
      negb (nat_of_ascii c =? 10)%nat && negb (nat_of_ascii c =? 13)%nat
      && no_line_break t
  end.

(** The line of a row without its newline. *)
Definition line_of (p : Process.t) : string :=
  Process.name p +:+ ":::" +:+ str_command (Process.commands p) +:+ ":::"
  +:+ str_delay (Process.delay p).

(** A row that the configuration format carries: its command is a text,
    its line holds no line feed and no carriage return and splits back into
    its three fields, and the runtime accepts command and delay when the
    line is read. *)
Definition carried (rt : Runtime) (p : Process.t) : Prop :=
  (exists c, Process.commands p = CmdStr c
             /\ is_ok (SafetyProcessCall.init rt (CmdStr c)) = true)
  /\ no_line_break (line_of p) = true
  /\ fields (line_of p)
     = [Process.name p; str_command (Process.commands p);
        str_delay (Process.delay p)]
  /\ sleep_float rt (DelayStr (str_delay (Process.delay p))) = None.


(** Each row of [l] runs on a process of its own: the row at position [k]
    holds process [base + k], which is alive in [w], so that no two rows
    hold the same process. *)
Definition own_processes (base : nat) (w : World) (l : list Process.t) : Prop :=
  forall k q,
    l !! k = Some q ->
    Process.handle q = Some (base + k) /\ child_alive w (base + k) = true.

(** A row whose name holds a carriage return. *)
Definition carriage_row : ProcessTable.t * World :=
  snd (ProcessTable.add CPython.runtime
         ("a" +:+ String (ascii_of_nat 13) "b") (CmdStr "echo hi")
         ProcessTable.default_delay blank).


(** The dashboard of the sample rows with text commands. *)
Definition text_rows : ProcessTable.t * World :=
  snd (ProcessTable.add CPython.runtime "b" (CmdStr "sleep 5") (DelayFloat "0.5")
         (snd (ProcessTable.add CPython.runtime "a" (CmdStr "echo hi")
                 ProcessTable.default_delay blank))).

(** ** Vocabulary for the registry as a whole *)

(** The process that a row holds, when it holds one, was spawned in [w]. *)
Definition handle_in (w : World) (p : Process.t) : Prop :=
  forall h, Process.handle p = Some h -> h < length (children w).

(** Some row of [l] holds process [q]. *)
Definition held_by (l : list Process.t) (q : pid) : Prop :=
  exists p, p ∈ l /\ Process.handle p = Some q.

(** ** Vocabulary for reading the queues *)

(** [n] calls of [readlines], one after the other. *)
Fixpoint read_all (n : nat) (s : SafetyProcessCall.t * World)
  : list (outcome (option string)) * (SafetyProcessCall.t * World) :=
  match n with
  | O => ([], s)
  | S n' =>
      let '(r, s1) := SafetyProcessCall.readlines s in
      let '(rs, s2) := read_all n' s1 in
      (r :: rs, s2)
  end.

(** The text that the stderr listener appended during the passes
    [i, i+1, ..., i+n-1]. *)
Fixpoint observed_stderr (obs : nat -> ProcessListener.observation)
    (i n : nat) : string :=
  match n with
  | O => ""
  | S n' => ProcessListener.new_stderr (obs i) +:+ observed_stderr obs (S i) n'
  end.

(** Pass [j] is one at which the polling loop leaves. *)
Definition leaves_at (obs : nat -> ProcessListener.observation) (j : nat) : Prop :=
  ProcessListener.kill_requested (obs j) = true
  \/ ProcessListener.running (obs j) = false.

(** A child that prints a line between two passes and exits before the
    fourth. *)
Definition three_ticks (j : nat) : ProcessListener.observation :=
  {| ProcessListener.new_stdout := "tick" +:+ PyStr.nl;
     ProcessListener.new_stderr := "";
     ProcessListener.kill_requested := false;
     ProcessListener.running := (j <? 3)%nat |}.

(** ** More Python strings *)

(** The scan of [s.split()]: runs of whitespace separate the words; [cur]
    is the word being read. *)
Fixpoint split_words_scan (cur : string) (s : string) : list string :=
  match s with
  | EmptyString =>
      match cur with
      | EmptyString => []
      | _ => [cur]
      end
  | String c t =>
      if PyStr.isspace c
      then match cur with
           | EmptyString => split_words_scan "" t
           | _ => cur :: split_words_scan "" t
           end
      else split_words_scan (cur +:+ String c "") t
  end.

(** [s.split()] *)
Definition split_words (s : string) : list string := split_words_scan "" s.

(** [s[n:]] for [n >= 0] *)
Fixpoint str_drop (n : nat) (s : string) : string :=
  match n, s with
  | S k, String _ t => str_drop k t
  | _, _ => s
  end.

(** [s.replace(c, by)] for a one-character [c] *)
Fixpoint replace_char (c : ascii) (by_ : string) (s : string) : string :=
  match s with
  | EmptyString => EmptyString
  | String a t =>
      (if Ascii.eqb a c then by_ else String a "") +:+ replace_char c by_ t
  end.

Fixpoint codes (s : string) : list nat :=
  match s with
  | EmptyString => []
  | String a t => nat_of_ascii a :: codes t
  end.

(** [str(list(map(ord, s)))] *)
Definition str_codes (s : string) : string :=
  "[" +:+ PyStr.join ", " (map (fun n => PyStr.str_int (Z.of_nat n)) (codes s))
  +:+ "]".

(** [x in l] on a list of [str] *)
Definition member (x : string) (l : list string) : bool :=
  existsb (String.eqb x) l.

(** [str(e)] on an exception; the text of an exception that the library
    raised is the one it carries. *)
Definition str_exn (e : exn) : string :=
  match e with
  | ValueError m | AttributeError m | IndexError m | OSError m
  | OverflowError m => m
  | FileNotFoundError f =>
      "[Errno 2] No such file or directory: " +:+ PyStr.repr f
  end.

(** ** cui_main.py: Application

    The screen is the list of the calls made on it, oldest first.  The
    window is taken to be large enough for them: no call on it raises.  A
    [move(y, x)] to the pair that the same method read with [getyx] at its
    start is [MoveBack]. *)

Inductive curses_call : Type :=
| Timeout (ms : nat)
| Clear
| Move (y x : nat)
| ClrToEol
| AddStr (y x : nat) (s : string)
| GetYX
| MoveBack
| GetMaxYX
| ResizeTerm
| RefreshScreen.

(** What leaves [getch] and [mainloop]: [KeyboardInterrupt] is no
    [Exception], the others are. *)
Inductive app_exn : Type :=
| KeyboardInterrupt
| EOFError
| Error (e : exn).

Definition is_exception (e : app_exn) : bool :=
  match e with
  | KeyboardInterrupt => false
  | EOFError | Error _ => true
  end.

Inductive app_outcome (A : Type) : Type :=
| Returns (a : A)
| Throws (e : app_exn).
Arguments Returns {A} a.
Arguments Throws {A} e.

(** [int(s)], the one library call of the command interpreter whose
    result depends on its argument. *)
Record Builtins : Type := { int_of : string -> outcome Z }.

Module Application.

Record t : Type := {
  scr : list curses_call;
  command : string;
  last_command : string;
  last_message : string;
  position : nat;
  finish : bool;
  offset : nat;
  debug_str : string;
  process_table : ProcessTable.t
}.

Definition draw (calls : list curses_call) (a : t) : t :=
  {| scr := scr a ++ calls; command := command a;
     last_command := last_command a; last_message := last_message a;
     position := position a; finish := finish a; offset := offset a;
     debug_str := debug_str a; process_table := process_table a |}.

Definition set_command (c : string) (a : t) : t :=
  {| scr := scr a; command := c;
     last_command := last_command a; last_message := last_message a;
     position := position a; finish := finish a; offset := offset a;
     debug_str := debug_str a; process_table := process_table a |}.

Definition set_last_command (c : string) (a : t) : t :=
  {| scr := scr a; command := command a;
     last_command := c; last_message := last_message a;
     position := position a; finish := finish a; offset := offset a;
     debug_str := debug_str a; process_table := process_table a |}.

Definition set_last_message (m : string) (a : t) : t :=
  {| scr := scr a; command := command a;
     last_command := last_command a; last_message := m;
     position := position a; finish := finish a; offset := offset a;
     debug_str := debug_str a; process_table := process_table a |}.

Definition set_position (p : nat) (a : t) : t :=
  {| scr := scr a; command := command a;
     last_command := last_command a; last_message := last_message a;
     position := p; finish := finish a; offset := offset a;
     debug_str := debug_str a; process_table := process_table a |}.

Definition set_finish (f : bool) (a : t) : t :=
  {| scr := scr a; command := command a;
     last_command := last_command a; last_message := last_message a;
     position := position a; finish := f; offset := offset a;
     debug_str := debug_str a; process_table := process_table a |}.

Definition set_debug_str (d : string) (a : t) : t :=
  {| scr := scr a; command := command a;
     last_command := last_command a; last_message := last_message a;
     position := position a; finish := finish a; offset := offset a;
     debug_str := d; process_table := process_table a |}.

Definition set_process_table (tbl : ProcessTable.t) (a : t) : t :=
  {| scr := scr a; command := command a;
     last_command := last_command a; last_message := last_message a;
     position := position a; finish := finish a; offset := offset a;
     debug_str := debug_str a; process_table := tbl |}.

(** A method call [self.process_table.method(...)]. *)
Definition on_table {A : Type} (m : M (ProcessTable.t * World) A)
  : M (t * World) A :=
  fun '(a, w) =>
    let '(r, (tbl, w')) := m (process_table a, w) in
    (r, (set_process_table tbl a, w')).

Definition update (f : t -> t) : M (t * World) unit :=
  a <- self ;; set_self (f a).

(** [refresh_command_cursor()] *)
Definition refresh_command_cursor (a : t) : t :=
  draw [Move 0 (position a + offset a)] a.

(** [refresh_command_line()] *)
Definition refresh_command_line (a : t) : t :=
  refresh_command_cursor
    (draw [Move 0 0; ClrToEol; AddStr 0 0 ("> " +:+ command a)] a).

(** [refresh_last_command()] *)
Definition refresh_last_command (a : t) : t :=
  draw [GetYX; Move 2 0; ClrToEol; AddStr 2 0 ("LAST: " +:+ last_command a);
        MoveBack] a.

(** [refresh_last_message()] *)
Definition refresh_last_message (a : t) : t :=
  draw [GetYX; Move 3 0; ClrToEol; AddStr 3 0 ("MESSAGE: " +:+ last_message a);
        MoveBack] a.

(** [refresh_debug_line()] *)
Definition refresh_debug_line (a : t) : t :=
  draw [GetYX; Move 4 0; ClrToEol; AddStr 4 0 ("INPUT: " +:+ debug_str a);
        MoveBack] a.

(** ["-" * 40] *)
Definition rule : string := "----------------------------------------".

(** The body of the loop of [refresh_process_list] for the rows from
    [idx] on, [n] of them. *)
Fixpoint refresh_rows (n idx : nat) : M (t * World) unit :=
  match n with
  | O => ret tt
  | S n' =>
      on_table (ProcessTable.refresh (Z.of_nat idx)) ;;
      message <- on_table (ProcessTable.get_status (Z.of_nat idx)) ;;
      update (draw [Move (idx + 6) 0; ClrToEol; AddStr (idx + 6) 0 message]) ;;
      refresh_rows n' (S idx)
  end.

(** [refresh_process_list()] *)
Definition refresh_process_list : M (t * World) unit :=
  update (draw [GetYX; AddStr 5 0 rule]) ;;
  n <- on_table ProcessTable.get_count ;;
  refresh_rows n 0 ;;
  update (draw [MoveBack]).

(** [clear_process_list()] *)
Definition clear_process_list (a : t) : t :=
  draw [MoveBack]
    (draw (flat_map (fun idx => [Move (idx + 6) 0; ClrToEol])
             (seq 0 (length (ProcessTable.process_list (process_table a)))))
       (draw [GetYX; AddStr 5 0 rule] a)).

Definition desc : list (string * string) :=
  [("exit", "Exit this program");
   ("start <num/all>", "(Re)start <num>-th process or all process");
   ("kill <num/all>", "Kill <num>-th process or all process");
   ("delete <num/all>", "Delete <num>-th row or all rows");
   ("add <name> <args>", "Add new process to list");
   ("save <name>", "Save current setting as config");
   ("load <name>", "Load saved config")].

(** [show_description()] *)
Definition show_description (a : t) : t :=
  let offset := 5 + length (ProcessTable.process_list (process_table a)) + 2 in
  draw (flat_map
          (fun '(idx, (key, val)) =>
             [Move (idx + offset) 0; ClrToEol;
              AddStr (idx + offset) 0 (PyStr.ljust 20 key +:+ " : " +:+ val);
              MoveBack])
          (imap (fun idx kv => (idx, kv)) desc))
    (draw [GetYX] a).

(** [refresh_all()] *)
Definition refresh_all : M (t * World) unit :=
  update (draw [Clear]) ;;
  update refresh_command_line ;;
  update refresh_last_command ;;
  update refresh_last_message ;;
  update refresh_debug_line ;;
  refresh_process_list ;;
  update show_description.

(** [refresh_window()] *)
Definition refresh_window : M (t * World) unit :=
  update (draw [GetMaxYX; Clear; ResizeTerm; RefreshScreen]) ;;
  refresh_all.

(** [update_command(ch)], with [s = str(chr(ch))] *)
Definition update_command (ch : ascii) (a : t) : t :=
  refresh_command_line
    (set_position (position a + 1)
       (set_command (PyStr.take (position a) (command a) +:+ String ch ""
                     +:+ str_drop (position a) (command a)) a)).

(** [command_cursor_left_move()] *)
Definition command_cursor_left_move (a : t) : t :=
  refresh_command_cursor (set_position (Nat.max (position a - 1) 0) a).

(** [command_cursor_right_move()] *)
Definition command_cursor_right_move (a : t) : t :=
  refresh_command_cursor
    (set_position (Nat.min (position a + 1) (String.length (command a))) a).

(** [command_backspace()] *)
Definition command_backspace (a : t) : t :=
  if (position a =? 0)%nat then a
  else refresh_command_line
         (command_cursor_left_move
            (set_command (PyStr.take (position a - 1) (command a)
                          +:+ str_drop (position a) (command a)) a)).

(** [command_delete()] *)
Definition command_delete (a : t) : t :=
  if (position a =? String.length (command a))%nat then a
  else refresh_command_line
         (set_command (PyStr.take (position a) (command a)
                       +:+ str_drop (position a + 1) (command a)) a).

(** [command_move_cursor(index)] *)
Definition command_move_cursor (index : nat) (a : t) : t :=
  refresh_command_line (set_position index a).

(** [command_load_last()] *)
Definition command_load_last (a : t) : t :=
  let a1 := set_command (last_command a) a in
  refresh_command_line (set_position (String.length (command a1)) a1).

(** [command_list[1]] *)
Definition second (l : list string) : outcome string :=
  match l !! 1 with
  | Some x => Ok x
  | None => Raise (IndexError "list index out of range")
  end.

(** The statements of [process_command] inside [try]. *)
Definition dispatch (rt : Runtime) (bi : Builtins) (command_list : list string)
  : M (t * World) unit :=
  match command_list with
  | [] => ret tt
  | word :: _ =>
      if member word ["exit"; "quit"; "bye"] then
        update (set_finish true) ;;
        update (set_last_message "Exit")
      else if member word ["restart"; "start"] then
        arg <- lift (second command_list) ;;
        if String.eqb arg "all" then
          on_table (ProcessTable.restart_all rt) ;;
          update (set_last_message "Restart all processes")
        else
          val <- lift (int_of bi arg) ;;
          on_table (ProcessTable.restart rt val) ;;
          update (set_last_message
                    ("Restart " +:+ PyStr.str_int val +:+ "-th process"))
      else if member word ["stop"; "kill"] then
        arg <- lift (second command_list) ;;
        if String.eqb arg "all" then
          on_table ProcessTable.kill_all ;;
          update (set_last_message "Kill all processes")
        else
          val <- lift (int_of bi arg) ;;
          on_table (ProcessTable.kill val) ;;
          update (set_last_message
                    ("Kill " +:+ PyStr.str_int val +:+ "-th process"))
      else if member word ["delete"; "remove"] then
        update clear_process_list ;;
        arg <- lift (second command_list) ;;
        if String.eqb arg "all" then
          on_table ProcessTable.delete_all ;;
          update (set_last_message "Delete all processes")
        else
          val <- lift (int_of bi arg) ;;
          on_table (ProcessTable.delete val) ;;
          update (set_last_message
                    ("Delete " +:+ PyStr.str_int val +:+ "-th process"))
      else if member word ["add"; "append"] then
        if (length command_list <? 2)%nat then
          raise (ValueError "The format of add is 'add <name> <args>'")
        else
          name <- lift (second command_list) ;;
          let args := drop 2 command_list in
          on_table (ProcessTable.add rt name (CmdList args)
                      ProcessTable.default_delay) ;;
          update (set_last_message
                    ("add " +:+ PyStr.repr_list args +:+ " as name '"
                     +:+ name +:+ "'"))
      else if member word ["save"] then
        fname <- lift (second command_list) ;;
        on_table (ProcessTable.save_config fname) ;;
        update (set_last_message ("save config to " +:+ fname))
      else if member word ["load"] then
        fname <- lift (second command_list) ;;
        on_table (ProcessTable.load_config rt fname) ;;
        update clear_process_list ;;
        update (set_last_message ("load config from " +:+ fname))
      else if member word ["h"; "help"] then
        update show_description
      else
        update (set_last_message "No command matched")
  end.

(** [process_command()] *)
Definition process_command (rt : Runtime) (bi : Builtins) : M (t * World) unit :=
  a <- self ;;
  let command_list := split_words (PyStr.strip (command a)) in
  update (set_last_command (PyStr.strip (command a))) ;;
  (fun s =>
     match dispatch rt bi command_list s with
     | (Ok _, s') => (Ok tt, s')
     | (Raise e, s') => update (set_last_message (str_exn e)) s'
     end) ;;
  update refresh_last_command ;;
  update refresh_last_message ;;
  update (set_command "") ;;
  update (set_position 0) ;;
  update refresh_command_line.

(** The text that [getch] shows for a key. *)
Definition debug_text (ch : string) : string :=
  replace_char (ascii_of_nat 0) (String PyStr.backslash "0")
    (replace_char newline (String PyStr.backslash "n") ch
     +:+ " " +:+ str_codes ch).

(** The branch of [getch] for a key with a name. *)
Definition named_key (ch : string) : M (t * World) unit :=
  if String.eqb ch "KEY_LEFT" then update command_cursor_left_move
  else if String.eqb ch "KEY_RIGHT" then update command_cursor_right_move
  else if String.eqb ch "KEY_UP" then update command_load_last
  else if String.eqb ch "KEY_RESIZE" then refresh_window
  else if String.eqb ch "KEY_HOME" then update (command_move_cursor 0)
  else if String.eqb ch "KEY_END" then
    a <- self ;; update (command_move_cursor (String.length (command a)))
  else if String.eqb ch "KEY_DC" then update command_delete
  else ret tt.

Definition throw {A : Type} (e : app_exn) (s : t * World)
  : app_outcome A * (t * World) := (Throws e, s).

Definition escalate {A : Type} (r : outcome A * (t * World))
  : app_outcome A * (t * World) :=
  match r with
  | (Ok a, s) => (Returns a, s)
  | (Raise e, s) => (Throws (Error e), s)
  end.

(** [getch()]; [key] is what [getkey] hands out, [None] when it raises
    [curses.error] at the end of the timeout. *)
Definition getch (rt : Runtime) (bi : Builtins) (key : option string)
    (s : t * World) : app_outcome Z * (t * World) :=
  match key with
  | None => (Returns (-1)%Z, s)
  | Some ch =>
      let s1 := (refresh_debug_line (set_debug_str (debug_text ch) (fst s)),
                 snd s) in
      match ch with
      | String c EmptyString =>
          let n := nat_of_ascii c in
          let after (r : outcome unit * (t * World)) :=
            match r with
            | (Ok _, s2) =>
                (Returns (if ((n <? 32) || (127 <=? n))%nat then 0%Z
                          else Z.of_nat n), s2)
            | (Raise e, s2) => (Throws (Error e), s2)
            end in
          if (n =? 3)%nat then throw KeyboardInterrupt s1
          else if (n =? 26)%nat then throw EOFError s1
          else if (n =? 27)%nat then after (update (set_finish true) s1)
          else if (n =? 10)%nat then after (process_command rt bi s1)
          else if (n =? 8)%nat then after (update command_backspace s1)
          else after (Ok tt, s1)
      | _ =>
          match named_key ch s1 with
          | (Ok _, s2) => (Returns 0%Z, s2)
          | (Raise e, s2) => (Throws (Error e), s2)
          end
      end
  end.

(** How far the [while] loop of [mainloop] got on the keys it was given. *)
Inductive loop_state : Type :=
| Finished                 (* [self.finish] was found set *)
| Raised (e : app_exn)     (* an exception left the loop *)
| Waiting.                 (* the keys are used up *)

(** The [while] loop of [mainloop] on the keys that [getkey] hands out. *)
Fixpoint loop (rt : Runtime) (bi : Builtins) (keys : list (option string))
    (s : t * World) : loop_state * (t * World) :=
  if finish (fst s) then (Finished, s)
  else
    match keys with
    | [] => (Waiting, s)
    | key :: rest =>
        match getch rt bi key s with
        | (Throws e, s1) => (Raised e, s1)
        | (Returns ch, s1) =>
            if (ch =? 0)%Z then loop rt bi rest s1
            else if (ch =? -1)%Z then
              match refresh_process_list s1 with
              | (Ok _, s2) => loop rt bi rest s2
              | (Raise e, s2) => (Raised (Error e), s2)
              end
            else
              loop rt bi rest
                (update_command (ascii_of_nat (Z.to_nat ch)) (fst s1), snd s1)
        end
    end.

(** [mainloop()] on the keys that [getkey] hands out: [None] while the
    loop is still waiting for a key, else how it ended. *)
Definition mainloop (rt : Runtime) (bi : Builtins) (keys : list (option string))
    (s : t * World) : option (app_outcome unit) * (t * World) :=
  match loop rt bi keys s with
  | (Waiting, s1) => (None, s1)
  | (Finished, s1) =>
      let '(r, s2) := escalate (on_table ProcessTable.kill_all s1) in
      (Some r, s2)
  | (Raised e, s1) =>
      if is_exception e then
        match on_table ProcessTable.kill_all s1 with
        | (Ok _, s2) => (Some (Throws e), s2)
        | (Raise e', s2) => (Some (Throws (Error e')), s2)
        end
      else (Some (Throws e), s1)
  end.

End Application.

(** ** Vocabulary for the command line *)

(** The keys that edit the command line. *)
Inductive edit : Type :=
| Typed (ch : ascii)
| CursorLeft
| CursorRight
| Backspace
| DeleteKey
| Home
| End_
| LoadLast.

(** The method that [getch] and [mainloop] call for each of them. *)
Definition apply_edit (e : edit) (a : Application.t) : Application.t :=
  match e with
  | Typed ch => Application.update_command ch a
  | CursorLeft => Application.command_cursor_left_move a
  | CursorRight => Application.command_cursor_right_move a
  | Backspace => Application.command_backspace a
  | DeleteKey => Application.command_delete a
  | Home => Application.command_move_cursor 0 a
  | End_ =>
      Application.command_move_cursor
        (String.length (Application.command a)) a
  | LoadLast => Application.command_load_last a
  end.

(** The cursor is on the command or just behind it. *)
Definition cursor_in_line (a : Application.t) : Prop :=
  Application.position a <= String.length (Application.command a).

Fixpoint string_of_list (l : list ascii) : string :=
  match l with
  | [] => EmptyString
  | c :: rest => String c (string_of_list rest)
  end.

(** A dashboard in front of which nobody has typed yet. *)
Definition fresh_app (tbl : ProcessTable.t) : Application.t :=
  {| Application.scr := []; Application.command := "";
     Application.last_command := ""; Application.last_message := "";
     Application.position := 0; Application.finish := false;
     Application.offset := 2; Application.debug_str := "";
     Application.process_table := tbl |}.

(** ** Vocabulary for the command interpreter *)

(** The words that [process_command] knows. *)
Definition index_words : list string :=
  ["restart"; "start"; "stop"; "kill"; "delete"; "remove"].

Definition file_words : list string := ["save"; "load"].

Definition known_words : list string :=
  ["exit"; "quit"; "bye"] ++ index_words ++ ["add"; "append"] ++ file_words
  ++ ["h"; "help"].

(** The state in which the statements inside [try] start: the stripped
    command has been stored as the last command. *)
Definition entered (a : Application.t) : Application.t :=
  Application.set_last_command (PyStr.strip (Application.command a)) a.

(** The statements of [process_command] behind the [try]. *)
Definition leave (a : Application.t) : Application.t :=
  Application.refresh_command_line
    (Application.set_position 0
       (Application.set_command ""
          (Application.refresh_last_message
             (Application.refresh_last_command a)))).

(** A builtin [int] that reads the decimal numbers of the examples. *)
Definition small_int (s : string) : outcome Z :=
  if String.eqb s "-1" then Ok (-1)%Z
  else if String.eqb s "0" then Ok 0%Z
  else if String.eqb s "1" then Ok 1%Z
  else if String.eqb s "2" then Ok 2%Z
  else if String.eqb s "9223372036854775808" then Ok 9223372036854775808%Z
  else Raise (ValueError ("invalid literal for int() with base 10: "
                          +:+ PyStr.repr s)).

Definition builtins : Builtins := {| int_of := small_int |}.

(** The method [m] leaves the dashboard in a state related by [R] to the
    one it started in, whether it returns or raises. *)
Definition keeps {A : Type} (R : Application.t -> Application.t -> Prop)
    (m : M (Application.t * World) A) : Prop :=
  forall s, R (fst s) (fst (snd (m s))).

(** The command line and the last command are the same. *)
Definition same_line (a a' : Application.t) : Prop :=
  Application.command a' = Application.command a
  /\ Application.position a' = Application.position a
  /\ Application.last_command a' = Application.last_command a.

(** The last message after a command of the registry: [done] when the call
    returned, the text of the exception when it raised. *)
Definition report {A : Type} (done : string) (r : outcome A) : string :=
  match r with
  | Ok _ => done
  | Raise e => str_exn e
  end.

(** ** Vocabulary for the keys *)

(** What [getkey] hands out for Escape, Ctrl+C, Ctrl+Z and Enter, and for
    the end of the timeout. *)
Definition key_escape : option string := Some (String (ascii_of_nat 27) "").
Definition key_ctrl_c : option string := Some (String (ascii_of_nat 3) "").
Definition key_eof : option string := Some (String (ascii_of_nat 26) "").
Definition key_enter : option string := Some (String (ascii_of_nat 10) "").
Definition key_timeout : option string := None.

(** The rows of the dashboard. *)
Definition rows_of (a : Application.t) : list Process.t :=
  ProcessTable.process_list (Application.process_table a).

(** ** Vocabulary for the timeout tick *)

(** Row [p'] is row [p] after [refresh_status] in a world in which the
    processes are alive as in [w]: the same process, name and command, and
    the status that the liveness of the process gives. *)
Definition refreshed (w : World) (p p' : Process.t) : Prop :=
  Process.proc p' = Process.proc p
  /\ Process.name p' = Process.name p
  /\ Process.commands p' = Process.commands p
  /\ (forall h, Process.handle p = Some h ->
        Process.status p' = (if child_alive w h then "Run" else "Stop")).

(** ** Vocabulary for typing *)

(** A printable ASCII character. *)
Definition printable (c : ascii) : Prop := 32 <= nat_of_ascii c < 127.

(** What [getkey] hands out while the characters of [l] are typed. *)
Definition keys_of (l : list ascii) : list (option string) :=
  map (fun c => Some (String c "")) l.

(** ** More scenarios for the examples *)

(** The rows of [two_rows]. *)
Definition row_a : Process.t :=
  started ["echo"; "hi"] 0
    (Process.init "a" (CmdList ["echo"; "hi"]) ProcessTable.default_delay).

Definition row_b : Process.t :=
  started ["sleep"; "5"] 1
    (Process.init "b" (CmdList ["sleep"; "5"]) ProcessTable.default_delay).

(** The dashboard after [add a echo hi], [add b sleep 5] and [kill 1]. *)
Definition second_killed : ProcessTable.t * World :=
  snd (ProcessTable.kill 1 two_rows).

(** A dashboard on the registry [tw] with [cmd] on the command line and the
    cursor behind it. *)
Definition dashboard (cmd : string) (tw : ProcessTable.t * World)
  : Application.t * World :=
  (Application.set_position (String.length cmd)
     (Application.set_command cmd (fresh_app (fst tw))), snd tw).

(** The first process of [first_call] after its monitor has passed on two
    chunks. *)
Definition two_chunks : World :=
  monitor_put_stdout 0 ("b" +:+ PyStr.nl)
    (monitor_put_stdout 0 ("a" +:+ PyStr.nl) (snd first_call)).

(** * Properties *)

(** ** Evaluation of the string functions *)

Example split_fields :
  PyStr.split ":::" "a:::echo hi:::0.0" = ["a"; "echo hi"; "0.0"].
Proof. reflexivity. Qed.

Example split_greedy : PyStr.split ":::" "a::::b" = ["a"; ":b"].
Proof. reflexivity. Qed.

Example split_empty : PyStr.split ":::" "" = [""].
Proof. reflexivity. Qed.

Example split_trailing : PyStr.split ":::" "a:::" = ["a"; ""].
Proof. reflexivity. Qed.

Example strip_chunk : PyStr.strip ("  x " +:+ PyStr.nl) = "x".
Proof. reflexivity. Qed.

Example repr_list_ex : PyStr.repr_list ["echo"; "hi"] = "['echo', 'hi']".
Proof. reflexivity. Qed.

Example rjust_ex : PyStr.rjust 5 (PyStr.str_int (-1)) = "   -1".
Proof. reflexivity. Qed.

Example shlex_words : CPython.shlex_split "python sleep.py" = Ok ["python"; "sleep.py"].
Proof. reflexivity. Qed.

Example shlex_quotes :
  CPython.shlex_split "python -c 'import time; time.sleep(1)'"
  = Ok ["python"; "-c"; "import time; time.sleep(1)"].
Proof. reflexivity. Qed.

Example shlex_list_repr :
  CPython.shlex_split "['echo', 'hi']" = Ok ["[echo,"; "hi]"].
Proof. reflexivity. Qed.

Example shlex_open_quote :
  CPython.shlex_split "echo 'hi" = Raise (ValueError "No closing quotation").
Proof. reflexivity. Qed.

Example sleep_default : CPython.sleep_float ProcessTable.default_delay = None.
Proof. reflexivity. Qed.

Example sleep_text : CPython.sleep_float (DelayStr "0.5") = None.
Proof. reflexivity. Qed.

Example sleep_bad_text : is_Some (CPython.sleep_float (DelayStr "soon")).
Proof. vm_compute. eauto. Qed.

(** ** Strings *)

Lemma str_app_cons a s t : String a s +:+ t = String a (s +:+ t).
Proof. reflexivity. Qed.

Lemma str_app_nil_l s : "" +:+ s = s.
Proof. reflexivity. Qed.

Lemma str_app_nil_r s : s +:+ "" = s.
Proof.
  induction s as [|a s IH]; [reflexivity|].
  now rewrite str_app_cons, IH.
Qed.

Lemma str_app_assoc s t u : (s +:+ t) +:+ u = s +:+ (t +:+ u).
Proof.
  induction s as [|a s IH]; [reflexivity|].
  now rewrite !str_app_cons, IH.
Qed.

(** ** Tactics for running a method *)

Ltac run :=
  cbv beta iota zeta
    delta [bind ret raise self set_self world on_world lift fst snd] in *;
  simpl in *.

Ltac splits := repeat match goal with |- _ /\ _ => split end.

(** ** SafetyProcessCall *)

Lemma spc_kill_not_started s w :
  SafetyProcessCall.proc s = None ->
  SafetyProcessCall.kill (s, w) = (Raise not_started, (s, w)).
Proof. intros H. unfold SafetyProcessCall.kill. run. now rewrite H. Qed.

(** *** The world under [log] and [update_child] *)

Lemma children_log e w : children (log e w) = children w.
Proof. reflexivity. Qed.


Lemma files_log e w : files (log e w) = files w.
Proof. reflexivity. Qed.

Lemma events_update_child p f w : events (update_child p f w) = events w.
Proof. unfold update_child. now destruct (children w !! p). Qed.

Lemma files_update_child p f w : files (update_child p f w) = files w.
Proof. unfold update_child. now destruct (children w !! p). Qed.

Lemma children_update_child p f w :
  children (update_child p f w)
  = match children w !! p with
    | Some c => <[p := f c]> (children w)
    | None => children w
    end.
Proof. unfold update_child. now destruct (children w !! p). Qed.

Lemma length_update_child p f w :
  length (children (update_child p f w)) = length (children w).
Proof.
  rewrite children_update_child. destruct (children w !! p); [|reflexivity].
  apply length_insert.
Qed.

Lemma lookup_update_child_eq p f w :
  children (update_child p f w) !! p = f <$> children w !! p.
Proof.
  rewrite children_update_child.
  destruct (children w !! p) as [c|] eqn:E; simpl; [|assumption].
  apply list_lookup_insert_eq. eapply lookup_lt_Some; eassumption.
Qed.

Lemma lookup_update_child_ne p q f w :
  q <> p -> children (update_child p f w) !! q = children w !! q.
Proof.
  intros Hne. rewrite children_update_child.
  destruct (children w !! p); [|reflexivity].
  apply list_lookup_insert_ne. congruence.
Qed.

Lemma child_alive_log e w q : child_alive (log e w) q = child_alive w q.
Proof. reflexivity. Qed.

Lemma child_alive_update_ne p q f w :
  q <> p -> child_alive (update_child p f w) q = child_alive w q.
Proof. intros Hne. unfold child_alive. now rewrite lookup_update_child_ne. Qed.

Lemma child_alive_update_eq p f w :
  (forall c, alive (f c) = alive c) ->
  child_alive (update_child p f w) p = child_alive w p.
Proof.
  intros Hf. unfold child_alive. rewrite lookup_update_child_eq.
  destruct (children w !! p); simpl; [apply Hf|reflexivity].
Qed.

Lemma child_alive_exited p w : child_alive (update_child p set_exited w) p = false.
Proof.
  unfold child_alive. rewrite lookup_update_child_eq.
  now destruct (children w !! p).
Qed.

Lemma killed_alive_same p w : child_alive (killed p w) p = false.
Proof.
  unfold killed.
  rewrite child_alive_update_eq by reflexivity.
  rewrite !child_alive_log.
  rewrite child_alive_update_eq by reflexivity.
  rewrite child_alive_log. apply child_alive_exited.
Qed.

Lemma killed_alive_other p q w :
  q <> p -> child_alive (killed p w) q = child_alive w q.
Proof.
  intros Hne. unfold killed.
  repeat first [ rewrite child_alive_update_ne by assumption
               | rewrite child_alive_log ].
  reflexivity.
Qed.

Lemma killed_length p w : length (children (killed p w)) = length (children w).
Proof.
  unfold killed.
  repeat (rewrite length_update_child || rewrite children_log).
  reflexivity.
Qed.


Lemma killed_files p w : files (killed p w) = files w.
Proof.
  unfold killed.
  repeat (rewrite files_update_child || rewrite files_log).
  reflexivity.
Qed.

Lemma spc_kill_started s w p :
  SafetyProcessCall.proc s = Some p ->
  SafetyProcessCall.kill (s, w)
  = (Ok tt, (SafetyProcessCall.set_proc None s, killed p w)).
Proof. intros H. unfold SafetyProcessCall.kill. run. now rewrite H. Qed.

Lemma spc_kill_ok_inv s w s' w' :
  SafetyProcessCall.kill (s, w) = (Ok tt, (s', w')) ->
  SafetyProcessCall.proc s' = None.
Proof.
  intros H. destruct (SafetyProcessCall.proc s) as [p|] eqn:E.
  - rewrite (spc_kill_started s w p E) in H. now inversion H.
  - rewrite spc_kill_not_started in H by assumption. discriminate.
Qed.

Lemma ask_without_process q s w :
  SafetyProcessCall.proc s = None ->
  ask q (s, w) = (answer_without_process q, (s, w)).
Proof.
  intros H. destruct q; unfold ask, SafetyProcessCall.is_alive,
    SafetyProcessCall.readlines, SafetyProcessCall.readlines_stderr,
    SafetyProcessCall.kill;
    run; now rewrite H.
Qed.

Lemma spc_start_fresh s w :
  SafetyProcessCall.proc s = None ->
  SafetyProcessCall.start (s, w)
  = (Ok tt,
     (SafetyProcessCall.set_proc (Some (length (children w))) s,
      spawned (SafetyProcessCall.process_args s) w)).
Proof. intros H. unfold SafetyProcessCall.start. run. now rewrite H. Qed.

Lemma child_alive_spawned w args :
  child_alive (spawned args w) (length (children w)) = true.
Proof.
  unfold child_alive, spawned, log, set_children; simpl.
  rewrite lookup_app_r by lia. now rewrite Nat.sub_diag.
Qed.

Lemma child_alive_spawned_old w args q :
  q < length (children w) ->
  child_alive (spawned args w) q = child_alive w q.
Proof.
  intros Hlt. unfold child_alive, spawned, log, set_children; simpl.
  now rewrite lookup_app_l by assumption.
Qed.

Lemma child_alive_lt w q : child_alive w q = true -> q < length (children w).
Proof.
  unfold child_alive. destruct (children w !! q) eqn:E; [|discriminate].
  intros _. eapply lookup_lt_Some; eassumption.
Qed.

Lemma length_spawned args w :
  length (children (spawned args w)) = S (length (children w)).
Proof. unfold spawned, log, set_children; simpl. rewrite length_app. simpl. lia. Qed.


(** C10.  When [kill] returns normally on a [SafetyProcessCall], no process
    is associated any more: whatever sequence of [is_alive], [readlines],
    [readlines_stderr] and further [kill] calls follows, [is_alive] answers
    [False], the others raise [ValueError("Not started")], and nothing
    changes; the next [start] associates a new live process. *)
Theorem C10_kill_disassociates s w s' w' :
  SafetyProcessCall.kill (s, w) = (Ok tt, (s', w')) ->
  SafetyProcessCall.proc s' = None
  /\ (forall qs : list query,
        ask_all qs (s', w') = (map answer_without_process qs, (s', w')))
  /\ (exists s'' w'' p,
        SafetyProcessCall.start (s', w') = (Ok tt, (s'', w''))
        /\ SafetyProcessCall.proc s'' = Some p
        /\ fst (SafetyProcessCall.is_alive (s'', w'')) = Ok true).
Proof.
  intros H. pose proof (spc_kill_ok_inv _ _ _ _ H) as Hnone.
  split; [assumption|]. split.
  - induction qs as [|q qs IH]; simpl; [reflexivity|].
    rewrite ask_without_process by assumption. now rewrite IH.
  - eexists _, _, _. split; [apply spc_start_fresh; assumption|].
    split; [reflexivity|].
    unfold SafetyProcessCall.is_alive. run.
    now rewrite child_alive_spawned.
Qed.

Lemma C10_witness :
  SafetyProcessCall.proc (SafetyProcessCall.set_proc None (fst first_call)) = None
  /\ ask_all [AskAlive; AskReadlines; AskReadlinesStderr; AskKill; AskAlive]
       (SafetyProcessCall.set_proc None (fst first_call), killed 0 (snd first_call))
     = ([Ok (Alive false); Raise not_started; Raise not_started;
         Raise not_started; Ok (Alive false)],
        (SafetyProcessCall.set_proc None (fst first_call), killed 0 (snd first_call))).
Proof.
  destruct (C10_kill_disassociates (fst first_call) (snd first_call)
              (SafetyProcessCall.set_proc None (fst first_call))
              (killed 0 (snd first_call)) eq_refl) as (H1 & H2 & _).
  split; [exact H1|].
  exact (H2 [AskAlive; AskReadlines; AskReadlinesStderr; AskKill; AskAlive]).
Defined.

(** ** Process *)

Lemma process_kill_stopped p w :
  stopped p ->
  Process.kill (p, w) = (Raise (no_attribute "kill"), (p, w)).
Proof.
  unfold stopped. intros H. unfold Process.kill, Process.on_proc. run.
  now rewrite H.
Qed.

Lemma process_kill_attached p w args h :
  Process.proc p = Some (attached args h) ->
  Process.kill (p, w)
  = (Ok tt, (Process.set_status "Stop" (Process.set_proc None p), killed h w)).
Proof.
  intros H. unfold Process.kill, Process.on_proc, Process.update. run.
  rewrite H. now rewrite (spc_kill_started (attached args h) w h eq_refl).
Qed.

Lemma process_start_stopped rt p w :
  stopped p ->
  Process.start rt (p, w)
  = match SafetyProcessCall.init rt (Process.commands p) with
    | Raise e => (Raise e, (p, w))
    | Ok s =>
        let args := SafetyProcessCall.process_args s in
        let p' := started args (length (children w)) p in
        match sleep_float rt (Process.delay p) with
        | Some e => (Raise e, (p', spawned args w))
        | None => (Ok tt, (p', log EvSleep (spawned args w)))
        end
    end.
Proof.
  unfold stopped. intros H.
  unfold Process.start, Process.on_proc, Process.update, Process.settle. run.
  rewrite H. cbn [fst snd].
  destruct (SafetyProcessCall.init rt (Process.commands p)) as [s|e] eqn:E;
    [|reflexivity].
  cbn [fst snd].
  assert (Hs : SafetyProcessCall.proc s = None).
  { unfold SafetyProcessCall.init in E.
    destruct (Process.commands p); [destruct (shlex_split rt s0)|];
      inversion E; reflexivity. }
  rewrite (spc_start_fresh s w Hs). simpl.
  destruct (sleep_float rt (Process.delay p)); reflexivity.
Qed.

Lemma process_start_attached rt p w args h :
  Process.proc p = Some (attached args h) ->
  Process.start rt (p, w)
  = Process.start rt
      (Process.set_status "Stop" (Process.set_proc None p), killed h w).
Proof.
  intros H. unfold Process.start. run. rewrite H.
  rewrite (process_kill_attached p w args h H). reflexivity.
Qed.

Lemma refresh_stopped p w :
  stopped p ->
  Process.refresh_status (p, w)
  = (Raise (no_attribute "readlines"), (Process.set_status "Stop" p, w)).
Proof.
  unfold stopped. intros H.
  unfold Process.refresh_status, Process.on_proc, Process.update. run.
  rewrite H. cbn. now rewrite H.
Qed.

(** C2.  [refresh_status] on a row with no process associated sets the
    status to ["Stop"] and then raises [AttributeError]: the two reads are
    made on [self.proc], which is [None].  It does not return normally. *)
Theorem C2_refresh_stopped_raises p w :
  stopped p ->
  Process.refresh_status (p, w)
  = (Raise (no_attribute "readlines"), (Process.set_status "Stop" p, w))
  /\ Process.status (fst (snd (Process.refresh_status (p, w)))) = "Stop"
  /\ is_ok (fst (Process.refresh_status (p, w))) = false.
Proof.
  intros H. rewrite (refresh_stopped p w H). repeat split.
Qed.

Lemma C2_witness :
  Process.refresh_status (Process.init "a" (CmdStr "echo hi") ProcessTable.default_delay, empty_world)
  = (Raise (AttributeError "'NoneType' object has no attribute 'readlines'"),
     (Process.set_status "Stop"
        (Process.init "a" (CmdStr "echo hi") ProcessTable.default_delay),
      empty_world)).
Proof.
  exact (proj1 (C2_refresh_stopped_raises
                  (Process.init "a" (CmdStr "echo hi") ProcessTable.default_delay)
                  empty_world eq_refl)).
Defined.

(** With a process associated, [refresh_status] returns normally: it sets
    the status from the liveness of the monitor, takes the oldest chunk of
    each queue, when there is one, and appends its lines to [result]. *)
Lemma refresh_attached p w args h c :
  Process.proc p = Some (attached args h) ->
  children w !! h = Some c ->
  exists p' w' c',
    Process.refresh_status (p, w) = (Ok tt, (p', w'))
    /\ Process.proc p' = Some (attached args h)
    /\ Process.name p' = Process.name p
    /\ Process.commands p' = Process.commands p
    /\ Process.delay p' = Process.delay p
    /\ Process.status p' = (if alive c then "Run" else "Stop")
    /\ Process.result p'
       = Process.result p ++ head_lines (qstdout c) ++ head_lines (qstderr c)
    /\ children w' !! h = Some c'
    /\ qstdout c' = tail (qstdout c)
    /\ qstderr c' = tail (qstderr c)
    /\ alive c' = alive c
    /\ (forall q, q <> h -> children w' !! q = children w !! q)
    /\ length (children w') = length (children w)
    /\ events w' = events w.
Proof.
  intros Hp Hc.
  pose proof (lookup_lt_Some _ _ _ Hc) as Hlt.
  unfold Process.refresh_status, Process.on_proc, Process.update,
    SafetyProcessCall.is_alive, SafetyProcessCall.readlines,
    SafetyProcessCall.readlines_stderr.
  run. repeat (rewrite Hp; run). unfold child_alive. rewrite Hc. run.
  destruct (qstdout c) as [|o qo] eqn:Eo; run;
    repeat first [ rewrite lookup_update_child_eq | rewrite Hc ]; run;
    (destruct (qstderr c) as [|e qe] eqn:Ee; run;
     eexists _, _, _; (split; [reflexivity|]); run;
     repeat first [ rewrite lookup_update_child_eq | rewrite Hc ]; run;
     repeat split;
     first [ reflexivity
           | eassumption
           | (simpl; now rewrite ?Eo, ?Ee, ?app_nil_r, <- ?app_assoc)
           | (intros; repeat rewrite lookup_update_child_ne by assumption;
              reflexivity)
           | (repeat rewrite length_update_child; reflexivity)
           | (repeat rewrite events_update_child; reflexivity) ]).
Qed.

(** ** ProcessTable: the bulk operations *)

Lemma for_each_kill_attached before : forall done rest w,
  Forall is_attached before ->
  ProcessTable.for_each Process.kill done (before ++ rest) w
  = ProcessTable.for_each Process.kill (done ++ map halted before) rest
      (kill_world before w).
Proof.
  induction before as [|p before IH]; intros done rest w Hall; simpl.
  - now rewrite app_nil_r.
  - inversion Hall as [|? ? (args & h & Hp) Hrest]; subst.
    rewrite (process_kill_attached p w args h Hp).
    rewrite IH by assumption. unfold Process.handle. rewrite Hp. simpl.
    now rewrite <- app_assoc.
Qed.

Lemma for_each_kill_stopped todo : forall done w p,
  In p todo -> stopped p ->
  is_ok (fst (ProcessTable.for_each Process.kill done todo w)) = false.
Proof.
  induction todo as [|p0 rest IH]; intros done w p Hin Hp; [contradiction|].
  simpl. destruct Hin as [->|Hin].
  - now rewrite process_kill_stopped.
  - destruct (Process.kill (p0, w)) as [[[]|e] [p' w']]; [|reflexivity].
    eapply IH; eassumption.
Qed.

(** [kill_all] stops at the first stopped row: the rows before it were
    killed, the rows after it are left as they were. *)
Lemma kill_all_stops_at_first_stopped before p after w :
  Forall is_attached before -> stopped p ->
  ProcessTable.kill_all
    ({| ProcessTable.process_list := before ++ p :: after |}, w)
  = (Raise (no_attribute "kill"),
     ({| ProcessTable.process_list := map halted before ++ p :: after |},
      kill_world before w)).
Proof.
  intros Hall Hp. unfold ProcessTable.kill_all, ProcessTable.for_all. simpl.
  rewrite for_each_kill_attached by assumption. simpl.
  now rewrite process_kill_stopped.
Qed.

Lemma kill_all_attached l w :
  Forall is_attached l ->
  ProcessTable.kill_all ({| ProcessTable.process_list := l |}, w)
  = (Ok tt, ({| ProcessTable.process_list := map halted l |}, kill_world l w)).
Proof.
  intros Hall. unfold ProcessTable.kill_all, ProcessTable.for_all. simpl.
  rewrite <- (app_nil_r l) at 1.
  now rewrite for_each_kill_attached.
Qed.

(** C1.  [kill_all] on a registry that holds a stopped row raises (it does
    not tolerate the row): [Process.kill] calls [self.proc.kill()] on [None]
    and the [AttributeError] leaves the loop.  A direct [kill] on a row that
    was never started raises the same [AttributeError];
    [ValueError("Not started")] is what [SafetyProcessCall.kill] raises. *)
Theorem C1_kill_all_raises_on_stopped tbl w p :
  In p (ProcessTable.process_list tbl) -> stopped p ->
  is_ok (fst (ProcessTable.kill_all (tbl, w))) = false
  /\ Process.kill (p, w) = (Raise (no_attribute "kill"), (p, w))
  /\ (forall s, SafetyProcessCall.proc s = None ->
        SafetyProcessCall.kill (s, w) = (Raise (ValueError "Not started"), (s, w))).
Proof.
  intros Hin Hp. split; [|split].
  - unfold ProcessTable.kill_all, ProcessTable.for_all.
    eapply for_each_kill_stopped; eassumption.
  - now apply process_kill_stopped.
  - intros s Hs. now apply spc_kill_not_started.
Qed.

Lemma C1_witness :
  is_ok (fst (ProcessTable.kill_all (fst one_row_killed, snd one_row_killed)))
  = false.
Proof.
  refine (proj1 (C1_kill_all_raises_on_stopped (fst one_row_killed)
                   (snd one_row_killed)
                   (halted (Process.init "a" (CmdList ["echo"; "hi"])
                              ProcessTable.default_delay)) _ _)).
  - left. reflexivity.
  - reflexivity.
Defined.

Example kill_all_after_kill :
  fst (ProcessTable.kill_all one_row_killed)
  = Raise (AttributeError "'NoneType' object has no attribute 'kill'").
Proof. reflexivity. Qed.

(** ** ProcessTable: positions *)

Lemma py_index_in_range {A : Type} (l : list A) i :
  in_range (length l) i ->
  exists k, ProcessTable.py_index l i = Some k /\ k < length l
            /\ Z.of_nat k = (i mod Z.of_nat (length l))%Z.
Proof.
  unfold in_range, ProcessTable.py_index. intros H.
  destruct (0 <=? i)%Z eqn:E0.
  - apply Z.leb_le in E0.
    assert (E1 : (i <? Z.of_nat (length l))%Z = true) by (apply Z.ltb_lt; lia).
    rewrite E1. simpl. exists (Z.to_nat i). split; [reflexivity|].
    split; [lia|]. rewrite Z.mod_small by lia. lia.
  - apply Z.leb_gt in E0. simpl.
    assert (E1 : (- Z.of_nat (length l) <=? i)%Z = true) by (apply Z.leb_le; lia).
    assert (E2 : (i <? 0)%Z = true) by (apply Z.ltb_lt; lia).
    rewrite E1, E2. simpl. exists (Z.to_nat (i + Z.of_nat (length l))).
    split; [reflexivity|]. split; [lia|].
    rewrite Z2Nat.id by lia.
    rewrite <- (Z.mod_small (i + Z.of_nat (length l)) (Z.of_nat (length l))) by lia.
    rewrite <- (Z_mod_plus_full i 1 (Z.of_nat (length l))). f_equal. lia.
Qed.

Lemma py_index_out_of_range {A : Type} (l : list A) i :
  ~ in_range (length l) i -> ProcessTable.py_index l i = None.
Proof.
  unfold in_range, ProcessTable.py_index. intros H.
  destruct (Z.leb_spec 0 i), (Z.ltb_spec i (Z.of_nat (length l))),
    (Z.leb_spec (- Z.of_nat (length l)) i), (Z.ltb_spec i 0);
    simpl; try reflexivity; lia.
Qed.

Lemma at_index_out_of_range {A : Type} (m : M (Process.t * World) A) tbl w i :
  ~ in_range (length (ProcessTable.process_list tbl)) i ->
  ProcessTable.at_index i m (tbl, w)
  = (Raise (ProcessTable.index_error i), (tbl, w)).
Proof.
  intros H. unfold ProcessTable.at_index.
  now rewrite py_index_out_of_range.
Qed.

Lemma at_index_in_range {A : Type} (m : M (Process.t * World) A) tbl w i :
  in_range (length (ProcessTable.process_list tbl)) i ->
  exists k p,
    ProcessTable.py_index (ProcessTable.process_list tbl) i = Some k
    /\ ProcessTable.process_list tbl !! k = Some p
    /\ ProcessTable.at_index i m (tbl, w)
       = (fst (m (p, w)),
          ({| ProcessTable.process_list :=
                <[k := fst (snd (m (p, w)))]> (ProcessTable.process_list tbl) |},
           snd (snd (m (p, w))))).
Proof.
  intros H. destruct (py_index_in_range _ _ H) as (k & Hk & Hlt & _).
  destruct (lookup_lt_is_Some_2 _ _ Hlt) as [p Hp].
  exists k, p. split; [assumption|]. split; [assumption|].
  unfold ProcessTable.at_index. rewrite Hk, Hp.
  now destruct (m (p, w)) as [r [p' w']].
Qed.

Lemma init_ok_args rt c :
  is_ok (SafetyProcessCall.init rt c) = true ->
  exists args, SafetyProcessCall.init rt c
               = Ok {| SafetyProcessCall.process_args := args;
                       SafetyProcessCall.proc := None |}.
Proof.
  unfold SafetyProcessCall.init. destruct c as [s|l].
  - destruct (shlex_split rt s); [eauto|discriminate].
  - eauto.
Qed.

(** [start] on a restartable row returns normally and leaves the row
    running on a process of its own. *)
Lemma process_start_restartable rt p w :
  restartable rt p ->
  exists args w',
    Process.start rt (p, w)
    = (Ok tt, (started args (length (children w)) (halted p), w'))
    /\ length (children w') = S (length (children w))
    /\ child_alive w' (length (children w)) = true.
Proof.
  intros ([Hs|(a & h & Ha)] & Hinit & Hsleep);
    destruct (init_ok_args _ _ Hinit) as [args Hargs].
  - rewrite process_start_stopped by assumption.
    rewrite Hargs, Hsleep. simpl.
    exists args, (log EvSleep (spawned args w)). split; [|split].
    + unfold started, halted. destruct p; reflexivity.
    + apply length_spawned.
    + apply child_alive_spawned.
  - rewrite (process_start_attached rt p w a h Ha).
    rewrite process_start_stopped by reflexivity. simpl.
    rewrite Hargs, Hsleep. simpl. rewrite killed_length.
    exists args, (log EvSleep (spawned args (killed h w))). split; [|split].
    + unfold started, halted. destruct p; reflexivity.
    + rewrite children_log, length_spawned. now rewrite killed_length.
    + rewrite child_alive_log. rewrite <- (killed_length h w).
      apply child_alive_spawned.
Qed.

Lemma restartable_started rt args h p :
  restartable rt p -> restartable rt (started args h (halted p)).
Proof.
  intros (_ & Hi & Hs). split; [|split]; try assumption.
  right. exists args, h. reflexivity.
Qed.

Lemma process_kill_not_index_error p w :
  is_index_error (fst (Process.kill (p, w))) = false.
Proof.
  destruct (Process.proc p) as [[args [h|]]|] eqn:E.
  - now rewrite (process_kill_attached p w args h E).
  - unfold Process.kill, Process.on_proc, Process.update. run. rewrite E.
    reflexivity.
  - now rewrite process_kill_stopped.
Qed.

Lemma refresh_not_index_error p w :
  is_index_error (fst (Process.refresh_status (p, w))) = false.
Proof.
  destruct (Process.proc p) as [[args [h|]]|] eqn:E.
  - destruct (children w !! h) as [c|] eqn:Ec.
    + destruct (refresh_attached p w args h c E Ec) as (p' & w' & c' & Hr & _).
      now rewrite Hr.
    + unfold Process.refresh_status, Process.on_proc, Process.update,
        SafetyProcessCall.is_alive, SafetyProcessCall.readlines,
        SafetyProcessCall.readlines_stderr.
      run. repeat (rewrite E; run). unfold child_alive. rewrite Ec. run.
      rewrite Ec. reflexivity.
  - unfold Process.refresh_status, Process.on_proc, Process.update,
      SafetyProcessCall.is_alive, SafetyProcessCall.readlines.
    run. repeat (rewrite E; run). reflexivity.
  - now rewrite (refresh_stopped p w E).
Qed.

Lemma pop_in_range tbl w i :
  in_range (length (ProcessTable.process_list tbl)) i ->
  is_ok (fst (ProcessTable.pop i (tbl, w))) = true.
Proof.
  intros H. destruct (py_index_in_range _ _ H) as (k & Hk & _).
  unfold ProcessTable.pop. now rewrite Hk.
Qed.

Lemma delete_in_range tbl w i :
  in_range (length (ProcessTable.process_list tbl)) i ->
  is_index_error (fst (ProcessTable.delete i (tbl, w))) = false.
Proof.
  intros H. unfold ProcessTable.delete. unfold bind.
  destruct (at_index_in_range Process.kill tbl w i H) as (k & p & Hk & Hp & E).
  pose proof (process_kill_not_index_error p w) as Hn.
  destruct (Process.kill (p, w)) as [[[]|e] [p' w']] eqn:Ek;
    cbn [fst snd] in E, Hn; rewrite E; [|exact Hn].
  assert (Hr : in_range
      (length (ProcessTable.process_list
                 {| ProcessTable.process_list :=
                      <[k:=p']> (ProcessTable.process_list tbl) |})) i).
  { cbn [ProcessTable.process_list]. now rewrite length_insert. }
  pose proof (pop_in_range _ w' i Hr) as Hpop.
  destruct (ProcessTable.pop i _) as [[|] ?]; [reflexivity|discriminate].
Qed.

Lemma py_index_position {A : Type} (l : list A) i k :
  ProcessTable.py_index l i = Some k ->
  Z.of_nat k = (if (i <? 0)%Z then Z.of_nat (length l) + i else i)%Z.
Proof.
  unfold ProcessTable.py_index. cbv zeta.
  destruct (0 <=? i)%Z eqn:E0.
  - apply Z.leb_le in E0.
    destruct (i <? Z.of_nat (length l))%Z; cbn [andb].
    + intros [= <-]. assert (E : (i <? 0)%Z = false) by (apply Z.ltb_ge; lia).
      rewrite E. lia.
    + destruct (- Z.of_nat (length l) <=? i)%Z; cbn [andb]; [|discriminate].
      destruct (i <? 0)%Z eqn:E; [|discriminate].
      apply Z.ltb_lt in E. lia.
  - cbn [andb]. apply Z.leb_gt in E0.
    destruct (- Z.of_nat (length l) <=? i)%Z eqn:E1; cbn [andb]; [|discriminate].
    apply Z.leb_le in E1.
    assert (E : (i <? 0)%Z = true) by (apply Z.ltb_lt; lia).
    rewrite E. intros [= <-]. lia.
Qed.

Lemma index_error_is_index_error {A : Type} i :
  is_index_error (Raise (A := A) (ProcessTable.index_error i)) = true.
Proof. reflexivity. Qed.

Lemma list_delete_insert {A : Type} (l : list A) k x :
  delete k (<[k := x]> l) = delete k l.
Proof.
  revert k. induction l as [|a l IH]; intros [|k]; try reflexivity.
  cbn. f_equal. apply IH.
Qed.

(** [delete] in range: the row's [kill] on the addressed row, and when it
    returned the row is taken out. *)
Lemma delete_at_row tbl w i k p :
  ProcessTable.py_index (ProcessTable.process_list tbl) i = Some k ->
  ProcessTable.process_list tbl !! k = Some p ->
  ProcessTable.delete i (tbl, w)
  = match Process.kill (p, w) with
    | (Ok _, (_, w')) =>
        (Ok tt,
         ({| ProcessTable.process_list :=
               delete k (ProcessTable.process_list tbl) |}, w'))
    | (Raise e, (p', w')) =>
        (Raise e,
         ({| ProcessTable.process_list :=
               <[k := p']> (ProcessTable.process_list tbl) |}, w'))
    end.
Proof.
  intros Hk Hp. destruct tbl as [l]. cbn [ProcessTable.process_list] in *.
  unfold ProcessTable.delete, bind, ProcessTable.at_index.
  cbn [ProcessTable.process_list]. rewrite Hk, Hp.
  destruct (Process.kill (p, w)) as [[[]|e] [p' w']]; [|reflexivity].
  unfold ProcessTable.pop. cbn [ProcessTable.process_list].
  assert (Hk' : ProcessTable.py_index (<[k:=p']> l) i = Some k).
  { unfold ProcessTable.py_index in *. now rewrite length_insert. }
  rewrite Hk'. now rewrite list_delete_insert.
Qed.

(** C7, as the code has it.  On a registry of [n] restartable rows, the
    operations addressed by an index raise [IndexError] exactly when the
    index is outside [-n <= i < n], and then the registry and the world are
    as they were; the message is [list index out of range], or that the
    integer does not fit when it is outside the range of an index.  An index
    in [0 <= i < n] addresses row [i] and one in [-n <= i < 0] row [n + i], as
    on any Python list.  On the addressed row [p], [restart] and [get_status]
    return normally, [get_status] changing nothing; [restart], [kill] and
    [refresh] are the row's [start], [kill] and [refresh_status] on that row:
    they return or raise what the row's method returns or raises, put the
    row that it leaves at the same position and leave the other rows alone;
    [delete] raises what the row's [kill] raises and takes the row out when
    it returned.  What the row raises is never [IndexError]. *)
Theorem C7_index_bounds rt tbl w i :
  Forall (restartable rt) (ProcessTable.process_list tbl) ->
  (in_range (length (ProcessTable.process_list tbl)) i ->
   exists k p,
     Z.of_nat k
     = (if (i <? 0)%Z
        then Z.of_nat (length (ProcessTable.process_list tbl)) + i else i)%Z
     /\ ProcessTable.process_list tbl !! k = Some p
     /\ is_ok (fst (ProcessTable.restart rt i (tbl, w))) = true
     /\ ProcessTable.restart rt i (tbl, w)
        = (fst (Process.start rt (p, w)),
           ({| ProcessTable.process_list :=
                 <[k := fst (snd (Process.start rt (p, w)))]>
                   (ProcessTable.process_list tbl) |},
            snd (snd (Process.start rt (p, w)))))
     /\ is_ok (fst (ProcessTable.get_status i (tbl, w))) = true
     /\ snd (ProcessTable.get_status i (tbl, w)) = (tbl, w)
     /\ ProcessTable.kill i (tbl, w)
        = (fst (Process.kill (p, w)),
           ({| ProcessTable.process_list :=
                 <[k := fst (snd (Process.kill (p, w)))]>
                   (ProcessTable.process_list tbl) |},
            snd (snd (Process.kill (p, w)))))
     /\ ProcessTable.refresh i (tbl, w)
        = (fst (Process.refresh_status (p, w)),
           ({| ProcessTable.process_list :=
                 <[k := fst (snd (Process.refresh_status (p, w)))]>
                   (ProcessTable.process_list tbl) |},
            snd (snd (Process.refresh_status (p, w)))))
     /\ fst (ProcessTable.delete i (tbl, w)) = fst (Process.kill (p, w))
     /\ (is_ok (fst (Process.kill (p, w))) = true ->
         ProcessTable.process_list (fst (snd (ProcessTable.delete i (tbl, w))))
         = delete k (ProcessTable.process_list tbl))
     /\ is_index_error (fst (Process.kill (p, w))) = false
     /\ is_index_error (fst (Process.refresh_status (p, w))) = false)
  /\ (~ in_range (length (ProcessTable.process_list tbl)) i ->
        ProcessTable.restart rt i (tbl, w)
        = (Raise (ProcessTable.index_error i), (tbl, w))
        /\ fst (ProcessTable.get_status i (tbl, w))
           = Raise (ProcessTable.index_error i)
        /\ ProcessTable.kill i (tbl, w)
           = (Raise (ProcessTable.index_error i), (tbl, w))
        /\ ProcessTable.delete i (tbl, w)
           = (Raise (ProcessTable.index_error i), (tbl, w))
        /\ ProcessTable.refresh i (tbl, w)
           = (Raise (ProcessTable.index_error i), (tbl, w))
        /\ (exists msg, ProcessTable.index_error i = IndexError msg)
        /\ (ProcessTable.fits_index i = true ->
            ProcessTable.index_error i = IndexError "list index out of range")
        /\ (ProcessTable.fits_index i = false ->
            ProcessTable.index_error i
            = IndexError "cannot fit 'int' into an index-sized integer")).
Proof.
  intros Hall. split; intros H.
  - destruct (py_index_in_range _ _ H) as (k & Hk & Hlt & _).
    destruct (lookup_lt_is_Some_2 _ _ Hlt) as [p Hp].
    exists k, p.
    assert (Hat : forall (A : Type) (m : M (Process.t * World) A),
              ProcessTable.at_index i m (tbl, w)
              = (fst (m (p, w)),
                 ({| ProcessTable.process_list :=
                       <[k := fst (snd (m (p, w)))]>
                         (ProcessTable.process_list tbl) |},
                  snd (snd (m (p, w)))))).
    { intros A m. unfold ProcessTable.at_index. rewrite Hk, Hp.
      now destruct (m (p, w)) as [r [p' w']]. }
    assert (Hr : restartable rt p).
    { rewrite Forall_forall in Hall. apply Hall.
      eapply list_elem_of_lookup_2; eassumption. }
    destruct (process_start_restartable rt p w Hr) as (a & w' & Hs & _).
    splits.
    + now apply py_index_position.
    + exact Hp.
    + unfold ProcessTable.restart. rewrite Hat, Hs. reflexivity.
    + apply Hat.
    + unfold ProcessTable.get_status. rewrite Hat. reflexivity.
    + unfold ProcessTable.get_status. rewrite Hat. run.
      rewrite list_insert_id by assumption. now destruct tbl.
    + apply Hat.
    + apply Hat.
    + rewrite (delete_at_row tbl w i k p Hk Hp).
      now destruct (Process.kill (p, w)) as [[[]|e] [p' w'']].
    + intros Hok. rewrite (delete_at_row tbl w i k p Hk Hp).
      destruct (Process.kill (p, w)) as [[[]|e] [p' w'']];
        [reflexivity|discriminate].
    + apply process_kill_not_index_error.
    + apply refresh_not_index_error.
  - unfold ProcessTable.restart, ProcessTable.get_status, ProcessTable.kill,
      ProcessTable.delete, ProcessTable.refresh, bind.
    rewrite !at_index_out_of_range by assumption.
    splits; try reflexivity.
    + eexists. reflexivity.
    + unfold ProcessTable.index_error. now intros ->.
    + unfold ProcessTable.index_error. now intros ->.
Qed.

Lemma C7_witness :
  is_ok (fst (ProcessTable.restart CPython.runtime 1 (fst two_rows, snd two_rows)))
  = true
  /\ ProcessTable.restart CPython.runtime 2 (fst two_rows, snd two_rows)
     = (Raise (IndexError "list index out of range"),
        (fst two_rows, snd two_rows)).
Proof.
  assert (Hall : Forall (restartable CPython.runtime)
                   (ProcessTable.process_list (fst two_rows))).
  { let l := eval vm_compute in (ProcessTable.process_list (fst two_rows)) in
    change (Forall (restartable CPython.runtime) l).
    constructor; [|constructor; [|constructor]];
      (split; [right; eexists _, _; reflexivity|split; reflexivity]). }
  split.
  - destruct (proj1 (C7_index_bounds CPython.runtime (fst two_rows)
                       (snd two_rows) 1 Hall)) as (k & p & _ & _ & H & _).
    + unfold in_range. simpl. lia.
    + exact H.
  - refine (proj1 (proj2 (C7_index_bounds CPython.runtime (fst two_rows)
                            (snd two_rows) 2 Hall) _)).
    unfold in_range. simpl. lia.
Defined.

(** C7 as stated fails: on a registry of two rows [restart(-1)] does not
    raise the index error although [0 <= -1 < 2] is false; it restarts the
    last row. *)
Lemma C7_counterexample :
  length (ProcessTable.process_list (fst two_rows)) = 2
  /\ ~ (0 <= -1 < 2)%Z
  /\ is_ok (fst (ProcessTable.restart CPython.runtime (-1) two_rows)) = true
  /\ Process.handle <$> ProcessTable.process_list
         (fst (snd (ProcessTable.restart CPython.runtime (-1) two_rows)))
     = [Some 0; Some 2].
Proof. split; [reflexivity|]. split; [lia|]. split; reflexivity. Qed.

(** An index that does not fit a machine word raises [IndexError] with
    another message, and [list.pop] alone would raise [OverflowError]. *)
Example index_too_large :
  ProcessTable.kill 9223372036854775808 two_rows
  = (Raise (IndexError "cannot fit 'int' into an index-sized integer"), two_rows)
  /\ ProcessTable.kill 9223372036854775807 two_rows
     = (Raise (IndexError "list index out of range"), two_rows)
  /\ ProcessTable.delete (-9223372036854775809) two_rows
     = (Raise (IndexError "cannot fit 'int' into an index-sized integer"),
        two_rows)
  /\ fst (ProcessTable.pop 9223372036854775808 two_rows)
     = Raise (OverflowError "Python int too large to convert to C ssize_t")
  /\ fst (ProcessTable.pop 2 two_rows)
     = Raise (IndexError "pop index out of range").
Proof. repeat split. Qed.

(** A negative index in range addresses a row from the end: [kill(-2)] on
    two rows stops the first. *)
Example kill_from_the_end :
  Process.handle <$> ProcessTable.process_list
      (fst (snd (ProcessTable.kill (-2) two_rows)))
  = [None; Some 1]
  /\ fst (ProcessTable.kill (-2) (snd (ProcessTable.kill (-2) two_rows)))
     = Raise (no_attribute "kill").
Proof. repeat split. Qed.

(** ** ProcessListener: the polling loop *)

Lemma sleeps_app a b : sleeps (a ++ b) = sleeps a + sleeps b.
Proof. unfold sleeps. now rewrite List.filter_app, length_app. Qed.

Lemma kills_app a b : kills (a ++ b) = kills a + kills b.
Proof. unfold kills. now rewrite List.filter_app, length_app. Qed.

Lemma flush_facts ob st :
  let '(st', put) := ProcessListener.flush ob st in
  ProcessListener.process st' = ProcessListener.process st
  /\ ProcessListener.stdoutString st' = ""
  /\ sleeps put = 0 /\ kills put = 0
  /\ concat_text (ProcessListener.stdout_chunks put)
     = ProcessListener.stdoutString st +:+ ProcessListener.new_stdout ob.
Proof.
  unfold ProcessListener.flush.
  destruct (ProcessListener.stdoutString st +:+ ProcessListener.new_stdout ob)
    as [|c s] eqn:Eo;
  destruct (ProcessListener.stderrString st +:+ ProcessListener.new_stderr ob)
    as [|c' s'] eqn:Ee; cbn; repeat split; try reflexivity.
  all: now rewrite str_app_nil_r.
Qed.

Lemma concat_text_app a b : concat_text (a ++ b) = concat_text a +:+ concat_text b.
Proof.
  induction a as [|x a IH]; simpl; [reflexivity|].
  now rewrite IH, str_app_assoc.
Qed.

Lemma stdout_chunks_app a b :
  ProcessListener.stdout_chunks (a ++ b)
  = ProcessListener.stdout_chunks a ++ ProcessListener.stdout_chunks b.
Proof. unfold ProcessListener.stdout_chunks. apply omap_app. Qed.

Lemma observed_stdout_snoc obs n : forall i,
  observed_stdout obs i (S n)
  = observed_stdout obs i n +:+ ProcessListener.new_stdout (obs (i + n)).
Proof.
  induction n as [|n IH]; intros i.
  - simpl. now rewrite Nat.add_0_r, str_app_nil_r.
  - change (observed_stdout obs i (S (S n)))
      with (ProcessListener.new_stdout (obs i) +:+ observed_stdout obs (S i) (S n)).
    rewrite IH. simpl observed_stdout at 2.
    rewrite str_app_assoc.
    now replace (i + S n) with (S i + n) by lia.
Qed.

(** What the passes of the polling loop do, whatever is observed. *)
Lemma poll_loop_facts obs n : forall i st acts,
  ProcessListener.stdoutString st = "" ->
  ProcessListener.process st = true ->
  exists i' st' more,
    ProcessListener.poll_loop n i obs st acts = (i', st', acts ++ more)
    /\ i <= i' <= i + n
    /\ sleeps more <= n
    /\ kills more = 0
    /\ ProcessListener.process st' = true
    /\ concat_text (ProcessListener.stdout_chunks more)
       = observed_stdout obs i (i' - i)
    /\ (i' = i + n
        \/ (i < i'
            /\ (ProcessListener.kill_requested (obs (i' - 1)) = true
                \/ ProcessListener.running (obs (i' - 1)) = false)))
    /\ ((forall j, i <= j < i + n ->
           ProcessListener.kill_requested (obs j) = false
           /\ ProcessListener.running (obs j) = true) ->
        i' = i + n /\ sleeps more = n).
Proof.
  induction n as [|n IH]; intros i st acts Hbuf Hproc.
  - exists i, st, []. simpl. rewrite app_nil_r, Nat.sub_diag.
    splits; auto; try lia.
  - simpl.
    pose proof (flush_facts (obs i) st) as Hf.
    destruct (ProcessListener.flush (obs i) st) as [st1 put].
    destruct Hf as (Hp1 & Hb1 & Hs & Hk & Hc).
    rewrite Hbuf, str_app_nil_l in Hc. rewrite Hproc in Hp1.
    assert (Hone : observed_stdout obs i (S i - i)
                   = ProcessListener.new_stdout (obs i)).
    { replace (S i - i) with 1 by lia. simpl. apply str_app_nil_r. }
    destruct (ProcessListener.kill_requested (obs i)) eqn:Ekill.
    { exists (S i), st1, put. rewrite Hs, Hk, Hc, Hone.
      splits; auto; try lia.
      - right. split; [lia|]. left.
        now replace (S i - 1) with i by lia.
      - intros Hrun. destruct (Hrun i) as [Hfalse _]; [lia|]. congruence. }
    unfold ProcessListener.is_alive. rewrite Hp1.
    destruct (ProcessListener.running (obs i)) eqn:Erun; simpl.
    + destruct (IH (S i) st1 (acts ++ put ++ [ProcessListener.Sleep]) Hb1 Hp1)
        as (i' & st' & more & Hloop & Hi & Hsl & Hkl & Hp' & Hch & Hexit & Hfull).
      exists i', st', (put ++ [ProcessListener.Sleep] ++ more).
      rewrite Hloop. split.
      { now rewrite <- !app_assoc. }
      rewrite !sleeps_app, !kills_app, !stdout_chunks_app, !concat_text_app.
      rewrite Hs, Hk, Hkl, Hc, Hch. simpl.
      splits; auto; try lia.
      * rewrite str_app_nil_l.
        replace (i' - i) with (S (i' - S i)) by lia. reflexivity.
      * destruct Hexit as [->|[Hlt Hwhy]]; [left; lia|right].
        split; [lia|assumption].
      * intros Hrun. destruct Hfull as [Hfull Hfull'].
        { intros j Hj. apply Hrun. lia. }
        split; [lia|]. unfold sleeps in *. simpl. lia.
    + exists (S i), st1, put. rewrite Hs, Hk, Hc, Hone.
      splits; auto; try lia.
      * right. split; [lia|]. right.
        now replace (S i - 1) with i by lia.
      * intros Hrun. destruct (Hrun i) as [_ Hfalse]; [lia|]. congruence.
Qed.

(** C9.  Every run of [process_entry] that got its child makes at most
    1000 passes of the polling loop, with at most 1000 polling intervals,
    and leaves the loop for one of three reasons: a kill message, a child
    seen exited, or the 1000th pass.  Whatever the reason, the run ends
    with [kill] and [wait] on the child and forgets the handle; a child
    that keeps running with no kill requested is killed after 1000
    intervals. *)
Theorem C9_bounded_supervision rt args obs :
  popen rt args = None ->
  exists r acts,
    ProcessListener.process_entry rt args obs = (Ok tt, r)
    /\ ProcessListener.polls r <= 1000
    /\ ProcessListener.actions r
       = ProcessListener.Popen args
           :: acts ++ [ProcessListener.Kill; ProcessListener.Wait]
    /\ kills acts = 0
    /\ sleeps acts <= 1000
    /\ ProcessListener.process (ProcessListener.listener r) = false
    /\ (ProcessListener.polls r = 1000
        \/ (0 < ProcessListener.polls r
            /\ (ProcessListener.kill_requested
                  (obs (ProcessListener.polls r - 1)) = true
                \/ ProcessListener.running
                     (obs (ProcessListener.polls r - 1)) = false)))
    /\ (keeps_running obs ->
        ProcessListener.polls r = 1000 /\ sleeps acts = 1000).
Proof.
  intros Hpopen.
  unfold ProcessListener.process_entry, ProcessListener.start.
  cbn [ProcessListener.init ProcessListener.process_args
       ProcessListener.stdoutString ProcessListener.stderrString].
  rewrite Hpopen.
  destruct (poll_loop_facts obs 1000 0
              {| ProcessListener.process_args := args;
                 ProcessListener.stdoutString := "";
                 ProcessListener.stderrString := "";
                 ProcessListener.process := true |}
              [ProcessListener.Popen args] eq_refl eq_refl)
    as (i' & st' & more & Hloop & Hi & Hsl & Hkl & Hp' & _ & Hexit & Hfull).
  rewrite Hloop. unfold ProcessListener.kill. rewrite Hp'.
  eexists _, more. split; [reflexivity|].
  cbn [ProcessListener.polls ProcessListener.actions ProcessListener.listener
       ProcessListener.process].
  splits; auto; try lia.
  intros Hrun. apply Hfull. intros j Hj. apply Hrun. lia.
Qed.

Lemma C9_witness :
  exists r acts,
    ProcessListener.process_entry CPython.runtime ["sleep"; "5"] ticking
    = (Ok tt, r)
    /\ ProcessListener.polls r <= 1000
    /\ ProcessListener.actions r
       = ProcessListener.Popen ["sleep"; "5"]
           :: acts ++ [ProcessListener.Kill; ProcessListener.Wait]
    /\ kills acts = 0
    /\ sleeps acts <= 1000
    /\ ProcessListener.process (ProcessListener.listener r) = false
    /\ (ProcessListener.polls r = 1000
        \/ (0 < ProcessListener.polls r
            /\ (ProcessListener.kill_requested
                  (ticking (ProcessListener.polls r - 1)) = true
                \/ ProcessListener.running
                     (ticking (ProcessListener.polls r - 1)) = false)))
    /\ (keeps_running ticking ->
        ProcessListener.polls r = 1000 /\ sleeps acts = 1000).
Proof.
  exact (C9_bounded_supervision CPython.runtime ["sleep"; "5"] ticking eq_refl).
Defined.

Example ticking_child_is_killed :
  let r := snd (ProcessListener.process_entry CPython.runtime ["sleep"; "5"] ticking) in
  ProcessListener.polls r = 1000
  /\ length (ProcessListener.stdout_chunks (ProcessListener.actions r)) = 1000
  /\ kills (ProcessListener.actions r) = 1.
Proof. vm_compute. repeat split. Qed.

(** ** The life cycle of a row *)






(** What the monitor does between two calls keeps it too. *)
Lemma sole_owner_monitor p w h chunk :
  sole_owner p w ->
  sole_owner p (monitor_put_stdout h chunk w)
  /\ sole_owner p (monitor_put_stderr h chunk w)
  /\ sole_owner p (monitor_exit h w).
Proof.
  intros Hown. splits; intros q Hq; apply Hown;
    destruct (Nat.eq_dec q h) as [->|Hne].
  - unfold monitor_put_stdout in Hq.
    now rewrite child_alive_update_eq in Hq by reflexivity.
  - unfold monitor_put_stdout in Hq.
    now rewrite child_alive_update_ne in Hq by assumption.
  - unfold monitor_put_stderr in Hq.
    now rewrite child_alive_update_eq in Hq by reflexivity.
  - unfold monitor_put_stderr in Hq.
    now rewrite child_alive_update_ne in Hq by assumption.
  - unfold monitor_exit in Hq. now rewrite child_alive_exited in Hq.
  - unfold monitor_exit in Hq.
    now rewrite child_alive_update_ne in Hq by assumption.
Qed.



Example start_twice :
  let s1 := snd (Process.start CPython.runtime
                   (Process.init "a" (CmdStr "echo hi") ProcessTable.default_delay,
                    empty_world)) in
  let s2 := snd (Process.start CPython.runtime s1) in
  Process.handle (fst s2) = Some 1
  /\ child_alive (snd s2) 0 = false
  /\ child_alive (snd s2) 1 = true
  /\ events (snd s2)
     = [EvSpawn 0; EvSleep; EvKillMessage 0; EvJoin 0; EvClose 0; EvSleep;
        EvSpawn 1; EvSleep].
Proof. vm_compute. repeat split. Qed.

(** ** Spawn failure *)





(** ** Loading a configuration *)

Lemma add_loadable rt n c d args tbl w :
  SafetyProcessCall.init rt (CmdStr c)
  = Ok {| SafetyProcessCall.process_args := args;
          SafetyProcessCall.proc := None |} ->
  sleep_float rt (DelayStr d) = None ->
  ProcessTable.add rt n (CmdStr c) (DelayStr d) (tbl, w)
  = (Ok tt,
     ({| ProcessTable.process_list :=
           ProcessTable.process_list tbl
           ++ [started args (length (children w))
                 (Process.init n (CmdStr c) (DelayStr d))] |},
      log EvSleep (spawned args w))).
Proof.
  intros Hinit Hsleep. unfold ProcessTable.add.
  rewrite process_start_stopped by reflexivity.
  cbn [Process.init Process.commands Process.delay].
  now rewrite Hinit, Hsleep.
Qed.

Lemma unpack3_malformed f :
  length f <> 3 -> exists msg, ProcessTable.unpack3 f = Raise (ValueError msg).
Proof.
  intros H. unfold ProcessTable.unpack3.
  destruct f as [|a [|b [|c [|d f]]]]; simpl in *; try (eexists; reflexivity).
  lia.
Qed.

Lemma load_lines_until_malformed rt good : forall bad rest tbl w,
  Forall (loadable rt) good ->
  length (fields bad) <> 3 ->
  exists msg rows w',
    ProcessTable.load_lines rt (good ++ bad :: rest) (tbl, w)
    = (Raise (ValueError msg),
       ({| ProcessTable.process_list := ProcessTable.process_list tbl ++ rows |},
        w'))
    /\ Forall2 loads_as good rows.
Proof.
  induction good as [|line good IH]; intros bad rest tbl w Hgood Hbad.
  - destruct (unpack3_malformed _ Hbad) as [msg Hmsg].
    exists msg, [], w. split; [|constructor].
    simpl. unfold bind, lift. fold (fields bad). rewrite Hmsg.
    rewrite app_nil_r. now destruct tbl.
  - inversion Hgood as [|? ? (n & c & d & Hf & Hinit & Hsleep) Hgood']; subst.
    destruct (init_ok_args _ _ Hinit) as [args Hargs].
    destruct (IH bad rest
                {| ProcessTable.process_list :=
                     ProcessTable.process_list tbl
                     ++ [started args (length (children w))
                           (Process.init n (CmdStr c) (DelayStr d))] |}
                (log EvSleep (spawned args w)) Hgood' Hbad)
      as (msg & rows & w' & Hload & Hrows).
    exists msg, (started args (length (children w))
                   (Process.init n (CmdStr c) (DelayStr d)) :: rows), w'.
    split.
    + simpl. unfold bind at 1 2, lift. fold (fields line). rewrite Hf.
      cbn [ProcessTable.unpack3].
      rewrite (add_loadable rt n c d args tbl w Hargs Hsleep).
      rewrite Hload. cbn [ProcessTable.process_list].
      now rewrite <- app_assoc.
    + constructor; [|assumption].
      exists c, d. splits; try reflexivity; try assumption.
      eexists _, _. reflexivity.
Qed.

(** C4, as the code has it.  [load_config] reads the lines in order and
    adds a row as soon as its line is read.  At the first line that does not
    split into three fields it raises [ValueError]: the rows of the lines
    before it have been added and started, no row of that line or of a later
    one is added, and the rows the registry held before are gone. *)
Theorem C4_load_stops_at_malformed_line rt tbl w fname config good bad rest :
  read_file fname w = Some config ->
  config_lines config = good ++ bad :: rest ->
  Forall (loadable rt) good ->
  length (fields bad) <> 3 ->
  Forall is_attached (ProcessTable.process_list tbl) ->
  exists msg rows w',
    ProcessTable.load_config rt fname (tbl, w)
    = (Raise (ValueError msg), ({| ProcessTable.process_list := rows |}, w'))
    /\ Forall2 loads_as good rows
    /\ length rows = length good.
Proof.
  intros Hread Hlines Hgood Hbad Hatt.
  unfold ProcessTable.load_config. unfold bind at 1. unfold world.
  cbn [snd]. rewrite Hread.
  unfold bind, ProcessTable.delete_all. unfold bind.
  destruct tbl as [l]. cbn [ProcessTable.process_list] in Hatt.
  rewrite (kill_all_attached l w Hatt).
  fold (config_lines config). rewrite Hlines.
  destruct (load_lines_until_malformed rt good bad rest
              {| ProcessTable.process_list := [] |} (kill_world l w) Hgood Hbad)
    as (msg & rows & w' & Hload & Hrows).
  exists msg, rows, w'. rewrite Hload. split; [reflexivity|].
  split; [assumption|]. symmetry. eapply Forall2_length; eassumption.
Qed.

Lemma C4_witness :
  exists msg rows w',
    ProcessTable.load_config CPython.runtime "cfg"
      (ProcessTable.init, write_file "cfg" partial_config empty_world)
    = (Raise (ValueError msg), ({| ProcessTable.process_list := rows |}, w'))
    /\ Forall2 loads_as ["a:::echo:::0"] rows
    /\ length rows = 1.
Proof.
  refine (C4_load_stops_at_malformed_line CPython.runtime ProcessTable.init
            (write_file "cfg" partial_config empty_world) "cfg" partial_config
            ["a:::echo:::0"] "bad" [] eq_refl eq_refl _ _ _).
  - constructor; [|constructor].
    exists "a", "echo", "0". repeat split.
  - vm_compute. lia.
  - constructor.
Defined.

(** C4 as stated fails: the second line of [partial_config] has no
    delimiter, [load_config] raises on it, and the registry holds the row of
    the first line, started. *)
Lemma C4_counterexample :
  config_lines partial_config = ["a:::echo:::0"; "bad"]
  /\ fields "bad" = ["bad"]
  /\ fst (ProcessTable.load_config CPython.runtime "cfg"
            (ProcessTable.init, write_file "cfg" partial_config empty_world))
     = Raise (ValueError "not enough values to unpack (expected 3, got 1)")
  /\ ProcessTable.process_list
       (fst (snd (ProcessTable.load_config CPython.runtime "cfg"
                    (ProcessTable.init,
                     write_file "cfg" partial_config empty_world))))
     = [started ["echo"] 0 (Process.init "a" (CmdStr "echo") (DelayStr "0"))].
Proof. repeat split. Qed.

(** ** Saving and loading *)

Lemma text_row_started args h n c d :
  text_row (started args h (Process.init n (CmdStr c) (DelayStr d))).
Proof. split; eexists; reflexivity. Qed.

Lemma load_lines_text_rows rt lines : forall tbl w,
  Forall text_row (ProcessTable.process_list tbl) ->
  Forall text_row
    (ProcessTable.process_list
       (fst (snd (ProcessTable.load_lines rt lines (tbl, w))))).
Proof.
  induction lines as [|line lines IH]; intros tbl w Hall; [exact Hall|].
  simpl. unfold bind at 1 2, lift.
  destruct (ProcessTable.unpack3 (PyStr.split ":::" line)) as [[[n c] d]|e];
    [|exact Hall].
  unfold ProcessTable.add.
  destruct (Process.start rt (Process.init n (CmdStr c) (DelayStr d), w))
    as [[[]|e] [p w']] eqn:Es; [|exact Hall].
  apply IH. cbn [ProcessTable.process_list].
  apply Forall_app. split; [assumption|]. constructor; [|constructor].
  rewrite process_start_stopped in Es by reflexivity.
  cbn [Process.init Process.commands Process.delay] in Es.
  destruct (SafetyProcessCall.init rt (CmdStr c)); [|discriminate].
  cbv zeta in Es.
  destruct (sleep_float rt (DelayStr d)); [discriminate|].
  inversion Es. apply text_row_started.
Qed.

(** What does not come back.  Whatever the file holds, every row that
    [load_config] puts into a fresh registry has a text as command and a
    text as delay; the row that the [add] command made from [echo hi] is
    saved as the [repr] of the list and comes back with that text as its
    command, which [shlex] splits into other arguments; the text saved for
    the empty registry does not load at all. *)
Lemma round_trip_changes_rows :
  (forall rt fname w,
     Forall text_row
       (ProcessTable.process_list
          (fst (snd (ProcessTable.load_config rt fname (ProcessTable.init, w))))))
  /\ Process.commands <$> ProcessTable.process_list (fst one_row)
     = [CmdList ["echo"; "hi"]]
  /\ read_file "cfg" (snd (snd (ProcessTable.save_config "cfg" one_row)))
     = Some ("a:::['echo', 'hi']:::0.0" +:+ PyStr.nl)
  /\ (let loaded :=
        ProcessTable.load_config CPython.runtime "cfg"
          (ProcessTable.init, snd (snd (ProcessTable.save_config "cfg" one_row)))
      in
      fst loaded = Ok tt
      /\ Process.commands <$> ProcessTable.process_list (fst (snd loaded))
         = [CmdStr "['echo', 'hi']"]
      /\ Process.delay <$> ProcessTable.process_list (fst (snd loaded))
         = [DelayStr "0.0"]
      /\ row_args <$> ProcessTable.process_list (fst (snd loaded))
         = [Some ["[echo,"; "hi]"]]
      /\ row_args <$> ProcessTable.process_list (fst one_row)
         = [Some ["echo"; "hi"]])
  /\ fst (ProcessTable.load_config CPython.runtime "cfg"
            (snd (ProcessTable.save_config "cfg" blank)))
     = Raise (ValueError "not enough values to unpack (expected 3, got 1)").
Proof.
  split; [|repeat split].
  intros rt fname w.
  unfold ProcessTable.load_config. unfold bind at 1. unfold world. cbn [snd].
  destruct (read_file fname w) as [config|]; [|constructor].
  unfold bind, ProcessTable.delete_all, bind, ProcessTable.kill_all,
    ProcessTable.for_all.
  cbn [ProcessTable.init ProcessTable.process_list ProcessTable.for_each].
  apply load_lines_text_rows. constructor.
Qed.

(** ** Chunks and lines *)

Lemma rstrip_nl : PyStr.rstrip PyStr.nl = "".
Proof. reflexivity. Qed.

Lemma str_app_not_nil s t : t <> "" -> s +:+ t <> "".
Proof. intros H. destruct s; [assumption|discriminate]. Qed.

Lemma rstrip_app s t :
  PyStr.rstrip t <> "" -> PyStr.rstrip (s +:+ t) = s +:+ PyStr.rstrip t.
Proof.
  intros H. induction s as [|a s IH]; [reflexivity|].
  rewrite !str_app_cons. cbn [PyStr.rstrip]. rewrite IH.
  destruct (s +:+ PyStr.rstrip t) eqn:E; [|reflexivity].
  exfalso. eapply str_app_not_nil; eassumption.
Qed.

Lemma rstrip_line l :
  ends_clean l = true -> PyStr.rstrip (l +:+ PyStr.nl) = l.
Proof.
  induction l as [|c t IH]; [discriminate|].
  intros H. rewrite str_app_cons. cbn [PyStr.rstrip].
  destruct t as [|c' t'].
  - rewrite str_app_nil_l, rstrip_nl. cbn [ends_clean] in H.
    now destruct (PyStr.isspace c).
  - cbn [ends_clean] in H. rewrite (IH H). reflexivity.
Qed.

Lemma lstrip_clean l s :
  starts_clean l = true -> PyStr.lstrip (l +:+ s) = l +:+ s.
Proof.
  destruct l as [|c t]; [discriminate|].
  cbn [starts_clean]. rewrite str_app_cons. cbn [PyStr.lstrip].
  now destruct (PyStr.isspace c).
Qed.

Lemma ends_clean_not_nil l : ends_clean l = true -> l <> "".
Proof. destruct l; [discriminate|discriminate]. Qed.

Lemma split_scan_line l : forall cur,
  no_newline l = true ->
  PyStr.split_scan PyStr.nl 0 cur l = [cur +:+ l].
Proof.
  induction l as [|c t IH]; intros cur H.
  - now rewrite str_app_nil_r.
  - cbn [no_newline] in H. apply andb_true_iff in H as [Hc Ht].
    cbn [PyStr.split_scan PyStr.startswith PyStr.nl].
    change (ascii_of_nat 10) with newline.
    apply negb_true_iff in Hc. rewrite Hc. cbn [andb].
    rewrite IH by assumption. now rewrite str_app_assoc.
Qed.

Lemma split_scan_line_more l more : forall cur,
  no_newline l = true ->
  PyStr.split_scan PyStr.nl 0 cur (l +:+ PyStr.nl +:+ more)
  = (cur +:+ l) :: PyStr.split_scan PyStr.nl 0 "" more.
Proof.
  induction l as [|c t IH]; intros cur H.
  - rewrite str_app_nil_l, str_app_nil_r. reflexivity.
  - cbn [no_newline] in H. apply andb_true_iff in H as [Hc Ht].
    rewrite str_app_cons.
    cbn [PyStr.split_scan PyStr.startswith PyStr.nl].
    change (ascii_of_nat 10) with newline.
    apply negb_true_iff in Hc. rewrite Hc. cbn [andb].
    rewrite IH by assumption. now rewrite str_app_assoc.
Qed.

Lemma split_join g :
  g <> [] ->
  Forall (fun l => no_newline l = true) g ->
  PyStr.split PyStr.nl (PyStr.join PyStr.nl g) = g.
Proof.
  unfold PyStr.split. induction g as [|l g IH]; intros Hne Hall; [congruence|].
  inversion Hall as [|? ? Hl Hg]; subst.
  destruct g as [|l' g'].
  - cbn [PyStr.join]. now rewrite split_scan_line.
  - change (PyStr.join PyStr.nl (l :: l' :: g'))
      with (l +:+ PyStr.nl +:+ PyStr.join PyStr.nl (l' :: g')).
    rewrite split_scan_line_more by assumption.
    rewrite IH by (try assumption; discriminate). reflexivity.
Qed.

Lemma text_of_cons l g : text_of (l :: g) = l +:+ PyStr.nl +:+ text_of g.
Proof. unfold text_of. simpl. now rewrite str_app_assoc. Qed.

Lemma text_of_join g :
  g <> [] -> text_of g = PyStr.join PyStr.nl g +:+ PyStr.nl.
Proof.
  induction g as [|l g IH]; intros Hne; [congruence|].
  rewrite text_of_cons. destruct g as [|l' g'].
  - reflexivity.
  - rewrite IH by discriminate.
    change (PyStr.join PyStr.nl (l :: l' :: g'))
      with (l +:+ PyStr.nl +:+ PyStr.join PyStr.nl (l' :: g')).
    now rewrite !str_app_assoc.
Qed.

Lemma join_snoc front final :
  PyStr.join PyStr.nl (front ++ [final]) +:+ PyStr.nl
  = text_of front +:+ final +:+ PyStr.nl.
Proof.
  induction front as [|l front IH]; [reflexivity|].
  rewrite text_of_cons.
  destruct front as [|l' front'].
  - simpl. now rewrite !str_app_assoc.
  - change (PyStr.join PyStr.nl ((l :: l' :: front') ++ [final]))
      with (l +:+ PyStr.nl +:+ PyStr.join PyStr.nl ((l' :: front') ++ [final])).
    rewrite !str_app_assoc. rewrite IH. reflexivity.
Qed.

(** [strip] and [split] give a clean group of lines back. *)
Lemma lines_of_text g : edge_clean g -> Process.lines_of (text_of g) = g.
Proof.
  intros (Hnl & (first & rest & Hg1 & Hfirst) & (front & final & Hg2 & Hfinal)).
  assert (Hne : g <> []) by (rewrite Hg1; discriminate).
  unfold Process.lines_of, PyStr.strip.
  assert (Hl : PyStr.lstrip (text_of g) = text_of g).
  { rewrite Hg1, text_of_cons. now apply lstrip_clean. }
  rewrite Hl.
  assert (Hr : PyStr.rstrip (text_of g) = PyStr.join PyStr.nl g).
  { rewrite text_of_join by assumption. rewrite Hg2 at 1. rewrite join_snoc.
    rewrite rstrip_app.
    - rewrite rstrip_line by assumption.
      rewrite Hg2. clear.
      induction front as [|l front IH]; [reflexivity|].
      rewrite text_of_cons.
      destruct front as [|l' front'].
      + simpl. now rewrite !str_app_assoc.
      + change (PyStr.join PyStr.nl ((l :: l' :: front') ++ [final]))
          with (l +:+ PyStr.nl
                +:+ PyStr.join PyStr.nl ((l' :: front') ++ [final])).
        rewrite <- IH. now rewrite !str_app_assoc.
    - rewrite rstrip_line by assumption. now apply ends_clean_not_nil. }
  rewrite Hr. now apply split_join.
Qed.

Lemma lines_of_chunks_text groups :
  Forall edge_clean groups ->
  lines_of_chunks (map text_of groups) = concat groups.
Proof.
  unfold lines_of_chunks. induction 1 as [|g groups Hg _ IH]; [reflexivity|].
  simpl. now rewrite lines_of_text, IH.
Qed.

(** ** Interleavings *)

Lemma merge_left_only {A : Type} (a : list A) : merge a [] a.
Proof. induction a; constructor; assumption. Qed.

Lemma merge_right_only {A : Type} (b : list A) : merge [] b b.
Proof. induction b; constructor; assumption. Qed.

Lemma merge_app_left {A : Type} (a b l x : list A) :
  merge a b l -> merge (a ++ x) b (l ++ x).
Proof.
  induction 1; simpl.
  - apply merge_left_only.
  - now constructor.
  - now constructor.
Qed.

Lemma merge_app_right {A : Type} (a b l y : list A) :
  merge a b l -> merge a (b ++ y) (l ++ y).
Proof.
  induction 1; simpl.
  - apply merge_right_only.
  - now constructor.
  - now constructor.
Qed.

Lemma merge_nil_right {A : Type} (a l : list A) : merge a [] l -> l = a.
Proof.
  remember [] as b eqn:Eb. induction 1; try reflexivity; try discriminate.
  f_equal. auto.
Qed.

Lemma merge_length {A : Type} (a b l : list A) :
  merge a b l -> length l = length a + length b.
Proof. induction 1; simpl; lia. Qed.

Lemma lines_of_chunks_app a b :
  lines_of_chunks (a ++ b) = lines_of_chunks a ++ lines_of_chunks b.
Proof. unfold lines_of_chunks. now rewrite map_app, concat_app. Qed.

Lemma lines_of_chunks_head q :
  lines_of_chunks (firstn 1 q) = head_lines q.
Proof.
  destruct q as [|c q]; [reflexivity|].
  unfold lines_of_chunks. simpl. apply app_nil_r.
Qed.

Lemma firstn_1_tail {A : Type} (q : list A) : firstn 1 q ++ tail q = q.
Proof. now destruct q. Qed.

(** ** Schedules of the monitor and the controller *)

Lemma delivered_weaken p0 args h outs errs no ne no' ne' st :
  no <= no' -> ne <= ne' ->
  delivered p0 args h outs errs no ne st ->
  delivered p0 args h outs errs no' ne' st.
Proof.
  intros Ho He (c & to & te & new & H1 & H2 & H3 & H4 & H5 & H6 & H7 & H8).
  exists c, to, te, new. splits; auto; lia.
Qed.

Lemma delivered_put_stdout p0 args h outs errs no ne st chunk :
  delivered p0 args h outs errs no ne st ->
  delivered p0 args h (outs ++ [chunk]) errs (S no) ne
    (run_step h (MonitorPutStdout chunk) st).
Proof.
  intros (c & to & te & new & H1 & H2 & H3 & H4 & H5 & H6 & H7 & H8).
  exists (put_stdout chunk c), to, te, new. cbn [run_step fst snd].
  unfold monitor_put_stdout. rewrite lookup_update_child_eq, H2.
  splits; auto; cbn [put_stdout qstdout qstderr fmap option_fmap option_map].
  - rewrite H3. now rewrite app_assoc.
  - rewrite length_app. simpl. lia.
Qed.

Lemma delivered_put_stderr p0 args h outs errs no ne st chunk :
  delivered p0 args h outs errs no ne st ->
  delivered p0 args h outs (errs ++ [chunk]) no (S ne)
    (run_step h (MonitorPutStderr chunk) st).
Proof.
  intros (c & to & te & new & H1 & H2 & H3 & H4 & H5 & H6 & H7 & H8).
  exists (put_stderr chunk c), to, te, new. cbn [run_step fst snd].
  unfold monitor_put_stderr. rewrite lookup_update_child_eq, H2.
  splits; auto; cbn [put_stderr qstdout qstderr fmap option_fmap option_map].
  - rewrite H4. now rewrite app_assoc.
  - rewrite length_app. simpl. lia.
Qed.

Lemma delivered_refresh p0 args h outs errs no ne st :
  delivered p0 args h outs errs no ne st ->
  delivered p0 args h outs errs (no - 1) (ne - 1)
    (run_step h ControllerRefresh st).
Proof.
  intros (c & to & te & new & H1 & H2 & H3 & H4 & H5 & H6 & H7 & H8).
  destruct st as [p w]. cbn [fst snd] in *.
  destruct (refresh_attached p w args h c H1 H2)
    as (p' & w' & c' & Hr & Hp' & _ & _ & _ & _ & Hres & Hc' & Hqo & Hqe & _).
  cbn [run_step]. rewrite Hr. cbn [fst snd].
  exists c', (to ++ firstn 1 (qstdout c)), (te ++ firstn 1 (qstderr c)),
    (new ++ head_lines (qstdout c) ++ head_lines (qstderr c)).
  splits; auto.
  - rewrite Hqo, <- app_assoc, firstn_1_tail. assumption.
  - rewrite Hqe, <- app_assoc, firstn_1_tail. assumption.
  - rewrite Hqo. destruct (qstdout c); simpl in *; lia.
  - rewrite Hqe. destruct (qstderr c); simpl in *; lia.
  - cbn [fst]. rewrite Hres, H7. now rewrite <- app_assoc.
  - rewrite !lines_of_chunks_app, !lines_of_chunks_head.
    rewrite app_assoc.
    apply merge_app_right. apply merge_app_left. assumption.
Qed.

Lemma delivered_steps p0 args h steps : forall outs errs no ne st,
  delivered p0 args h outs errs no ne st ->
  delivered p0 args h (outs ++ stdout_puts steps) (errs ++ stderr_puts steps)
    (no + length steps) (ne + length steps) (run_steps h steps st).
Proof.
  induction steps as [|s steps IH]; intros outs errs no ne st H.
  - simpl. rewrite !app_nil_r, !Nat.add_0_r. exact H.
  - cbn [run_steps fold_left]. fold (run_steps h steps (run_step h s st)).
    destruct s as [chunk|chunk|].
    + apply (delivered_put_stdout _ _ _ _ _ _ _ _ chunk) in H.
      apply IH in H.
      unfold stdout_puts, stderr_puts in *. cbn [omap list_omap] in *.
      rewrite <- app_assoc in H. simpl in H.
      eapply delivered_weaken; [| |exact H]; simpl; lia.
    + apply (delivered_put_stderr _ _ _ _ _ _ _ _ chunk) in H.
      apply IH in H.
      unfold stdout_puts, stderr_puts in *. cbn [omap list_omap] in *.
      rewrite <- app_assoc in H. simpl in H.
      eapply delivered_weaken; [| |exact H]; simpl; lia.
    + apply delivered_refresh in H. apply IH in H.
      unfold stdout_puts, stderr_puts in *. cbn [omap list_omap] in *.
      eapply delivered_weaken; [| |exact H]; simpl; lia.
Qed.

Lemma delivered_refreshes p0 args h outs errs k : forall no ne st,
  delivered p0 args h outs errs no ne st ->
  delivered p0 args h outs errs (no - k) (ne - k)
    (run_steps h (repeat ControllerRefresh k) st).
Proof.
  induction k as [|k IH]; intros no ne st H.
  - simpl. now rewrite !Nat.sub_0_r.
  - cbn [repeat run_steps fold_left].
    fold (run_steps h (repeat ControllerRefresh k)
            (run_step h ControllerRefresh st)).
    apply delivered_refresh in H. apply IH in H.
    eapply delivered_weaken; [| |exact H]; lia.
Qed.

(** After a schedule and as many further refreshes as the schedule has
    steps, everything the monitor put has been taken. *)
Lemma schedule_delivers p w args h c steps k :
  Process.proc p = Some (attached args h) ->
  children w !! h = Some c ->
  qstdout c = [] -> qstderr c = [] ->
  length steps <= k ->
  exists new,
    Process.result
      (fst (run_steps h (steps ++ repeat ControllerRefresh k) (p, w)))
    = Process.result p ++ new
    /\ merge (lines_of_chunks (stdout_puts steps))
             (lines_of_chunks (stderr_puts steps)) new.
Proof.
  intros Hp Hc Hqo Hqe Hk.
  assert (H0 : delivered p args h [] [] 0 0 (p, w)).
  { exists c, [], [], []. cbn [fst snd]. rewrite Hqo, Hqe.
    splits; auto; first [ now rewrite app_nil_r | constructor ]. }
  apply (delivered_steps p args h steps) in H0.
  apply (delivered_refreshes p args h _ _ k) in H0.
  unfold run_steps in *. rewrite fold_left_app.
  destruct H0 as (c' & to & te & new & H1 & H2 & H3 & H4 & H5 & H6 & H7 & H8).
  exists new. split; [exact H7|].
  assert (Eo : qstdout c' = []) by (apply length_zero_iff_nil; simpl in *; lia).
  assert (Ee : qstderr c' = []) by (apply length_zero_iff_nil; simpl in *; lia).
  rewrite Eo, app_nil_r in H3. rewrite Ee, app_nil_r in H4.
  simpl in H3, H4. now rewrite H3, H4.
Qed.

Lemma text_of_app a b : text_of (a ++ b) = text_of a +:+ text_of b.
Proof. unfold text_of. now rewrite map_app, concat_text_app. Qed.

Lemma text_of_concat groups :
  text_of (concat groups) = concat_text (map text_of groups).
Proof.
  induction groups as [|g groups IH]; [reflexivity|].
  simpl. now rewrite text_of_app, IH.
Qed.

(** The chunks that a run of the monitor puts on the stdout queue are the
    text that the listener buffered during the passes the run made. *)
Lemma process_entry_stdout rt args obs :
  popen rt args = None ->
  concat_text
    (ProcessListener.stdout_chunks
       (ProcessListener.actions (snd (ProcessListener.process_entry rt args obs))))
  = observed_stdout obs 0
      (ProcessListener.polls (snd (ProcessListener.process_entry rt args obs))).
Proof.
  intros Hpopen.
  unfold ProcessListener.process_entry, ProcessListener.start.
  cbn [ProcessListener.init ProcessListener.process_args
       ProcessListener.stdoutString ProcessListener.stderrString].
  rewrite Hpopen.
  destruct (poll_loop_facts obs 1000 0
              {| ProcessListener.process_args := args;
                 ProcessListener.stdoutString := "";
                 ProcessListener.stderrString := "";
                 ProcessListener.process := true |}
              [ProcessListener.Popen args] eq_refl eq_refl)
    as (i' & st' & more & Hloop & _ & _ & _ & Hp' & Hch & _).
  rewrite Hloop. unfold ProcessListener.kill. rewrite Hp'.
  cbn [snd ProcessListener.actions ProcessListener.polls].
  rewrite !stdout_chunks_app. cbn [ProcessListener.stdout_chunks omap list_omap].
  rewrite app_nil_r. cbn [app]. rewrite Hch. now rewrite Nat.sub_0_r.
Qed.

(** C8, as the code has it.  Take a run of the monitor and any schedule
    in which its puts on the two queues are interleaved with refreshes of
    the row, followed by as many refreshes as the schedule has steps.  The
    chunks on the stdout queue are the text buffered during the passes the
    run made, in order and once.  When each chunk is a group of whole lines
    whose first line is not empty and does not begin with whitespace and
    whose last line is not empty and does not end with whitespace, [result]
    ends up as the old [result] followed by an interleaving of those lines
    and the lines of the stderr chunks, each in order and each once. *)
Theorem C8_output_accumulates rt p w args h c obs steps groups k :
  Process.proc p = Some (attached args h) ->
  children w !! h = Some c ->
  qstdout c = [] ->
  qstderr c = [] ->
  popen rt args = None ->
  stdout_puts steps
  = ProcessListener.stdout_chunks
      (ProcessListener.actions (snd (ProcessListener.process_entry rt args obs))) ->
  stderr_puts steps
  = ProcessListener.stderr_chunks
      (ProcessListener.actions (snd (ProcessListener.process_entry rt args obs))) ->
  stdout_puts steps = map text_of groups ->
  Forall edge_clean groups ->
  length steps <= k ->
  text_of (concat groups)
  = observed_stdout obs 0
      (ProcessListener.polls (snd (ProcessListener.process_entry rt args obs)))
  /\ exists new,
       Process.result
         (fst (run_steps h (steps ++ repeat ControllerRefresh k) (p, w)))
       = Process.result p ++ new
       /\ merge (concat groups) (lines_of_chunks (stderr_puts steps)) new
       /\ length new
          = length (concat groups)
            + length (lines_of_chunks (stderr_puts steps)).
Proof.
  intros Hp Hc Hqo Hqe Hpopen Hout Herr Hgroups Hclean Hk. split.
  - rewrite text_of_concat, <- Hgroups, Hout.
    now apply process_entry_stdout.
  - destruct (schedule_delivers p w args h c steps k Hp Hc Hqo Hqe Hk)
      as (new & Hres & Hmerge).
    exists new. split; [exact Hres|].
    rewrite Hgroups, lines_of_chunks_text in Hmerge by assumption.
    split; [exact Hmerge|]. eapply merge_length; eassumption.
Qed.

Lemma C8_witness :
  Process.result
    (fst (run_steps 0
            ([MonitorPutStdout (text_of ["hi"]); ControllerRefresh]
             ++ repeat ControllerRefresh 2)
            (script_row, snd script_table)))
  = ["hi"].
Proof.
  destruct (C8_output_accumulates CPython.runtime script_row (snd script_table)
              ["./script.sh"] 0 (new_child ["./script.sh"]) prints_hi
              [MonitorPutStdout (text_of ["hi"]); ControllerRefresh]
              [["hi"]] 2
              eq_refl eq_refl eq_refl eq_refl eq_refl eq_refl eq_refl eq_refl)
    as (_ & new & Hres & Hmerge & _).
  - constructor; [|constructor].
    split; [repeat constructor|].
    split; [exists "hi", []|exists [], "hi"]; split; reflexivity.
  - simpl. lia.
  - apply merge_nil_right in Hmerge. now rewrite Hres, Hmerge.
Defined.

(** C8 as stated fails: the child printed an empty line and the line
    [ok]; the monitor put both in one chunk; however often the row is
    refreshed, the two lines are never its [result], which stays at
    [ok]. *)
Lemma C8_counterexample :
  ProcessListener.stdout_chunks
    (ProcessListener.actions
       (snd (ProcessListener.process_entry CPython.runtime ["./script.sh"]
               blank_then_ok)))
  = [text_of [""; "ok"]]
  /\ Process.result
       (fst (run_steps 0
               (MonitorPutStdout (text_of [""; "ok"]) :: repeat ControllerRefresh 3)
               (script_row, snd script_table)))
     = ["ok"]
  /\ ~ (exists k,
          Process.result
            (fst (run_steps 0
                    (MonitorPutStdout (text_of [""; "ok"])
                       :: repeat ControllerRefresh k)
                    (script_row, snd script_table)))
          = [""; "ok"]).
Proof.
  split; [reflexivity|]. split; [reflexivity|].
  intros [k Hk]. destruct k as [|k].
  - vm_compute in Hk. discriminate.
  - destruct (schedule_delivers script_row (snd script_table) ["./script.sh"] 0
                (new_child ["./script.sh"])
                [MonitorPutStdout (text_of [""; "ok"])] (S k)
                eq_refl eq_refl eq_refl eq_refl)
      as (new & Hres & Hmerge).
    + simpl. lia.
    + apply merge_nil_right in Hmerge.
      change ([MonitorPutStdout (text_of [""; "ok"])]
              ++ repeat ControllerRefresh (S k))
        with (MonitorPutStdout (text_of [""; "ok"])
                :: repeat ControllerRefresh (S k)) in Hres.
      rewrite Hres, Hmerge in Hk. vm_compute in Hk. discriminate.
Qed.

(** ** The round trip of rows with text commands *)

Lemma split_scan_plain f : forall cur,
  no_colon f = true -> PyStr.split_scan ":::" 0 cur f = [cur +:+ f].
Proof.
  induction f as [|c t IH]; intros cur H.
  - now rewrite str_app_nil_r.
  - cbn [no_colon] in H. apply andb_true_iff in H as [Hc Ht].
    apply negb_true_iff in Hc.
    cbn [PyStr.split_scan PyStr.startswith]. rewrite Hc. cbn [andb].
    rewrite IH by assumption. now rewrite str_app_assoc.
Qed.

Lemma split_scan_field f rest : forall cur,
  no_colon f = true ->
  PyStr.split_scan ":::" 0 cur (f +:+ ":::" +:+ rest)
  = (cur +:+ f) :: PyStr.split_scan ":::" 0 "" rest.
Proof.
  induction f as [|c t IH]; intros cur H.
  - rewrite str_app_nil_l, str_app_nil_r. reflexivity.
  - cbn [no_colon] in H. apply andb_true_iff in H as [Hc Ht].
    apply negb_true_iff in Hc. rewrite str_app_cons.
    cbn [PyStr.split_scan PyStr.startswith]. rewrite Hc. cbn [andb].
    rewrite IH by assumption. now rewrite str_app_assoc.
Qed.

Lemma fields_line n c d :
  no_colon n = true -> no_colon c = true -> no_colon d = true ->
  fields (n +:+ ":::" +:+ c +:+ ":::" +:+ d) = [n; c; d].
Proof.
  intros Hn Hc Hd. unfold fields, PyStr.split.
  rewrite split_scan_field, split_scan_field, split_scan_plain by assumption.
  reflexivity.
Qed.

Lemma no_newline_app s t :
  no_newline (s +:+ t) = no_newline s && no_newline t.
Proof.
  induction s as [|c s IH]; [reflexivity|].
  rewrite str_app_cons. cbn [no_newline]. rewrite IH. now rewrite andb_assoc.
Qed.

Lemma starts_clean_app s t : starts_clean s = true -> starts_clean (s +:+ t) = true.
Proof. destruct s; [discriminate|]. now rewrite str_app_cons. Qed.

Lemma ends_clean_app s t : ends_clean t = true -> ends_clean (s +:+ t) = true.
Proof.
  intros H. induction s as [|c s IH]; [assumption|].
  rewrite str_app_cons. cbn [ends_clean].
  destruct (s +:+ t) eqn:E; [|assumption].
  exfalso. apply (str_app_not_nil s t); [|assumption].
  now apply ends_clean_not_nil.
Qed.



Lemma no_line_break_app s t :
  no_line_break (s +:+ t) = no_line_break s && no_line_break t.
Proof.
  induction s as [|c s IH]; [reflexivity|].
  rewrite str_app_cons. cbn [no_line_break]. rewrite IH.
  now rewrite !andb_assoc.
Qed.

Lemma no_line_break_no_newline s :
  no_line_break s = true -> no_newline s = true.
Proof.
  induction s as [|c s IH]; [reflexivity|].
  cbn [no_line_break no_newline]. intros H.
  apply andb_true_iff in H as [H Hs]. apply andb_true_iff in H as [H10 _].
  rewrite (IH Hs), andb_true_r.
  destruct (Ascii.eqb_spec newline c) as [<-|]; [discriminate H10|reflexivity].
Qed.





(** Fields without a colon and without a line break make a carried row. *)
Lemma plain_fields_carried rt p c :
  Process.commands p = CmdStr c ->
  is_ok (SafetyProcessCall.init rt (CmdStr c)) = true ->
  sleep_float rt (DelayStr (str_delay (Process.delay p))) = None ->
  no_colon (Process.name p) = true -> no_line_break (Process.name p) = true ->
  no_colon c = true -> no_line_break c = true ->
  no_colon (str_delay (Process.delay p)) = true ->
  no_line_break (str_delay (Process.delay p)) = true ->
  carried rt p.
Proof.
  intros Hc Hinit Hsleep Hn1 Hn2 Hc1 Hc2 Hd1 Hd2.
  split; [exists c; split; assumption|].
  unfold line_of. rewrite Hc. cbn [str_command].
  split; [|split; [|assumption]].
  - rewrite !no_line_break_app, Hn2, Hc2, Hd2. reflexivity.
  - now apply fields_line.
Qed.

Lemma load_lines_loadable rt lines : forall tbl w,
  Forall (loadable rt) lines ->
  exists rows w',
    ProcessTable.load_lines rt lines (tbl, w)
    = (Ok tt,
       ({| ProcessTable.process_list := ProcessTable.process_list tbl ++ rows |},
        w'))
    /\ Forall2 loads_as lines rows.
Proof.
  induction lines as [|line lines IH]; intros tbl w Hall.
  - exists [], w. split; [|constructor].
    simpl. unfold ret. rewrite app_nil_r. now destruct tbl.
  - inversion Hall as [|? ? (n & c & d & Hf & Hinit & Hsleep) Hall']; subst.
    destruct (init_ok_args _ _ Hinit) as [args Hargs].
    destruct (IH {| ProcessTable.process_list :=
                      ProcessTable.process_list tbl
                      ++ [started args (length (children w))
                            (Process.init n (CmdStr c) (DelayStr d))] |}
                (log EvSleep (spawned args w)) Hall')
      as (rows & w' & Hload & Hrows).
    exists (started args (length (children w))
              (Process.init n (CmdStr c) (DelayStr d)) :: rows), w'.
    split.
    + simpl. unfold bind at 1 2, lift. fold (fields line). rewrite Hf.
      cbn [ProcessTable.unpack3].
      rewrite (add_loadable rt n c d args tbl w Hargs Hsleep).
      rewrite Hload. cbn [ProcessTable.process_list].
      now rewrite <- app_assoc.
    + constructor; [|assumption].
      exists c, d. splits; try reflexivity; try assumption.
      eexists _, _. reflexivity.
Qed.

Lemma kill_world_cons p l w :
  kill_world (p :: l) w
  = kill_world l (match Process.handle p with
                  | Some h => killed h w
                  | None => w
                  end).
Proof. reflexivity. Qed.

Lemma kill_world_length l : forall w,
  length (children (kill_world l w)) = length (children w).
Proof.
  induction l as [|p l IH]; intros w; [reflexivity|].
  rewrite kill_world_cons, IH. destruct (Process.handle p); [|reflexivity].
  apply killed_length.
Qed.




(** Rows that run each on a process of its own hold pairwise different
    processes. *)
Lemma own_processes_distinct base w l j k p q :
  own_processes base w l ->
  l !! j = Some p -> l !! k = Some q -> j <> k ->
  Process.handle p <> Process.handle q.
Proof.
  intros Hown Hp Hq Hne.
  destruct (Hown j p Hp) as [-> _]. destruct (Hown k q Hq) as [-> _].
  intros [= E]. lia.
Qed.


Example round_trip_text_rows :
  let saved := snd (ProcessTable.save_config "cfg" text_rows) in
  let loaded := ProcessTable.load_config CPython.runtime "cfg"
                  (ProcessTable.init, snd saved) in
  read_file "cfg" (snd saved)
  = Some ("a:::echo hi:::0.0" +:+ PyStr.nl +:+ "b:::sleep 5:::0.5" +:+ PyStr.nl)
  /\ fst loaded = Ok tt
  /\ Process.name <$> ProcessTable.process_list (fst (snd loaded)) = ["a"; "b"]
  /\ Process.commands <$> ProcessTable.process_list (fst (snd loaded))
     = [CmdStr "echo hi"; CmdStr "sleep 5"]
  /\ Process.delay <$> ProcessTable.process_list (fst (snd loaded))
     = [DelayStr "0.0"; DelayStr "0.5"].
Proof. repeat split. Qed.

(** A row whose name holds a carriage return is saved as one line and read
    as two: reading in text mode turns the carriage return into a line
    feed, and [load_config] raises on the first of the two lines. *)
Example round_trip_carriage_return :
  let saved := snd (ProcessTable.save_config "cfg" carriage_row) in
  file_text "cfg" (snd saved)
  = Some ("a" +:+ String (ascii_of_nat 13) "b" +:+ ":::echo hi:::0.0" +:+ PyStr.nl)
  /\ read_file "cfg" (snd saved)
     = Some ("a" +:+ PyStr.nl +:+ "b:::echo hi:::0.0" +:+ PyStr.nl)
  /\ fst (ProcessTable.load_config CPython.runtime "cfg"
            (ProcessTable.init, snd saved))
     = Raise (ValueError "not enough values to unpack (expected 3, got 1)").
Proof. repeat split. Qed.

(** * Further properties of the code *)

(** ** The effect of [start] on the world *)

Lemma handle_halted p : Process.handle (halted p) = None.
Proof. reflexivity. Qed.

Lemma handle_started args h p : Process.handle (started args h p) = Some h.
Proof. reflexivity. Qed.

(** [start] on a restartable row spawns exactly one monitor, which is the
    newest child and alive; of the older ones it stops the one the row held
    and no other. *)
Lemma process_start_effect rt p w :
  restartable rt p ->
  exists args w',
    Process.start rt (p, w)
    = (Ok tt, (started args (length (children w)) (halted p), w'))
    /\ length (children w') = S (length (children w))
    /\ child_alive w' (length (children w)) = true
    /\ (forall q, q <> length (children w) ->
          child_alive w' q
          = if decide (Process.handle p = Some q) then false
            else child_alive w q).
Proof.
  intros ([Hs|(a & h & Ha)] & Hinit & Hsleep);
    destruct (init_ok_args _ _ Hinit) as [args Hargs].
  - rewrite process_start_stopped by assumption.
    rewrite Hargs, Hsleep. cbv zeta. cbn [SafetyProcessCall.process_args].
    exists args, (log EvSleep (spawned args w)). splits.
    + unfold started, halted. destruct p; reflexivity.
    + apply length_spawned.
    + apply child_alive_spawned.
    + intros q Hq. rewrite child_alive_log.
      unfold Process.handle. rewrite Hs.
      destruct (decide (None = Some q)) as [|_]; [discriminate|].
      destruct (Nat.lt_ge_cases q (length (children w))) as [Hlt|Hge].
      * now apply child_alive_spawned_old.
      * transitivity false.
        -- destruct (child_alive (spawned args w) q) eqn:E; [|reflexivity].
           apply child_alive_lt in E. rewrite length_spawned in E. lia.
        -- destruct (child_alive w q) eqn:E; [|reflexivity].
           apply child_alive_lt in E. lia.
  - rewrite (process_start_attached rt p w a h Ha).
    rewrite process_start_stopped by reflexivity.
    cbn [Process.commands Process.delay halted Process.set_status
         Process.set_proc].
    rewrite Hargs, Hsleep. cbv zeta. cbn [SafetyProcessCall.process_args].
    rewrite killed_length.
    exists args, (log EvSleep (spawned args (killed h w))). splits.
    + unfold started, halted. destruct p; reflexivity.
    + rewrite children_log, length_spawned. now rewrite killed_length.
    + rewrite child_alive_log. rewrite <- (killed_length h w).
      apply child_alive_spawned.
    + intros q Hq. rewrite child_alive_log.
      unfold Process.handle. rewrite Ha. cbn [attached SafetyProcessCall.proc].
      assert (Hsp : child_alive (spawned args (killed h w)) q
                    = child_alive (killed h w) q).
      { destruct (Nat.lt_ge_cases q (length (children w))) as [Hlt|Hge].
        - apply child_alive_spawned_old. now rewrite killed_length.
        - transitivity false.
          + destruct (child_alive (spawned args (killed h w)) q) eqn:E;
              [|reflexivity].
            apply child_alive_lt in E.
            rewrite length_spawned, killed_length in E. lia.
          + destruct (child_alive (killed h w) q) eqn:E; [|reflexivity].
            apply child_alive_lt in E. rewrite killed_length in E. lia. }
      rewrite Hsp.
      destruct (decide (Some h = Some q)) as [E|E].
      * inversion E; subst. apply killed_alive_same.
      * apply killed_alive_other. intros ->. now apply E.
Qed.

(** ** [restart_all] *)

Lemma held_by_nil q : ~ held_by [] q.
Proof. intros (p & Hin & _). inversion Hin. Qed.

Lemma held_by_cons p l q :
  held_by (p :: l) q <-> Process.handle p = Some q \/ held_by l q.
Proof.
  split.
  - intros (p' & Hin & Hh). inversion Hin; subst; [now left|].
    right. exists p'. split; assumption.
  - intros [Hh|(p' & Hin & Hh)].
    + exists p. split; [constructor|assumption].
    + exists p'. split; [now constructor|assumption].
Qed.

Lemma for_each_start rt todo : forall done w,
  Forall (restartable rt) todo ->
  Forall (handle_in w) todo ->
  exists rows' w',
    ProcessTable.for_each (Process.start rt) done todo w
    = (Ok tt, ({| ProcessTable.process_list := done ++ rows' |}, w'))
    /\ length rows' = length todo
    /\ length (children w') = length (children w) + length todo
    /\ (forall k p, todo !! k = Some p ->
          exists args,
            rows' !! k
            = Some (started args (length (children w) + k) (halted p)))
    /\ (forall q,
          child_alive w' q = true
          <-> (length (children w) <= q < length (children w) + length todo)
              \/ (child_alive w q = true /\ ~ held_by todo q)).
Proof.
  induction todo as [|p todo IH]; intros done w Hre Hin.
  - exists [], w. cbn [ProcessTable.for_each length]. rewrite app_nil_r.
    splits; try reflexivity; try lia.
    + intros k p Hk. inversion Hk.
    + intros q. split.
      * intros Hq. right. split; [assumption|apply held_by_nil].
      * intros [Hq|[Hq _]]; [lia|assumption].
  - inversion Hre as [|? ? Hp Hre']; subst.
    inversion Hin as [|? ? Hhp Hin']; subst.
    destruct (process_start_effect rt p w Hp)
      as (args & w1 & Hs & Hlen & Hnew & Hother).
    assert (Hin1 : Forall (handle_in w1) todo).
    { eapply Forall_impl; [exact Hin'|]. intros p' Hp' h Hh.
      rewrite Hlen. specialize (Hp' h Hh). lia. }
    destruct (IH (done ++ [started args (length (children w)) (halted p)])
                w1 Hre' Hin1)
      as (rows' & w' & Hloop & Hlr & Hlw & Hrows & Hlive).
    exists (started args (length (children w)) (halted p) :: rows'), w'.
    cbn [ProcessTable.for_each]. rewrite Hs, Hloop.
    splits.
    + now rewrite <- app_assoc.
    + simpl. now rewrite Hlr.
    + rewrite Hlw, Hlen. simpl. lia.
    + intros [|k] p' Hk.
      * inversion Hk; subst. exists args. now rewrite Nat.add_0_r.
      * destruct (Hrows k p' Hk) as [args' Hr]. exists args'.
        change ((started args (length (children w)) (halted p) :: rows') !! S k)
          with (rows' !! k).
        rewrite Hr, Hlen.
        now replace (length (children w) + S k)
          with (S (length (children w)) + k) by lia.
    + intros q. rewrite Hlive, Hlen, held_by_cons. cbn [length].
      assert (Hnot : ~ held_by todo (length (children w))).
      { intros (p' & Hp' & Hh). rewrite Forall_forall in Hin'.
        specialize (Hin' p' Hp' _ Hh). lia. }
      destruct (Nat.eq_dec q (length (children w))) as [->|Hne].
      * split; intros _; [left; lia|]. right. split; assumption.
      * rewrite (Hother q Hne).
        case_decide as Hd.
        -- split.
           ++ intros [Hr|[Hf _]]; [left; lia|discriminate].
           ++ intros [Hr|[_ Hf]]; [left; lia|]. exfalso. apply Hf. now left.
        -- split.
           ++ intros [Hr|[Ha Hh]]; [left; lia|]. right.
              split; [assumption|]. intros [Hc|Hc]; contradiction.
           ++ intros [Hr|[Ha Hh]]; [left; lia|]. right.
              split; [assumption|]. intros Hc. apply Hh. now right.
Qed.


(** ** [kill_all], [delete] and [delete_all] *)

Lemma handle_attached p args h :
  Process.proc p = Some (attached args h) -> Process.handle p = Some h.
Proof. unfold Process.handle. now intros ->. Qed.

Lemma kill_world_alive l : forall w q,
  child_alive (kill_world l w) q = true
  <-> child_alive w q = true /\ ~ held_by l q.
Proof.
  induction l as [|p l IH]; intros w q.
  - cbn. split; [intros H; split; [assumption|apply held_by_nil]|now intros [H _]].
  - rewrite kill_world_cons, IH, held_by_cons.
    destruct (Process.handle p) as [h|] eqn:Eh.
    + destruct (Nat.eq_dec q h) as [->|Hne].
      * rewrite killed_alive_same. split; [intros [Hf _]; discriminate|].
        intros [_ Hn]. exfalso. apply Hn. now left.
      * rewrite killed_alive_other by assumption. split.
        -- intros [Ha Hn]. split; [assumption|].
           intros [Hc|Hc]; [congruence|contradiction].
        -- intros [Ha Hn]. split; [assumption|]. intros Hc. apply Hn. now right.
    + split.
      * intros [Ha Hn]. split; [assumption|].
        intros [Hc|Hc]; [discriminate|contradiction].
      * intros [Ha Hn]. split; [assumption|]. intros Hc. apply Hn. now right.
Qed.

Lemma restartable_halted rt p : restartable rt p -> restartable rt (halted p).
Proof. intros (_ & Hi & Hs). split; [now left|]. split; assumption. Qed.

(** X2.  [kill_all] on a registry whose rows all hold a process returns
    normally: the rows keep their order, every row is in state ["Stop"] with
    no process, every process that a row held is stopped and the other
    processes are as they were.  When the rows are restartable,
    [restart_all] afterwards returns normally and has every row in state
    ["Run"] again. *)
Theorem X2_kill_all_stops_all rt tbl w :
  Forall is_attached (ProcessTable.process_list tbl) ->
  Forall (restartable rt) (ProcessTable.process_list tbl) ->
  exists w',
    ProcessTable.kill_all (tbl, w)
    = (Ok tt,
       ({| ProcessTable.process_list :=
             map halted (ProcessTable.process_list tbl) |}, w'))
    /\ Forall (fun p => Process.status p = "Stop" /\ stopped p)
         (map halted (ProcessTable.process_list tbl))
    /\ (forall q, held_by (ProcessTable.process_list tbl) q ->
          child_alive w' q = false)
    /\ (forall q, ~ held_by (ProcessTable.process_list tbl) q ->
          child_alive w' q = child_alive w q)
    /\ (exists rows'' w'',
          ProcessTable.restart_all rt
            ({| ProcessTable.process_list :=
                  map halted (ProcessTable.process_list tbl) |}, w')
          = (Ok tt, ({| ProcessTable.process_list := rows'' |}, w''))
          /\ length rows'' = length (ProcessTable.process_list tbl)
          /\ Forall (fun p => Process.status p = "Run" /\ is_attached p) rows'').
Proof.
  intros Hatt Hre. destruct tbl as [l]. cbn [ProcessTable.process_list] in *.
  exists (kill_world l w). rewrite (kill_all_attached l w Hatt). splits.
  - reflexivity.
  - apply Forall_map. apply Forall_forall. intros p _. split; reflexivity.
  - intros q Hq. destruct (child_alive (kill_world l w) q) eqn:E; [|reflexivity].
    apply kill_world_alive in E. destruct E as [_ E]. contradiction.
  - intros q Hq. destruct (child_alive (kill_world l w) q) eqn:E.
    + apply kill_world_alive in E. now destruct E as [-> _].
    + destruct (child_alive w q) eqn:E'; [|reflexivity].
      assert (Ht : child_alive (kill_world l w) q = true)
        by (apply kill_world_alive; now split).
      congruence.
  - assert (Hre' : Forall (restartable rt) (map halted l)).
    { apply Forall_map. eapply Forall_impl; [exact Hre|].
      intros p Hp. now apply restartable_halted. }
    assert (Hin : Forall (handle_in (kill_world l w)) (map halted l)).
    { apply Forall_map. apply Forall_forall. intros p _ h Hh.
      rewrite handle_halted in Hh. discriminate. }
    destruct (for_each_start rt (map halted l) [] (kill_world l w) Hre' Hin)
      as (rows'' & w'' & Hloop & Hlr & _ & Hrows & _).
    exists rows'', w''. unfold ProcessTable.restart_all, ProcessTable.for_all.
    cbn [ProcessTable.process_list]. rewrite Hloop. splits.
    + reflexivity.
    + now rewrite Hlr, length_map.
    + apply Forall_lookup. intros k q Hk.
      assert (Hlt : k < length (map halted l)).
      { rewrite <- Hlr. eapply lookup_lt_Some; eassumption. }
      destruct (lookup_lt_is_Some_2 _ _ Hlt) as [p Hp].
      destruct (Hrows k p Hp) as [args Hr]. rewrite Hr in Hk.
      inversion Hk; subst. split; [reflexivity|].
      eexists _, _. reflexivity.
Qed.

(** X3.  [delete(index)] on a row that holds a process returns normally:
    the process is stopped, the row is taken out, and the other rows close
    up in their order.  On a row that holds no process it raises
    [AttributeError] before the row is taken out, and the registry and the
    world are as they were: a stopped row is not removed. *)
Theorem X3_delete_removes_running_row tbl w i k p :
  ProcessTable.py_index (ProcessTable.process_list tbl) i = Some k ->
  ProcessTable.process_list tbl !! k = Some p ->
  (forall args h,
     Process.proc p = Some (attached args h) ->
     ProcessTable.delete i (tbl, w)
     = (Ok tt,
        ({| ProcessTable.process_list :=
              delete k (ProcessTable.process_list tbl) |}, killed h w))
     /\ length (delete k (ProcessTable.process_list tbl))
        = length (ProcessTable.process_list tbl) - 1
     /\ child_alive (killed h w) h = false
     /\ (forall j, j < k ->
           delete k (ProcessTable.process_list tbl) !! j
           = ProcessTable.process_list tbl !! j)
     /\ (forall j, k <= j ->
           delete k (ProcessTable.process_list tbl) !! j
           = ProcessTable.process_list tbl !! S j))
  /\ (stopped p ->
      ProcessTable.delete i (tbl, w) = (Raise (no_attribute "kill"), (tbl, w))).
Proof.
  intros Hk Hp. destruct tbl as [l]. cbn [ProcessTable.process_list] in *.
  assert (Hlt : k < length l) by (eapply lookup_lt_Some; eassumption).
  split.
  - intros args h Ha. splits.
    + unfold ProcessTable.delete, bind, ProcessTable.at_index.
      cbn [ProcessTable.process_list]. rewrite Hk, Hp.
      rewrite (process_kill_attached p w args h Ha).
      unfold ProcessTable.pop. cbn [ProcessTable.process_list].
      assert (Hk' : ProcessTable.py_index (<[k:=halted p]> l) i = Some k).
      { unfold ProcessTable.py_index in *. now rewrite length_insert. }
      unfold halted in Hk'. rewrite Hk'. now rewrite list_delete_insert.
    + rewrite length_delete by (now rewrite Hp). lia.
    + apply killed_alive_same.
    + intros j Hj. now apply list_lookup_delete_lt.
    + intros j Hj. now apply list_lookup_delete_ge.
  - intros Hs.
    unfold ProcessTable.delete, bind, ProcessTable.at_index.
    cbn [ProcessTable.process_list]. rewrite Hk, Hp.
    rewrite (process_kill_stopped p w Hs).
    now rewrite list_insert_id.
Qed.

(** X4.  [delete_all] on a registry whose rows all hold a process returns
    normally with an empty registry and every process that a row held
    stopped.  When a row holds no process and the rows before it do, it
    raises [AttributeError] and the registry is not emptied: the rows before
    that row are stopped and all rows are still there. *)
Theorem X4_delete_all_empties tbl w :
  (Forall is_attached (ProcessTable.process_list tbl) ->
   exists w',
     ProcessTable.delete_all (tbl, w) = (Ok tt, (ProcessTable.init, w'))
     /\ fst (ProcessTable.get_count (ProcessTable.init, w')) = Ok 0
     /\ (forall q, held_by (ProcessTable.process_list tbl) q ->
           child_alive w' q = false)
     /\ (forall q, ~ held_by (ProcessTable.process_list tbl) q ->
           child_alive w' q = child_alive w q))
  /\ (forall before p after,
        ProcessTable.process_list tbl = before ++ p :: after ->
        Forall is_attached before -> stopped p ->
        exists w',
          ProcessTable.delete_all (tbl, w)
          = (Raise (no_attribute "kill"),
             ({| ProcessTable.process_list :=
                   map halted before ++ p :: after |}, w'))
          /\ length (map halted before ++ p :: after)
             = length (ProcessTable.process_list tbl)).
Proof.
  destruct tbl as [l]. cbn [ProcessTable.process_list]. split.
  - intros Hatt. exists (kill_world l w).
    unfold ProcessTable.delete_all, bind.
    rewrite (kill_all_attached l w Hatt). splits.
    + reflexivity.
    + reflexivity.
    + intros q Hq.
      destruct (child_alive (kill_world l w) q) eqn:E; [|reflexivity].
      apply kill_world_alive in E. destruct E as [_ E]. contradiction.
    + intros q Hq. destruct (child_alive (kill_world l w) q) eqn:E.
      * apply kill_world_alive in E. now destruct E as [-> _].
      * destruct (child_alive w q) eqn:E'; [|reflexivity].
        assert (Ht : child_alive (kill_world l w) q = true)
          by (apply kill_world_alive; now split).
        congruence.
  - intros before p after -> Hatt Hs. exists (kill_world before w).
    unfold ProcessTable.delete_all, bind.
    rewrite (kill_all_stops_at_first_stopped before p after w Hatt Hs).
    split; [reflexivity|].
    rewrite !length_app, length_map. reflexivity.
Qed.

(** ** [add] and [load_config] *)

Lemma add_cases rt n c d tbl w :
  ProcessTable.add rt n c d (tbl, w)
  = match SafetyProcessCall.init rt c with
    | Raise e => (Raise e, (tbl, w))
    | Ok s =>
        let args := SafetyProcessCall.process_args s in
        match sleep_float rt d with
        | Some e => (Raise e, (tbl, spawned args w))
        | None =>
            (Ok tt,
             ({| ProcessTable.process_list :=
                   ProcessTable.process_list tbl
                   ++ [started args (length (children w)) (Process.init n c d)] |},
              log EvSleep (spawned args w)))
        end
    end.
Proof.
  unfold ProcessTable.add.
  rewrite process_start_stopped by reflexivity.
  cbn [Process.init Process.commands Process.delay].
  destruct (SafetyProcessCall.init rt c) as [s|e]; [|reflexivity].
  cbv zeta. now destruct (sleep_float rt d).
Qed.


Lemma str_length_app s t :
  String.length (s +:+ t) = String.length s + String.length t.
Proof.
  induction s as [|a s IH]; [reflexivity|].
  rewrite str_app_cons. simpl. now rewrite IH.
Qed.

Lemma length_spaces n : String.length (PyStr.spaces n) = n.
Proof. induction n as [|n IH]; simpl; [reflexivity|now rewrite IH]. Qed.

Lemma length_take n : forall s,
  String.length (PyStr.take n s) = Nat.min n (String.length s).
Proof.
  induction n as [|n IH]; intros [|a s]; simpl; try reflexivity.
  now rewrite IH.
Qed.

Lemma take_all n : forall s, String.length s <= n -> PyStr.take n s = s.
Proof.
  induction n as [|n IH]; intros [|a s] H; simpl in *; try reflexivity; try lia.
  rewrite IH by lia. reflexivity.
Qed.

(** X6.  [get_status(idx)] on a position of the registry returns a line
    and changes neither the registry nor the world.  In the line the name
    column is exactly 20 characters wide: the first 20 characters of the
    name, filled up with spaces when the name is shorter; the last column is
    the newest line of the row's output, or nothing when there is none. *)
Theorem X6_get_status_line tbl w i k p :
  ProcessTable.py_index (ProcessTable.process_list tbl) i = Some k ->
  ProcessTable.process_list tbl !! k = Some p ->
  exists column,
    ProcessTable.get_status i (tbl, w)
    = (Ok ("id: " +:+ PyStr.rjust 5 (PyStr.str_int i)
           +:+ " | status: " +:+ PyStr.ljust 6 (Process.status p)
           +:+ " | com: " +:+ column
           +:+ " | res: " +:+ List.last (Process.result p) ""),
       (tbl, w))
    /\ String.length column = 20
    /\ column
       = PyStr.take 20 (Process.name p)
         +:+ PyStr.spaces (20 - String.length (Process.name p))
    /\ (Process.result p = [] -> List.last (Process.result p) "" = "")
    /\ (forall front final, Process.result p = front ++ [final] ->
          List.last (Process.result p) "" = final).
Proof.
  intros Hk Hp. destruct tbl as [l]. cbn [ProcessTable.process_list] in *.
  exists (PyStr.ljust 20 (PyStr.take 20 (Process.name p))). splits.
  - unfold ProcessTable.get_status, ProcessTable.at_index.
    cbn [ProcessTable.process_list]. rewrite Hk, Hp. run.
    now rewrite list_insert_id.
  - unfold PyStr.ljust. rewrite str_length_app, length_spaces, length_take. lia.
  - unfold PyStr.ljust. rewrite length_take. f_equal. f_equal. lia.
  - intros ->. reflexivity.
  - intros front final ->. apply last_last.
Qed.

Lemma load_lines_cons rt line rest s :
  ProcessTable.load_lines rt (line :: rest) s
  = match ProcessTable.unpack3 (fields line) with
    | Raise e => (Raise e, s)
    | Ok (n, c, d) =>
        match ProcessTable.add rt n (CmdStr c) (DelayStr d) s with
        | (Ok _, s') => ProcessTable.load_lines rt rest s'
        | (Raise e, s') => (Raise e, s')
        end
    end.
Proof.
  cbn [ProcessTable.load_lines]. unfold bind, lift, fields.
  now destruct (ProcessTable.unpack3 (PyStr.split ":::" line)) as [[[n c] d]|e].
Qed.

Lemma load_lines_fresh rt lines : forall tbl w,
  exists new,
    ProcessTable.process_list
      (fst (snd (ProcessTable.load_lines rt lines (tbl, w))))
    = ProcessTable.process_list tbl ++ new
    /\ Forall (fun p => exists h, Process.handle p = Some h
                                  /\ length (children w) <= h)
         new
    /\ length (children w)
       <= length (children (snd (snd (ProcessTable.load_lines rt lines (tbl, w)))))
    /\ (forall q, q < length (children w) ->
          child_alive (snd (snd (ProcessTable.load_lines rt lines (tbl, w)))) q
          = child_alive w q).
Proof.
  induction lines as [|line lines IH]; intros tbl w.
  - exists []. cbn. rewrite app_nil_r. splits; auto.
  - rewrite load_lines_cons.
    destruct (ProcessTable.unpack3 (fields line)) as [[[n c] d]|e].
    2:{ exists []. cbn [fst snd]. rewrite app_nil_r. splits; auto. }
    rewrite add_cases.
    destruct (SafetyProcessCall.init rt (CmdStr c)) as [s|e].
    2:{ exists []. cbn [fst snd]. rewrite app_nil_r. splits; auto. }
    cbv zeta. destruct (sleep_float rt (DelayStr d)) as [e|].
    { exists []. cbn [fst snd]. rewrite app_nil_r. splits; auto.
      - rewrite length_spawned. lia.
      - intros q Hq. now apply child_alive_spawned_old. }
    destruct (IH {| ProcessTable.process_list :=
                      ProcessTable.process_list tbl
                      ++ [started (SafetyProcessCall.process_args s)
                            (length (children w))
                            (Process.init n (CmdStr c) (DelayStr d))] |}
                (log EvSleep (spawned (SafetyProcessCall.process_args s) w)))
      as (new & Hrows & Hnew & Hlen & Hlive).
    rewrite children_log, length_spawned in Hnew, Hlen, Hlive.
    cbn [ProcessTable.process_list] in Hrows.
    exists (started (SafetyProcessCall.process_args s) (length (children w))
              (Process.init n (CmdStr c) (DelayStr d)) :: new).
    splits.
    + rewrite Hrows. now rewrite <- app_assoc.
    + constructor.
      * exists (length (children w)). split; [reflexivity|lia].
      * eapply Forall_impl; [exact Hnew|].
        intros p (h & Hh & Hle). exists h. split; [assumption|lia].
    + lia.
    + intros q Hq. rewrite Hlive by lia. rewrite child_alive_log.
      now apply child_alive_spawned_old.
Qed.

(** X7.  [load_config] reads the file before it touches the registry.
    When the file is missing it raises [FileNotFoundError] and nothing has
    changed, whatever the registry holds.  When the file is there and every
    row holds a process that exists, the load is destructive whatever the
    file holds and whether the load returns or raises: every process that a
    row held is stopped, and every row of the registry afterwards holds a
    process spawned by the load.  When the file is there and some row holds
    no process, nothing is loaded: [delete_all] raises [AttributeError] on
    the first such row, the rows before it are stopped, that row and the
    rows behind it are as they were, and the registry is not emptied. *)
Theorem X7_load_config_is_destructive rt tbl w fname :
  (read_file fname w = None ->
   ProcessTable.load_config rt fname (tbl, w)
   = (Raise (FileNotFoundError fname), (tbl, w)))
  /\ (forall config,
        read_file fname w = Some config ->
        Forall is_attached (ProcessTable.process_list tbl) ->
        Forall (handle_in w) (ProcessTable.process_list tbl) ->
        (forall q, held_by (ProcessTable.process_list tbl) q ->
           child_alive
             (snd (snd (ProcessTable.load_config rt fname (tbl, w)))) q
           = false)
        /\ Forall (fun p => exists h, Process.handle p = Some h
                                      /\ length (children w) <= h)
             (ProcessTable.process_list
                (fst (snd (ProcessTable.load_config rt fname (tbl, w))))))
  /\ (forall config before p after,
        read_file fname w = Some config ->
        ProcessTable.process_list tbl = before ++ p :: after ->
        Forall is_attached before ->
        stopped p ->
        ProcessTable.load_config rt fname (tbl, w)
        = (Raise (no_attribute "kill"),
           ({| ProcessTable.process_list := map halted before ++ p :: after |},
            kill_world before w))).
Proof.
  destruct tbl as [l]. cbn [ProcessTable.process_list] in *.
  splits.
  - intros Hread. unfold ProcessTable.load_config. run. now rewrite Hread.
  - intros config Hread Hatt Hin.
    assert (E : ProcessTable.load_config rt fname
                  ({| ProcessTable.process_list := l |}, w)
                = ProcessTable.load_lines rt (config_lines config)
                    (ProcessTable.init, kill_world l w)).
    { unfold ProcessTable.load_config. unfold bind at 1. unfold world.
      cbn [snd]. rewrite Hread.
      unfold bind, ProcessTable.delete_all. unfold bind.
      now rewrite (kill_all_attached l w Hatt). }
    rewrite E.
    destruct (load_lines_fresh rt (config_lines config) ProcessTable.init
                (kill_world l w)) as (new & Hrows & Hnew & Hlen & Hlive).
    rewrite kill_world_length in Hnew, Hlen, Hlive. split.
    + intros q (p & Hp & Hh). rewrite Forall_forall in Hin.
      pose proof (Hin p Hp q Hh) as Hlt. rewrite Hlive by assumption.
      destruct (child_alive (kill_world l w) q) eqn:Eq; [|reflexivity].
      apply kill_world_alive in Eq. destruct Eq as [_ Eq].
      exfalso. apply Eq. exists p. split; assumption.
    + rewrite Hrows. exact Hnew.
  - intros config before p after Hread -> Hatt Hs.
    unfold ProcessTable.load_config. unfold bind at 1. unfold world.
    cbn [snd]. rewrite Hread.
    unfold bind, ProcessTable.delete_all. unfold bind.
    now rewrite (kill_all_stops_at_first_stopped before p after w Hatt Hs).
Qed.

(** ** Reading a queue *)

Lemma readlines_attached args h w c :
  children w !! h = Some c ->
  exists w' c',
    SafetyProcessCall.readlines (attached args h, w)
    = (Ok (head (qstdout c)), (attached args h, w'))
    /\ children w' !! h = Some c'
    /\ qstdout c' = tail (qstdout c)
    /\ qstderr c' = qstderr c
    /\ alive c' = alive c
    /\ length (children w') = length (children w)
    /\ (forall q, q <> h -> children w' !! q = children w !! q).
Proof.
  intros Hc. unfold SafetyProcessCall.readlines. run. rewrite Hc. run.
  destruct (qstdout c) as [|x q] eqn:Eq; run.
  - exists w, c. rewrite Eq. splits; auto.
  - exists (update_child h SafetyProcessCall.pop_stdout w),
      (SafetyProcessCall.pop_stdout c).
    split; [reflexivity|].
    rewrite lookup_update_child_eq, Hc. run. rewrite Eq. splits; auto.
    + apply length_update_child.
    + intros q' Hq'. now apply lookup_update_child_ne.
Qed.

(** X8.  With a process associated, [readlines] hands out the chunks of
    the stdout queue in the order they were put, one per call and each
    once, and answers [None] from then on; it never raises, and it leaves
    the stderr queue and the liveness of the process alone. *)
Theorem X8_readlines_in_order args h n : forall w c,
  children w !! h = Some c ->
  exists w' c',
    read_all n (attached args h, w)
    = (map (fun chunk => Ok (Some chunk)) (take n (qstdout c))
         ++ replicate (n - length (qstdout c)) (Ok None),
       (attached args h, w'))
    /\ children w' !! h = Some c'
    /\ qstdout c' = drop n (qstdout c)
    /\ qstderr c' = qstderr c
    /\ alive c' = alive c.
Proof.
  induction n as [|n IH]; intros w c Hc.
  - exists w, c. cbn. splits; auto.
  - cbn [read_all].
    destruct (readlines_attached args h w c Hc)
      as (w1 & c1 & Hr & Hc1 & Ho & He & Ha & _).
    rewrite Hr.
    destruct (IH w1 c1 Hc1) as (w' & c' & Hall & Hc' & Ho' & He' & Ha').
    rewrite Hall. exists w', c'. splits.
    + rewrite Ho. destruct (qstdout c) as [|x q]; cbn.
      * rewrite take_nil. cbn. now rewrite Nat.sub_0_r.
      * reflexivity.
    + assumption.
    + rewrite Ho', Ho. destruct (qstdout c); [|reflexivity].
      cbn. now rewrite drop_nil.
    + congruence.
    + congruence.
Qed.

(** ** Liveness as a row reports it *)

Lemma lookup_monitor_exit h w c :
  children w !! h = Some c ->
  children (monitor_exit h w) !! h = Some (set_exited c).
Proof.
  intros Hc. unfold monitor_exit. now rewrite lookup_update_child_eq, Hc.
Qed.

(** X9.  [refresh_status] on a row that holds a process returns normally
    and keeps what was in [result]; the status is ["Run"] exactly when the
    monitor is alive.  Once the monitor has exited the status is ["Stop"],
    the row still holds the process, and the chunks put before the exit are
    still collected: the refresh appends the lines of the oldest chunk of
    each queue. *)
Theorem X9_refresh_reports_liveness p w args h c :
  Process.proc p = Some (attached args h) ->
  children w !! h = Some c ->
  (exists p' w',
     Process.refresh_status (p, w) = (Ok tt, (p', w'))
     /\ (Process.status p' = "Run" <-> alive c = true)
     /\ (Process.status p' = "Stop" <-> alive c = false)
     /\ (exists new, Process.result p' = Process.result p ++ new)
     /\ Process.handle p' = Some h
     /\ child_alive w' h = child_alive w h)
  /\ (exists p' w',
        Process.refresh_status (p, monitor_exit h w) = (Ok tt, (p', w'))
        /\ Process.status p' = "Stop"
        /\ Process.handle p' = Some h
        /\ Process.result p'
           = Process.result p ++ head_lines (qstdout c)
               ++ head_lines (qstderr c)).
Proof.
  intros Hp Hc. split.
  - destruct (refresh_attached p w args h c Hp Hc)
      as (p' & w' & c' & Hr & Hp' & _ & _ & _ & Hst & Hres & Hc' & _ & _ & Ha & _).
    exists p', w'. split; [exact Hr|]. splits.
    + rewrite Hst. destruct (alive c); split; congruence.
    + rewrite Hst. destruct (alive c); split; congruence.
    + eexists. exact Hres.
    + now apply handle_attached with args.
    + unfold child_alive. now rewrite Hc', Hc.
  - pose proof (lookup_monitor_exit h w c Hc) as Hc1.
    destruct (refresh_attached p (monitor_exit h w) args h _ Hp Hc1)
      as (p' & w' & c' & Hr & Hp' & _ & _ & _ & Hst & Hres & _).
    exists p', w'. split; [exact Hr|]. splits.
    + exact Hst.
    + now apply handle_attached with args.
    + exact Hres.
Qed.

(** ** When and with what the polling loop leaves *)

Lemma poll_loop_stops obs n : forall i st acts j,
  ProcessListener.process st = true ->
  i <= j < i + n ->
  (forall t, i <= t < j -> ~ leaves_at obs t) ->
  leaves_at obs j ->
  exists st' more,
    ProcessListener.poll_loop n i obs st acts = (S j, st', acts ++ more)
    /\ sleeps more = j - i.
Proof.
  induction n as [|n IH]; intros i st acts j Hproc Hj Hbefore Hat; [lia|].
  cbn [ProcessListener.poll_loop].
  pose proof (flush_facts (obs i) st) as Hf.
  destruct (ProcessListener.flush (obs i) st) as [st1 put].
  destruct Hf as (Hp1 & _ & Hs & _). rewrite Hproc in Hp1.
  destruct (Nat.eq_dec i j) as [->|Hne].
  - exists st1, put. rewrite Hs, Nat.sub_diag. split; [|reflexivity].
    destruct (ProcessListener.kill_requested (obs j)) eqn:Ek; [reflexivity|].
    unfold ProcessListener.is_alive. rewrite Hp1.
    destruct Hat as [Hat|Hat]; [congruence|]. now rewrite Hat.
  - assert (Hnot : ~ leaves_at obs i) by (apply Hbefore; lia).
    unfold leaves_at in Hnot.
    destruct (ProcessListener.kill_requested (obs i)) eqn:Ek;
      [exfalso; apply Hnot; now left|].
    unfold ProcessListener.is_alive. rewrite Hp1.
    destruct (ProcessListener.running (obs i)) eqn:Er;
      [|exfalso; apply Hnot; now right].
    cbn [negb].
    destruct (IH (S i) st1 (acts ++ put ++ [ProcessListener.Sleep]) j Hp1)
      as (st' & more & Hloop & Hsl); [lia| |assumption|].
    { intros t Ht. apply Hbefore. lia. }
    exists st', (put ++ [ProcessListener.Sleep] ++ more).
    rewrite Hloop. split; [now rewrite <- !app_assoc|].
    rewrite !sleeps_app, Hs, Hsl. unfold sleeps at 1. simpl. lia.
Qed.

(** X10.  A run of [process_entry] leaves the polling loop at the first
    pass, among the first 1000, at which a kill message is waiting or the
    child is seen exited: it has then made that many passes plus one, slept
    once after each pass but the last, and put on the stdout queue all the
    text buffered up to and including that last pass, which is flushed
    before the two tests are made. *)
Theorem X10_process_entry_leaves_at_first_exit rt args obs j :
  popen rt args = None ->
  j < 1000 ->
  (forall t, t < j -> ~ leaves_at obs t) ->
  leaves_at obs j ->
  ProcessListener.polls (snd (ProcessListener.process_entry rt args obs)) = S j
  /\ sleeps (ProcessListener.actions
               (snd (ProcessListener.process_entry rt args obs))) = j
  /\ concat_text
       (ProcessListener.stdout_chunks
          (ProcessListener.actions
             (snd (ProcessListener.process_entry rt args obs))))
     = observed_stdout obs 0 (S j).
Proof.
  intros Hpopen Hj Hbefore Hat.
  assert (Hpolls :
    ProcessListener.polls (snd (ProcessListener.process_entry rt args obs)) = S j
    /\ sleeps (ProcessListener.actions
                 (snd (ProcessListener.process_entry rt args obs))) = j).
  { unfold ProcessListener.process_entry, ProcessListener.start.
    cbn [ProcessListener.init ProcessListener.process_args
         ProcessListener.stdoutString ProcessListener.stderrString].
    rewrite Hpopen.
    destruct (poll_loop_stops obs 1000 0
                {| ProcessListener.process_args := args;
                   ProcessListener.stdoutString := "";
                   ProcessListener.stderrString := "";
                   ProcessListener.process := true |}
                [ProcessListener.Popen args] j eq_refl)
      as (st' & more & Hloop & Hsl); [lia| |assumption|].
    { intros t Ht. apply Hbefore. lia. }
    destruct (poll_loop_facts obs 1000 0
                {| ProcessListener.process_args := args;
                   ProcessListener.stdoutString := "";
                   ProcessListener.stderrString := "";
                   ProcessListener.process := true |}
                [ProcessListener.Popen args] eq_refl eq_refl)
      as (i2 & st2 & more2 & Hloop2 & _ & _ & _ & Hp2 & _).
    rewrite Hloop in Hloop2. inversion Hloop2; subst.
    rewrite Hloop. unfold ProcessListener.kill. rewrite Hp2.
    cbn [snd ProcessListener.polls ProcessListener.actions].
    split; [reflexivity|].
    rewrite !sleeps_app, Hsl. unfold sleeps. simpl. lia. }
  destruct Hpolls as [Hpolls Hsl]. splits; try assumption.
  rewrite process_entry_stdout by assumption. now rewrite Hpolls.
Qed.

Lemma stderr_chunks_app a b :
  ProcessListener.stderr_chunks (a ++ b)
  = ProcessListener.stderr_chunks a ++ ProcessListener.stderr_chunks b.
Proof. unfold ProcessListener.stderr_chunks. apply omap_app. Qed.

Lemma flush_chunks ob st :
  ProcessListener.stdoutString st = "" ->
  ProcessListener.stderrString st = "" ->
  ProcessListener.stderrString (fst (ProcessListener.flush ob st)) = ""
  /\ Forall (fun chunk => chunk <> "")
       (ProcessListener.stdout_chunks (snd (ProcessListener.flush ob st)))
  /\ Forall (fun chunk => chunk <> "")
       (ProcessListener.stderr_chunks (snd (ProcessListener.flush ob st)))
  /\ concat_text
       (ProcessListener.stderr_chunks (snd (ProcessListener.flush ob st)))
     = ProcessListener.new_stderr ob.
Proof.
  intros Ho He. unfold ProcessListener.flush. rewrite Ho, He, !str_app_nil_l.
  destruct (ProcessListener.new_stdout ob) as [|a s];
    destruct (ProcessListener.new_stderr ob) as [|a' s']; cbn;
    splits; try reflexivity; repeat constructor; try discriminate.
  all: now rewrite str_app_nil_r.
Qed.

Lemma poll_loop_chunks obs n : forall i st acts,
  ProcessListener.stdoutString st = "" ->
  ProcessListener.stderrString st = "" ->
  ProcessListener.process st = true ->
  exists i' st' more,
    ProcessListener.poll_loop n i obs st acts = (i', st', acts ++ more)
    /\ i <= i'
    /\ Forall (fun chunk => chunk <> "") (ProcessListener.stdout_chunks more)
    /\ Forall (fun chunk => chunk <> "") (ProcessListener.stderr_chunks more)
    /\ concat_text (ProcessListener.stderr_chunks more)
       = observed_stderr obs i (i' - i).
Proof.
  induction n as [|n IH]; intros i st acts Ho He Hproc.
  - exists i, st, []. cbn. rewrite app_nil_r, Nat.sub_diag.
    splits; auto; constructor.
  - cbn [ProcessListener.poll_loop].
    pose proof (flush_facts (obs i) st) as Hf.
    pose proof (flush_chunks (obs i) st Ho He) as Hc.
    destruct (ProcessListener.flush (obs i) st) as [st1 put].
    destruct Hf as (Hp1 & Hb1 & _). rewrite Hproc in Hp1.
    cbn [fst snd] in Hc. destruct Hc as (He1 & Hno & Hne & Hce).
    assert (Hone : observed_stderr obs i (S i - i)
                   = ProcessListener.new_stderr (obs i)).
    { replace (S i - i) with 1 by lia. simpl. apply str_app_nil_r. }
    destruct (ProcessListener.kill_requested (obs i)).
    { exists (S i), st1, put. rewrite Hone. splits; auto. }
    unfold ProcessListener.is_alive. rewrite Hp1.
    destruct (ProcessListener.running (obs i)); cbn [negb].
    + destruct (IH (S i) st1 (acts ++ put ++ [ProcessListener.Sleep])
                  Hb1 He1 Hp1)
        as (i' & st' & more & Hloop & Hi & Hno' & Hne' & Hce').
      exists i', st', (put ++ [ProcessListener.Sleep] ++ more).
      rewrite Hloop. splits.
      * now rewrite <- !app_assoc.
      * lia.
      * rewrite !stdout_chunks_app. apply Forall_app. split; [assumption|].
        apply Forall_app. split; [constructor|assumption].
      * rewrite !stderr_chunks_app. apply Forall_app. split; [assumption|].
        apply Forall_app. split; [constructor|assumption].
      * rewrite !stderr_chunks_app, !concat_text_app, Hce, Hce'.
        cbn. replace (i' - i) with (S (i' - S i)) by lia. reflexivity.
    + exists (S i), st1, put. rewrite Hone. splits; auto.
Qed.

(** X11.  A run of [process_entry] never puts an empty chunk on a queue,
    and the chunks it puts on the stderr queue are, in order and once, the
    text that the stderr listener buffered during the passes the run
    made. *)
Theorem X11_process_entry_chunks rt args obs :
  popen rt args = None ->
  Forall (fun chunk => chunk <> "")
    (ProcessListener.stdout_chunks
       (ProcessListener.actions (snd (ProcessListener.process_entry rt args obs))))
  /\ Forall (fun chunk => chunk <> "")
       (ProcessListener.stderr_chunks
          (ProcessListener.actions
             (snd (ProcessListener.process_entry rt args obs))))
  /\ concat_text
       (ProcessListener.stderr_chunks
          (ProcessListener.actions
             (snd (ProcessListener.process_entry rt args obs))))
     = observed_stderr obs 0
         (ProcessListener.polls
            (snd (ProcessListener.process_entry rt args obs))).
Proof.
  intros Hpopen.
  unfold ProcessListener.process_entry, ProcessListener.start.
  cbn [ProcessListener.init ProcessListener.process_args
       ProcessListener.stdoutString ProcessListener.stderrString].
  rewrite Hpopen.
  destruct (poll_loop_chunks obs 1000 0
              {| ProcessListener.process_args := args;
                 ProcessListener.stdoutString := "";
                 ProcessListener.stderrString := "";
                 ProcessListener.process := true |}
              [ProcessListener.Popen args] eq_refl eq_refl eq_refl)
    as (i' & st' & more & Hloop & _ & Hno & Hne & Hce).
  destruct (poll_loop_facts obs 1000 0
              {| ProcessListener.process_args := args;
                 ProcessListener.stdoutString := "";
                 ProcessListener.stderrString := "";
                 ProcessListener.process := true |}
              [ProcessListener.Popen args] eq_refl eq_refl)
    as (i2 & st2 & more2 & Hloop2 & _ & _ & _ & Hp2 & _).
  rewrite Hloop in Hloop2. inversion Hloop2; subst.
  rewrite Hloop. unfold ProcessListener.kill. rewrite Hp2.
  cbn [snd ProcessListener.polls ProcessListener.actions].
  rewrite !stdout_chunks_app, !stderr_chunks_app.
  cbn [ProcessListener.stdout_chunks ProcessListener.stderr_chunks
       omap list_omap app].
  rewrite !app_nil_r. splits; try assumption.
  rewrite Hce. now rewrite Nat.sub_0_r.
Qed.

(** ** The command line *)

Lemma length_str_drop n : forall s,
  String.length (str_drop n s) = String.length s - n.
Proof.
  induction n as [|n IH]; intros [|a s]; simpl; try reflexivity.
  now rewrite IH.
Qed.

Lemma take_drop_string n : forall s, PyStr.take n s +:+ str_drop n s = s.
Proof.
  induction n as [|n IH]; intros [|a s]; simpl; try reflexivity.
  rewrite str_app_cons. now rewrite IH.
Qed.

Lemma take_app_exact s t : PyStr.take (String.length s) (s +:+ t) = s.
Proof.
  induction s as [|a s IH]; [now destruct t|].
  rewrite str_app_cons. simpl. now rewrite IH.
Qed.

Lemma drop_app_exact s t : str_drop (String.length s) (s +:+ t) = t.
Proof.
  induction s as [|a s IH]; [now destruct t|].
  rewrite str_app_cons. simpl. exact IH.
Qed.

Lemma take_take_le n : forall s,
  n <= String.length s -> String.length (PyStr.take n s) = n.
Proof. intros s H. rewrite length_take. lia. Qed.

Lemma apply_edit_in_line e a :
  cursor_in_line a -> cursor_in_line (apply_edit e a).
Proof.
  unfold cursor_in_line. intros H.
  destruct e; cbn [apply_edit].
  - unfold Application.update_command. cbn.
    rewrite !str_length_app, length_take, length_str_drop; simpl; lia.
  - cbn. lia.
  - cbn. lia.
  - unfold Application.command_backspace.
    destruct (Application.position a =? 0)%nat eqn:E; [exact H|].
    apply Nat.eqb_neq in E. cbn.
    rewrite !str_length_app, length_take, length_str_drop; lia.
  - unfold Application.command_delete.
    destruct (Application.position a =? String.length (Application.command a))%nat
      eqn:E; [exact H|].
    apply Nat.eqb_neq in E. cbn.
    rewrite !str_length_app, length_take, length_str_drop; lia.
  - cbn. lia.
  - cbn. lia.
  - cbn. lia.
Qed.

(** X12.  Every key that edits the command line keeps the cursor on the
    command or just behind it, and touches neither the registry nor the
    last command, the last message or the end flag. *)
Theorem X12_edits_keep_cursor_in_line e a :
  cursor_in_line a ->
  cursor_in_line (apply_edit e a)
  /\ Application.process_table (apply_edit e a) = Application.process_table a
  /\ Application.last_command (apply_edit e a) = Application.last_command a
  /\ Application.last_message (apply_edit e a) = Application.last_message a
  /\ Application.finish (apply_edit e a) = Application.finish a.
Proof.
  intros H. split; [now apply apply_edit_in_line|].
  destruct e; cbn [apply_edit]; try (now splits).
  - unfold Application.command_backspace.
    destruct (Application.position a =? 0)%nat; now splits.
  - unfold Application.command_delete.
    destruct (Application.position a =? String.length (Application.command a))%nat;
      now splits.
Qed.

Lemma type_at_end s : forall a,
  Application.position a = String.length (Application.command a) ->
  Application.command
    (fold_left (fun a ch => Application.update_command ch a) s a)
  = Application.command a +:+ string_of_list s
  /\ Application.position
       (fold_left (fun a ch => Application.update_command ch a) s a)
     = String.length (Application.command a) + length s.
Proof.
  induction s as [|ch s IH]; intros a H.
  - cbn. rewrite str_app_nil_r. split; [reflexivity|lia].
  - cbn [fold_left].
    assert (Hc : Application.command (Application.update_command ch a)
                 = Application.command a +:+ String ch "").
    { cbn. rewrite H.
      rewrite (take_all _ _ (Nat.le_refl _)).
      replace (str_drop (String.length (Application.command a))
                 (Application.command a)) with ""; [reflexivity|].
      symmetry. rewrite <- (str_app_nil_r (Application.command a)) at 2.
      apply drop_app_exact. }
    assert (Hp : Application.position (Application.update_command ch a)
                 = String.length
                     (Application.command (Application.update_command ch a))).
    { rewrite Hc, str_length_app. cbn. rewrite H. reflexivity. }
    destruct (IH _ Hp) as [IHc IHp]. rewrite IHc, IHp, Hc. split.
    + now rewrite str_app_assoc.
    + rewrite str_length_app. cbn [string_of_list length String.length]. lia.
Qed.

(** X13.  [update_command] puts the character in front of the cursor and
    moves the cursor behind it; [command_backspace] right after it gives the
    command and the cursor back.  Typing a text at the end of the line
    appends it. *)
Theorem X13_typing_and_backspace ch a :
  cursor_in_line a ->
  Application.command (Application.update_command ch a)
  = PyStr.take (Application.position a) (Application.command a)
    +:+ String ch (str_drop (Application.position a) (Application.command a))
  /\ Application.position (Application.update_command ch a)
     = S (Application.position a)
  /\ Application.command
       (Application.command_backspace (Application.update_command ch a))
     = Application.command a
  /\ Application.position
       (Application.command_backspace (Application.update_command ch a))
     = Application.position a
  /\ (forall s,
        Application.position a = String.length (Application.command a) ->
        Application.command
          (fold_left (fun a ch => Application.update_command ch a) s a)
        = Application.command a +:+ string_of_list s).
Proof.
  unfold cursor_in_line. intros H.
  set (p := Application.position a). set (c := Application.command a).
  assert (Hlen : String.length (PyStr.take p c) = p) by (now apply take_take_le).
  assert (Hcmd : Application.command (Application.update_command ch a)
                 = PyStr.take p c +:+ String ch (str_drop p c)) by reflexivity.
  assert (Hpos : Application.position (Application.update_command ch a) = S p).
  { cbn. fold p. lia. }
  splits.
  - exact Hcmd.
  - exact Hpos.
  - unfold Application.command_backspace. rewrite Hpos. cbn [Nat.eqb].
    cbn [Application.refresh_command_line Application.refresh_command_cursor
         Application.command_cursor_left_move Application.draw
         Application.set_position Application.set_command Application.command].
    rewrite Hcmd. replace (S p - 1) with p by lia.
    rewrite <- Hlen at 1. rewrite take_app_exact.
    replace (S p) with (String.length (PyStr.take p c +:+ String ch "")).
    2:{ rewrite str_length_app, Hlen. simpl. lia. }
    change (String ch (str_drop p c)) with (String ch "" +:+ str_drop p c).
    rewrite <- str_app_assoc, drop_app_exact. apply take_drop_string.
  - unfold Application.command_backspace. rewrite Hpos. cbn [Nat.eqb].
    cbn. fold p. lia.
  - intros s Hend. now apply type_at_end.
Qed.

(** ** The command interpreter *)

Lemma process_command_effect rt bi a w :
  Application.process_command rt bi (a, w)
  = match Application.dispatch rt bi
            (split_words (PyStr.strip (Application.command a)))
            (entered a, w) with
    | (Ok _, (a1, w1)) => (Ok tt, (leave a1, w1))
    | (Raise e, (a1, w1)) =>
        (Ok tt, (leave (Application.set_last_message (str_exn e) a1), w1))
    end.
Proof.
  unfold Application.process_command, Application.update. run.
  fold (entered a).
  destruct (Application.dispatch rt bi
              (split_words (PyStr.strip (Application.command a)))
              (entered a, w)) as [[[]|e] [a1 w1]]; reflexivity.
Qed.

Section Keeps.

Variable R : Application.t -> Application.t -> Prop.
Hypothesis R_refl : forall a, R a a.
Hypothesis R_trans : forall a b c, R a b -> R b c -> R a c.

Lemma keeps_ret {A : Type} (x : A) : keeps R (ret x).
Proof. intros s. apply R_refl. Qed.

Lemma keeps_raise {A : Type} (e : exn) : keeps R (raise (A := A) e).
Proof. intros s. apply R_refl. Qed.

Lemma keeps_lift {A : Type} (r : outcome A) : keeps R (lift r).
Proof. intros s. apply R_refl. Qed.

Lemma keeps_self : keeps R self.
Proof. intros s. apply R_refl. Qed.

Lemma keeps_bind {A B : Type} (m : M (Application.t * World) A)
    (k : A -> M (Application.t * World) B) :
  keeps R m -> (forall x, keeps R (k x)) -> keeps R (bind m k).
Proof.
  intros Hm Hk s. unfold bind. specialize (Hm s).
  destruct (m s) as [[x|e] s1]; [|exact Hm].
  eapply R_trans; [exact Hm|]. apply Hk.
Qed.

Lemma keeps_update (f : Application.t -> Application.t) :
  (forall a, R a (f a)) -> keeps R (Application.update f).
Proof. intros Hf [a w]. apply Hf. Qed.

Lemma keeps_on_table {A : Type} (m : M (ProcessTable.t * World) A) :
  (forall a tbl, R a (Application.set_process_table tbl a)) ->
  keeps R (Application.on_table m).
Proof.
  intros Ht [a w]. unfold Application.on_table.
  destruct (m (Application.process_table a, w)) as [r [tbl w']]. apply Ht.
Qed.

End Keeps.

Lemma same_line_refl a : same_line a a.
Proof. unfold same_line. now splits. Qed.

Lemma same_line_trans a b c : same_line a b -> same_line b c -> same_line a c.
Proof.
  unfold same_line. intros (H1 & H2 & H3) (H4 & H5 & H6).
  splits; congruence.
Qed.

Ltac keeps_step R_refl R_trans :=
  first
    [ match goal with
      | |- keeps _ (Application.update _) => apply keeps_update; intros ?
      | |- keeps _ (Application.on_table _) => apply keeps_on_table; intros ? ?
      end
    | apply (keeps_ret _ R_refl)
    | apply (keeps_raise _ R_refl)
    | apply (keeps_lift _ R_refl)
    | apply (keeps_self _ R_refl)
    | apply (keeps_bind _ R_trans); [|intros ?]
    | match goal with
      | |- keeps _ (if ?b then _ else _) => destruct b
      | |- keeps _ (match ?x with _ => _ end) => destruct x
      end ].

Lemma dispatch_same_line rt bi words :
  keeps same_line (Application.dispatch rt bi words).
Proof.
  unfold Application.dispatch.
  repeat keeps_step same_line_refl same_line_trans;
    try (now splits).
Qed.

Lemma leave_line a :
  Application.command (leave a) = ""
  /\ Application.position (leave a) = 0
  /\ Application.last_command (leave a) = Application.last_command a
  /\ Application.last_message (leave a) = Application.last_message a
  /\ Application.finish (leave a) = Application.finish a
  /\ Application.process_table (leave a) = Application.process_table a.
Proof. now splits. Qed.

(** X14.  [process_command] never raises: whatever the line holds and
    whatever the registry does with it, it returns normally with the command
    line emptied, the cursor at its start and the stripped line stored as
    the last command.  An exception raised by the statements inside [try]
    becomes the last message, which is then the text of the exception, and
    the registry and the world stay as the exception left them. *)
Theorem X14_process_command_reports rt bi a w :
  exists a' w',
    Application.process_command rt bi (a, w) = (Ok tt, (a', w'))
    /\ Application.command a' = ""
    /\ Application.position a' = 0
    /\ Application.last_command a' = PyStr.strip (Application.command a)
    /\ w' = snd (snd (Application.dispatch rt bi
                        (split_words (PyStr.strip (Application.command a)))
                        (entered a, w)))
    /\ Application.process_table a'
       = Application.process_table
           (fst (snd (Application.dispatch rt bi
                        (split_words (PyStr.strip (Application.command a)))
                        (entered a, w))))
    /\ (forall e,
          fst (Application.dispatch rt bi
                 (split_words (PyStr.strip (Application.command a)))
                 (entered a, w)) = Raise e ->
          Application.last_message a' = str_exn e).
Proof.
  rewrite process_command_effect.
  pose proof (dispatch_same_line rt bi
                (split_words (PyStr.strip (Application.command a)))
                (entered a, w)) as (_ & _ & Hlast).
  destruct (Application.dispatch rt bi
              (split_words (PyStr.strip (Application.command a)))
              (entered a, w)) as [[[]|e] [a1 w1]]; cbn [fst snd] in *.
  - exists (leave a1), w1. splits; try reflexivity.
    + cbn. exact Hlast.
    + intros e He. discriminate.
  - exists (leave (Application.set_last_message (str_exn e) a1)), w1.
    splits; try reflexivity.
    + cbn. exact Hlast.
    + intros e' He. now inversion He.
Qed.

Ltac one_of H :=
  unfold member, index_words, file_words in H; simpl in H;
  repeat (apply orb_prop in H as [H|H]);
  try discriminate H;
  apply String.eqb_eq in H; subst.

(** X15.  What [process_command] does with a line that asks for nothing
    it can do.  An empty line changes neither the registry nor the world nor
    the last message.  A command that needs an index or a file name and has
    none reports [list index out of range]; [add] without a name reports its
    format; a first word that is no command reports [No command matched].
    None of them touches the rows of the registry or the world. *)
Theorem X15_incomplete_commands rt bi a w :
  (split_words (PyStr.strip (Application.command a)) = [] ->
   Application.process_command rt bi (a, w) = (Ok tt, (leave (entered a), w)))
  /\ (forall word,
        split_words (PyStr.strip (Application.command a)) = [word] ->
        member word (index_words ++ file_words) = true ->
        exists a',
          Application.process_command rt bi (a, w) = (Ok tt, (a', w))
          /\ Application.last_message a' = "list index out of range"
          /\ Application.process_table a' = Application.process_table a
          /\ Application.finish a' = Application.finish a)
  /\ (forall word,
        split_words (PyStr.strip (Application.command a)) = [word] ->
        member word ["add"; "append"] = true ->
        Application.process_command rt bi (a, w)
        = (Ok tt,
           (leave (Application.set_last_message
                     "The format of add is 'add <name> <args>'" (entered a)),
            w)))
  /\ (forall word rest,
        split_words (PyStr.strip (Application.command a)) = word :: rest ->
        member word known_words = false ->
        Application.process_command rt bi (a, w)
        = (Ok tt,
           (leave (Application.set_last_message "No command matched"
                     (entered a)), w))).
Proof.
  splits.
  - intros Hw. rewrite process_command_effect, Hw. reflexivity.
  - intros word Hw Hin. rewrite process_command_effect, Hw.
    one_of Hin; eexists; (split; [reflexivity|]); now splits.
  - intros word Hw Hin. rewrite process_command_effect, Hw.
    one_of Hin; reflexivity.
  - intros word rest Hw Hin. rewrite process_command_effect, Hw.
    unfold member, known_words, index_words, file_words in Hin. simpl in Hin.
    repeat (apply orb_false_elim in Hin as [? Hin]).
    unfold Application.dispatch, member. simpl.
    repeat match goal with H : String.eqb _ _ = false |- _ => rewrite H; clear H end.
    reflexivity.
Qed.

(** The statements that [process_command] runs for a command with an index,
    once the index has been read. *)
Lemma dispatch_index rt bi word tok rest v s :
  tok <> "all" ->
  int_of bi tok = Ok v ->
  (member word ["restart"; "start"] = true ->
   Application.dispatch rt bi (word :: tok :: rest) s
   = (Application.on_table (ProcessTable.restart rt v) ;;
      Application.update
        (Application.set_last_message
           ("Restart " +:+ PyStr.str_int v +:+ "-th process"))) s)
  /\ (member word ["stop"; "kill"] = true ->
      Application.dispatch rt bi (word :: tok :: rest) s
      = (Application.on_table (ProcessTable.kill v) ;;
         Application.update
           (Application.set_last_message
              ("Kill " +:+ PyStr.str_int v +:+ "-th process"))) s)
  /\ (member word ["delete"; "remove"] = true ->
      Application.dispatch rt bi (word :: tok :: rest) s
      = (Application.update Application.clear_process_list ;;
         Application.on_table (ProcessTable.delete v) ;;
         Application.update
           (Application.set_last_message
              ("Delete " +:+ PyStr.str_int v +:+ "-th process"))) s).
Proof.
  intros Htok Hint. apply String.eqb_neq in Htok.
  splits; intros Hin; one_of Hin;
    unfold Application.dispatch, member, Application.second;
    cbn [existsb String.eqb Ascii.eqb Bool.eqb orb lookup list_lookup];
    unfold bind, lift; destruct s as [a w]; rewrite ?Htok, ?Hint;
    try reflexivity.
Qed.


(** X16.  The commands with an index.  With a second word that is not
    [all] and that [int] reads as [v], [restart]/[start], [stop]/[kill] and
    [delete]/[remove] call the method of the registry at [v] and nothing
    else; words behind the second are ignored.  The registry and the world
    are what the call left, whether it returned or raised, and the last
    message names the command and [v] when it returned and is the text of
    the exception when it raised.  In particular an index outside
    [-len, len) changes neither the rows nor the world and reports
    [list index out of range], or [cannot fit 'int' into an index-sized
    integer] when the number is outside the range of an index. *)
Theorem X16_index_commands rt bi a w word tok rest v :
  split_words (PyStr.strip (Application.command a)) = word :: tok :: rest ->
  tok <> "all" ->
  int_of bi tok = Ok v ->
  (member word ["restart"; "start"] = true ->
   forall r tbl w',
     ProcessTable.restart rt v (Application.process_table a, w)
     = (r, (tbl, w')) ->
     Application.process_command rt bi (a, w)
     = (Ok tt,
        (leave (Application.set_last_message
                  (report ("Restart " +:+ PyStr.str_int v +:+ "-th process") r)
                  (Application.set_process_table tbl (entered a))), w')))
  /\ (member word ["stop"; "kill"] = true ->
      forall r tbl w',
        ProcessTable.kill v (Application.process_table a, w)
        = (r, (tbl, w')) ->
        Application.process_command rt bi (a, w)
        = (Ok tt,
           (leave (Application.set_last_message
                     (report ("Kill " +:+ PyStr.str_int v +:+ "-th process") r)
                     (Application.set_process_table tbl (entered a))), w')))
  /\ (member word ["delete"; "remove"] = true ->
      forall r tbl w',
        ProcessTable.delete v (Application.process_table a, w)
        = (r, (tbl, w')) ->
        Application.process_command rt bi (a, w)
        = (Ok tt,
           (leave (Application.set_last_message
                     (report ("Delete " +:+ PyStr.str_int v +:+ "-th process") r)
                     (Application.set_process_table tbl
                        (Application.clear_process_list (entered a)))), w')))
  /\ (member word index_words = true ->
      ProcessTable.py_index
        (ProcessTable.process_list (Application.process_table a)) v = None ->
      exists a',
        Application.process_command rt bi (a, w) = (Ok tt, (a', w))
        /\ Application.last_message a'
           = (if ProcessTable.fits_index v then "list index out of range"
              else "cannot fit 'int' into an index-sized integer")
        /\ Application.process_table a' = Application.process_table a).
Proof.
  intros Hw Htok Hint. rewrite process_command_effect, Hw.
  destruct (dispatch_index rt bi word tok rest v (entered a, w) Htok Hint)
    as (Hre & Hki & Hde).
  assert (Hre' : member word ["restart"; "start"] = true ->
     forall r tbl w',
     ProcessTable.restart rt v (Application.process_table a, w)
     = (r, (tbl, w')) ->
     match Application.dispatch rt bi (word :: tok :: rest) (entered a, w) with
     | (Ok _, (a1, w1)) => (Ok tt, (leave a1, w1))
     | (Raise e, (a1, w1)) =>
        (Ok tt, (leave (Application.set_last_message (str_exn e) a1), w1))
     end
     = (Ok tt,
        (leave (Application.set_last_message
                  (report ("Restart " +:+ PyStr.str_int v +:+ "-th process") r)
                  (Application.set_process_table tbl (entered a))), w'))).
  { intros Hin r tbl w' Hr. rewrite (Hre Hin).
    unfold bind, Application.on_table, Application.update. run.
    rewrite Hr. now destruct r as [[]|e]. }
  assert (Hki' : member word ["stop"; "kill"] = true ->
     forall r tbl w',
     ProcessTable.kill v (Application.process_table a, w)
     = (r, (tbl, w')) ->
     match Application.dispatch rt bi (word :: tok :: rest) (entered a, w) with
     | (Ok _, (a1, w1)) => (Ok tt, (leave a1, w1))
     | (Raise e, (a1, w1)) =>
        (Ok tt, (leave (Application.set_last_message (str_exn e) a1), w1))
     end
     = (Ok tt,
        (leave (Application.set_last_message
                  (report ("Kill " +:+ PyStr.str_int v +:+ "-th process") r)
                  (Application.set_process_table tbl (entered a))), w'))).
  { intros Hin r tbl w' Hr. rewrite (Hki Hin).
    unfold bind, Application.on_table, Application.update. run.
    rewrite Hr. now destruct r as [[]|e]. }
  assert (Hde' : member word ["delete"; "remove"] = true ->
     forall r tbl w',
     ProcessTable.delete v (Application.process_table a, w)
     = (r, (tbl, w')) ->
     match Application.dispatch rt bi (word :: tok :: rest) (entered a, w) with
     | (Ok _, (a1, w1)) => (Ok tt, (leave a1, w1))
     | (Raise e, (a1, w1)) =>
        (Ok tt, (leave (Application.set_last_message (str_exn e) a1), w1))
     end
     = (Ok tt,
        (leave (Application.set_last_message
                  (report ("Delete " +:+ PyStr.str_int v +:+ "-th process") r)
                  (Application.set_process_table tbl
                     (Application.clear_process_list (entered a)))), w'))).
  { intros Hin r tbl w' Hr. rewrite (Hde Hin).
    unfold bind, Application.on_table, Application.update. run.
    rewrite Hr. now destruct r as [[]|e]. }
  splits; try assumption.
  intros Hin Hout.
  assert (Hcases : member word ["restart"; "start"] = true
                   \/ member word ["stop"; "kill"] = true
                   \/ member word ["delete"; "remove"] = true).
  { one_of Hin; auto. }
  destruct (Application.process_table a) as [rows] eqn:Etbl.
  cbn [ProcessTable.process_list] in Hout.
  destruct Hcases as [Hin'|[Hin'|Hin']].
  - erewrite Hre'; [|exact Hin'|].
    2:{ unfold ProcessTable.restart, ProcessTable.at_index.
        cbn [ProcessTable.process_list]. rewrite Hout. reflexivity. }
    eexists. split; [reflexivity|]. split; [|cbn; reflexivity].
    unfold ProcessTable.index_error.
    destruct (ProcessTable.fits_index v); reflexivity.
  - erewrite Hki'; [|exact Hin'|].
    2:{ unfold ProcessTable.kill, ProcessTable.at_index.
        cbn [ProcessTable.process_list]. rewrite Hout. reflexivity. }
    eexists. split; [reflexivity|]. split; [|cbn; reflexivity].
    unfold ProcessTable.index_error.
    destruct (ProcessTable.fits_index v); reflexivity.
  - erewrite Hde'; [|exact Hin'|].
    2:{ unfold ProcessTable.delete, bind, ProcessTable.at_index.
        cbn [ProcessTable.process_list]. rewrite Hout. reflexivity. }
    eexists. split; [reflexivity|]. split; [|cbn; reflexivity].
    unfold ProcessTable.index_error.
    destruct (ProcessTable.fits_index v); reflexivity.
Qed.

(** X17.  The command [add].  With a name behind it, [add]/[append] starts
    a process on the words behind the name, taken as they are: the line is
    cut at white space only and [shlex] is not asked, so the result is the
    same whatever [shlex] would do with them.  A row with that name and
    these words is appended in state ["Run"], the monitor of the new process
    has exactly these words as the command of its child, and the last
    message shows the words and the name.  The rows that were there are
    untouched. *)
Theorem X17_add_command rt bi a w word name args :
  split_words (PyStr.strip (Application.command a)) = word :: name :: args ->
  member word ["add"; "append"] = true ->
  sleep_float rt ProcessTable.default_delay = None ->
  exists q a' w',
    Application.process_command rt bi (a, w) = (Ok tt, (a', w'))
    /\ ProcessTable.process_list (Application.process_table a')
       = ProcessTable.process_list (Application.process_table a) ++ [q]
    /\ Process.name q = name
    /\ Process.commands q = CmdList args
    /\ Process.status q = "Run"
    /\ Process.proc q = Some (attached args (length (children w)))
    /\ children w' = children w ++ [new_child args]
    /\ Application.last_message a'
       = "add " +:+ PyStr.repr_list args +:+ " as name '" +:+ name +:+ "'".
Proof.
  intros Hw Hin Hsleep. rewrite process_command_effect, Hw.
  assert (Hd : Application.dispatch rt bi (word :: name :: args) (entered a, w)
               = (Application.on_table
                    (ProcessTable.add rt name (CmdList args)
                       ProcessTable.default_delay) ;;
                  Application.update
                    (Application.set_last_message
                       ("add " +:+ PyStr.repr_list args +:+ " as name '"
                        +:+ name +:+ "'"))) (entered a, w)).
  { one_of Hin; reflexivity. }
  rewrite Hd. unfold bind, Application.on_table, Application.update.
  cbn [entered Application.process_table Application.set_last_command].
  rewrite add_cases. cbn [SafetyProcessCall.init]. cbv zeta.
  cbn [SafetyProcessCall.process_args]. rewrite Hsleep. run.
  eexists _, _, _. split; [reflexivity|]. cbn. now splits.
Qed.

(** ** Keys *)

Lemma process_command_returns rt bi s :
  exists s', Application.process_command rt bi s = (Ok tt, s').
Proof.
  destruct s as [a w]. rewrite process_command_effect.
  destruct (Application.dispatch rt bi
              (split_words (PyStr.strip (Application.command a)))
              (entered a, w)) as [[[]|e] [a1 w1]]; eauto.
Qed.

Lemma update_returns f s :
  Application.update f s = (Ok tt, (f (fst s), snd s)).
Proof. now destruct s. Qed.

(** X18.  What [getch] hands to [mainloop].  At the end of the timeout it
    returns [-1] and has changed nothing.  For a key it never returns [-1]:
    it returns the code of the key when the key is one printable ASCII
    character (32 to 126), having changed only the debug line, and [0] for
    every other key.  Ctrl+C raises [KeyboardInterrupt] and Ctrl+Z
    [EOFError], with the registry and the world as they were.  The only key
    on which another exception can leave [getch] is [KEY_RESIZE]. *)
Theorem X18_getch_classifies rt bi a w :
  Application.getch rt bi None (a, w) = (Returns (-1)%Z, (a, w))
  /\ (forall c,
        32 <= nat_of_ascii c < 127 ->
        Application.getch rt bi (Some (String c "")) (a, w)
        = (Returns (Z.of_nat (nat_of_ascii c)),
           (Application.refresh_debug_line
              (Application.set_debug_str
                 (Application.debug_text (String c "")) a), w)))
  /\ (forall ch r s',
        Application.getch rt bi (Some ch) (a, w) = (Returns r, s') ->
        r = 0%Z
        \/ exists c, ch = String c "" /\ r = Z.of_nat (nat_of_ascii c)
                     /\ 32 <= nat_of_ascii c < 127)
  /\ (exists a',
        Application.getch rt bi (Some (String (ascii_of_nat 3) "")) (a, w)
        = (Throws KeyboardInterrupt, (a', w))
        /\ Application.process_table a' = Application.process_table a)
  /\ (exists a',
        Application.getch rt bi (Some (String (ascii_of_nat 26) "")) (a, w)
        = (Throws EOFError, (a', w))
        /\ Application.process_table a' = Application.process_table a)
  /\ (forall ch e s',
        Application.getch rt bi (Some ch) (a, w) = (Throws (Error e), s') ->
        ch = "KEY_RESIZE").
Proof.
  splits.
  - reflexivity.
  - intros c [Hlo Hhi]. unfold Application.getch. cbv zeta.
    assert (H3 : (nat_of_ascii c =? 3)%nat = false) by (apply Nat.eqb_neq; lia).
    assert (H26 : (nat_of_ascii c =? 26)%nat = false) by (apply Nat.eqb_neq; lia).
    assert (H27 : (nat_of_ascii c =? 27)%nat = false) by (apply Nat.eqb_neq; lia).
    assert (H10 : (nat_of_ascii c =? 10)%nat = false) by (apply Nat.eqb_neq; lia).
    assert (H8 : (nat_of_ascii c =? 8)%nat = false) by (apply Nat.eqb_neq; lia).
    rewrite H3, H26, H27, H10, H8.
    assert (Hl : (nat_of_ascii c <? 32)%nat = false) by (apply Nat.ltb_ge; lia).
    assert (Hh : (127 <=? nat_of_ascii c)%nat = false)
      by (apply Nat.leb_gt; lia).
    rewrite Hl, Hh. reflexivity.
  - intros ch r s' H. unfold Application.getch in H. cbv zeta in H.
    destruct ch as [|c [|c' t]].
    + destruct (Application.named_key _ _) as [[[]|e] s2];
        inversion H; now left.
    + remember (Application.refresh_debug_line _, (a, w).2) as s1 in H.
      assert (Hafter : forall (x : outcome unit * (Application.t * World)),
                match x with
                | (Ok _, s2) =>
                    (Returns (if ((nat_of_ascii c <? 32)
                                  || (127 <=? nat_of_ascii c))%nat
                              then 0%Z else Z.of_nat (nat_of_ascii c)), s2)
                | (Raise e, s2) => (Throws (Error e), s2)
                end = (Returns r, s') ->
                r = 0%Z
                \/ exists c0, String c "" = String c0 ""
                              /\ r = Z.of_nat (nat_of_ascii c0)
                              /\ 32 <= nat_of_ascii c0 < 127).
      { clear H. intros [[[]|e] s2] Hx; [|discriminate].
        destruct (nat_of_ascii c <? 32)%nat eqn:E1;
          [left; cbn [orb] in Hx; congruence|].
        destruct (127 <=? nat_of_ascii c)%nat eqn:E2;
          [left; cbn [orb] in Hx; congruence|].
        right. exists c. apply Nat.ltb_ge in E1. apply Nat.leb_gt in E2.
        cbn [orb] in Hx. splits; [reflexivity|congruence|lia|lia]. }
      destruct (nat_of_ascii c =? 3)%nat; [discriminate|].
      destruct (nat_of_ascii c =? 26)%nat; [discriminate|].
      destruct (nat_of_ascii c =? 27)%nat.
      { exact (Hafter (Application.update (Application.set_finish true) s1) H). }
      destruct (nat_of_ascii c =? 10)%nat.
      { exact (Hafter (Application.process_command rt bi s1) H). }
      destruct (nat_of_ascii c =? 8)%nat.
      { exact (Hafter (Application.update Application.command_backspace s1) H). }
      exact (Hafter (Ok tt, s1) H).
    + destruct (Application.named_key _ _) as [[[]|e] s2];
        inversion H; now left.
  - eexists. split; reflexivity.
  - eexists. split; reflexivity.
  - intros ch e s' H. unfold Application.getch in H. cbv zeta in H.
    assert (Hnamed : forall ch0 s1 e0 s2,
              Application.named_key ch0 s1 = (Raise e0, s2) ->
              ch0 = "KEY_RESIZE").
    { intros ch0 s1 e0 s2 Hn. unfold Application.named_key in Hn.
      repeat match type of Hn with
             | (if String.eqb ?x ?y then _ else _) _ = _ =>
                 let E := fresh "E" in
                 destruct (String.eqb x y) eqn:E;
                 [first [ now apply String.eqb_eq in E
                        | rewrite update_returns in Hn; discriminate Hn
                        | idtac ]|]
             end; discriminate Hn. }
    destruct ch as [|c [|c' t]].
    + destruct (Application.named_key _ _) as [[[]|e0] s2] eqn:En;
        [discriminate|]. eapply Hnamed; eassumption.
    + exfalso.
      remember (Application.refresh_debug_line _, (a, w).2) as s1 in H.
      destruct (nat_of_ascii c =? 3)%nat; [discriminate|].
      destruct (nat_of_ascii c =? 26)%nat; [discriminate|].
      destruct (nat_of_ascii c =? 27)%nat.
      { rewrite update_returns in H. discriminate. }
      destruct (nat_of_ascii c =? 10)%nat.
      { destruct (process_command_returns rt bi s1) as [s2 Hs2].
        rewrite Hs2 in H. discriminate. }
      destruct (nat_of_ascii c =? 8)%nat.
      { rewrite update_returns in H. discriminate. }
      discriminate.
    + destruct (Application.named_key _ _) as [[[]|e0] s2] eqn:En;
        [discriminate|]. eapply Hnamed; eassumption.
Qed.

(** ** The main loop *)

Lemma kill_world_held l w q :
  held_by l q -> child_alive (kill_world l w) q = false.
Proof.
  intros Hq. destruct (child_alive (kill_world l w) q) eqn:E; [|reflexivity].
  apply kill_world_alive in E. destruct E as [_ E]. contradiction.
Qed.

Lemma loop_finished rt bi keys a w :
  Application.finish a = true ->
  Application.loop rt bi keys (a, w) = (Application.Finished, (a, w)).
Proof. intros H. destruct keys; cbn [Application.loop fst]; now rewrite H. Qed.

Lemma loop_step rt bi key rest a w :
  Application.finish a = false ->
  Application.loop rt bi (key :: rest) (a, w)
  = match Application.getch rt bi key (a, w) with
    | (Throws e, s1) => (Application.Raised e, s1)
    | (Returns ch, s1) =>
        if (ch =? 0)%Z then Application.loop rt bi rest s1
        else if (ch =? -1)%Z then
          match Application.refresh_process_list s1 with
          | (Ok _, s2) => Application.loop rt bi rest s2
          | (Raise e, s2) => (Application.Raised (Error e), s2)
          end
        else
          Application.loop rt bi rest
            (Application.update_command (ascii_of_nat (Z.to_nat ch)) (fst s1),
             snd s1)
    end.
Proof. intros H. cbn [Application.loop fst]. now rewrite H. Qed.

(** The dashboard after [getch] has shown the key. *)
Lemma getch_escape rt bi a w :
  Application.getch rt bi key_escape (a, w)
  = (Returns 0%Z,
     (Application.set_finish true
        (Application.refresh_debug_line
           (Application.set_debug_str
              (Application.debug_text (String (ascii_of_nat 27) "")) a)), w)).
Proof. reflexivity. Qed.

Lemma getch_eof rt bi a w :
  Application.getch rt bi key_eof (a, w)
  = (Throws EOFError,
     (Application.refresh_debug_line
        (Application.set_debug_str
           (Application.debug_text (String (ascii_of_nat 26) "")) a), w)).
Proof. reflexivity. Qed.

Lemma getch_ctrl_c rt bi a w :
  Application.getch rt bi key_ctrl_c (a, w)
  = (Throws KeyboardInterrupt,
     (Application.refresh_debug_line
        (Application.set_debug_str
           (Application.debug_text (String (ascii_of_nat 3) "")) a), w)).
Proof. reflexivity. Qed.

Lemma on_table_kill_all_attached a w :
  Forall is_attached (rows_of a) ->
  Application.on_table ProcessTable.kill_all (a, w)
  = (Ok tt,
     (Application.set_process_table
        {| ProcessTable.process_list := map halted (rows_of a) |} a,
      kill_world (rows_of a) w)).
Proof.
  intros H. unfold Application.on_table, rows_of in *.
  destruct (Application.process_table a) as [l].
  cbn [ProcessTable.process_list] in *.
  now rewrite (kill_all_attached l w H).
Qed.

(** X19.  How [mainloop] ends on a key.  After Escape no further key is
    read: [kill_all] runs, and on a registry whose rows all hold a process
    [mainloop] returns with every row stopped and every process that a row
    held dead.  Ctrl+Z ends it the same way, except that [EOFError] leaves
    [mainloop].  Ctrl+C is different: [KeyboardInterrupt] is no [Exception],
    so the handler does not run, [kill_all] is not called, and the registry
    and the world are as they were: the processes keep running. *)
Theorem X19_mainloop_shutdown rt bi a w rest :
  Application.finish a = false ->
  (Forall is_attached (rows_of a) ->
   (exists a',
      Application.mainloop rt bi (key_escape :: rest) (a, w)
      = (Some (Returns tt), (a', kill_world (rows_of a) w))
      /\ rows_of a' = map halted (rows_of a)
      /\ Application.finish a' = true)
   /\ (exists a',
         Application.mainloop rt bi (key_eof :: rest) (a, w)
         = (Some (Throws EOFError), (a', kill_world (rows_of a) w))
         /\ rows_of a' = map halted (rows_of a))
   /\ (forall q, held_by (rows_of a) q ->
         child_alive (kill_world (rows_of a) w) q = false))
  /\ (exists a',
        Application.mainloop rt bi (key_ctrl_c :: rest) (a, w)
        = (Some (Throws KeyboardInterrupt), (a', w))
        /\ Application.process_table a' = Application.process_table a).
Proof.
  intros Hfin. split.
  - intros Hatt. splits.
    + unfold Application.mainloop.
      rewrite (loop_step rt bi key_escape rest a w Hfin), getch_escape.
      cbn [Z.eqb]. rewrite loop_finished by reflexivity.
      rewrite on_table_kill_all_attached by exact Hatt.
      eexists. split; [reflexivity|]. now split.
    + unfold Application.mainloop.
      rewrite (loop_step rt bi key_eof rest a w Hfin), getch_eof.
      cbn [is_exception].
      rewrite on_table_kill_all_attached by exact Hatt.
      eexists. split; [reflexivity|]. reflexivity.
    + intros q. apply kill_world_held.
  - unfold Application.mainloop.
    rewrite (loop_step rt bi key_ctrl_c rest a w Hfin), getch_ctrl_c.
    cbn [is_exception]. eexists. split; reflexivity.
Qed.

(** ** The timeout tick *)

Lemma py_index_nat {A : Type} (l : list A) k :
  k < length l -> ProcessTable.py_index l (Z.of_nat k) = Some k.
Proof.
  intros H. unfold ProcessTable.py_index.
  assert (E0 : (0 <=? Z.of_nat k)%Z = true) by (apply Z.leb_le; lia).
  assert (E1 : (Z.of_nat k <? Z.of_nat (length l))%Z = true)
    by (apply Z.ltb_lt; lia).
  cbv zeta. rewrite E0, E1. cbn [andb]. now rewrite Nat2Z.id.
Qed.

(** One turn of the loop of [refresh_process_list] on a row that holds a
    process. *)
Lemma refresh_rows_step n a w idx p args h c :
  rows_of a !! idx = Some p ->
  Process.proc p = Some (attached args h) ->
  children w !! h = Some c ->
  exists a1 w1 p',
    Application.refresh_rows (S n) idx (a, w)
    = Application.refresh_rows n (S idx) (a1, w1)
    /\ rows_of a1 = <[idx := p']> (rows_of a)
    /\ Process.proc p' = Process.proc p
    /\ Process.name p' = Process.name p
    /\ Process.commands p' = Process.commands p
    /\ Process.status p' = (if alive c then "Run" else "Stop")
    /\ (forall q, child_alive w1 q = child_alive w q)
    /\ length (children w1) = length (children w)
    /\ Application.finish a1 = Application.finish a.
Proof.
  intros Hp Hproc Hc.
  destruct (refresh_attached p w args h c Hproc Hc)
    as (p' & w1 & c' & Hr & Hproc' & Hname & Hcmd & _ & Hst & _ & Hc' & _ & _
        & Hal & Hoth & Hlen & _).
  pose proof (lookup_lt_Some _ _ _ Hp) as Hlt.
  unfold rows_of in *.
  destruct a as [sc cmd lc lm pos fin off dbg [l]].
  cbn [Application.process_table ProcessTable.process_list] in *.
  eexists _, w1, p'. splits.
  - cbn [Application.refresh_rows]. unfold bind at 1.
    unfold Application.on_table at 1.
    cbn [Application.process_table]. unfold ProcessTable.refresh.
    unfold ProcessTable.at_index at 1. cbn [ProcessTable.process_list].
    rewrite (py_index_nat l idx Hlt), Hp, Hr.
    unfold bind at 1. unfold Application.on_table at 1.
    cbn [Application.process_table Application.set_process_table].
    unfold ProcessTable.get_status. unfold ProcessTable.at_index at 1.
    cbn [ProcessTable.process_list].
    rewrite py_index_nat by (now rewrite length_insert).
    rewrite list_lookup_insert_eq by assumption.
    unfold bind, self, ret. cbv beta iota delta [fst snd].
    rewrite list_insert_insert_eq, update_returns.
    cbv beta iota delta [fst snd]. reflexivity.
  - reflexivity.
  - now rewrite Hproc', Hproc.
  - exact Hname.
  - exact Hcmd.
  - exact Hst.
  - intros q. unfold child_alive. destruct (decide (q = h)) as [->|Hne].
    + now rewrite Hc', Hc, Hal.
    + now rewrite Hoth.
  - exact Hlen.
  - reflexivity.
Qed.

(** One turn of the loop on a row that holds no process. *)
Lemma refresh_rows_stopped n a w idx p :
  rows_of a !! idx = Some p ->
  stopped p ->
  Application.refresh_rows (S n) idx (a, w)
  = (Raise (no_attribute "readlines"),
     (Application.set_process_table
        {| ProcessTable.process_list :=
             <[idx := Process.set_status "Stop" p]> (rows_of a) |} a, w)).
Proof.
  intros Hp Hs. pose proof (lookup_lt_Some _ _ _ Hp) as Hlt.
  unfold rows_of in *.
  destruct a as [sc cmd lc lm pos fin off dbg [l]].
  cbn [Application.process_table ProcessTable.process_list] in *.
  cbn [Application.refresh_rows]. unfold bind at 1.
  unfold Application.on_table at 1.
  cbn [Application.process_table]. unfold ProcessTable.refresh.
  unfold ProcessTable.at_index at 1. cbn [ProcessTable.process_list].
  rewrite (py_index_nat l idx Hlt), Hp, (refresh_stopped p w Hs).
  reflexivity.
Qed.

Lemma refreshed_alive w w1 p p' :
  (forall q, child_alive w1 q = child_alive w q) ->
  refreshed w1 p p' -> refreshed w p p'.
Proof.
  intros Hw (H1 & H2 & H3 & H4). unfold refreshed. splits; auto.
  intros h Hh. rewrite <- Hw. now apply H4.
Qed.

Lemma refreshed_held w l l' q :
  Forall2 (refreshed w) l l' -> held_by l q <-> held_by l' q.
Proof.
  induction 1 as [|p p' l l' Hp _ IH].
  - reflexivity.
  - rewrite !held_by_cons, IH. destruct Hp as (Hproc & _).
    unfold Process.handle. now rewrite Hproc.
Qed.

Lemma refreshed_attached w l l' :
  Forall2 (refreshed w) l l' -> Forall is_attached l -> Forall is_attached l'.
Proof.
  induction 1 as [|p p' l l' Hp _ IH]; intros Hall; [constructor|].
  inversion Hall as [|? ? (args & h & Hh) Hrest]; subst. constructor.
  - destruct Hp as (Hproc & _). exists args, h. now rewrite Hproc.
  - now apply IH.
Qed.

(** The loop of [refresh_process_list] over rows that hold a process. *)
Lemma refresh_rows_prefix before : forall done rest n a w,
  rows_of a = done ++ before ++ rest ->
  Forall is_attached before ->
  Forall (handle_in w) before ->
  exists a1 w1 before',
    Application.refresh_rows (length before + n) (length done) (a, w)
    = Application.refresh_rows n (length done + length before) (a1, w1)
    /\ rows_of a1 = done ++ before' ++ rest
    /\ Forall2 (refreshed w) before before'
    /\ (forall q, child_alive w1 q = child_alive w q)
    /\ length (children w1) = length (children w)
    /\ Application.finish a1 = Application.finish a.
Proof.
  induction before as [|p0 before IH]; intros done rest n a w Hrows Hatt Hin.
  - exists a, w, []. cbn [length]. rewrite Nat.add_0_r. splits; auto.
  - inversion Hatt as [|? ? (args & h & Hproc) Hatt']; subst.
    inversion Hin as [|? ? Hh Hin']; subst.
    pose proof (Hh h (handle_attached p0 args h Hproc)) as Hlt.
    destruct (lookup_lt_is_Some_2 _ _ Hlt) as [c Hc].
    assert (Hp0 : rows_of a !! length done = Some p0).
    { rewrite Hrows. now apply list_lookup_middle. }
    destruct (refresh_rows_step (length before + n) a w (length done) p0
                args h c Hp0 Hproc Hc)
      as (a1 & w1 & p0' & Hstep & Hrows1 & Hproc1 & Hname1 & Hcmd1 & Hst1
          & Hal1 & Hlen1 & Hfin1).
    assert (Hrows1' : rows_of a1 = (done ++ [p0']) ++ before ++ rest).
    { rewrite Hrows1, Hrows. rewrite insert_app_r_alt by lia.
      rewrite Nat.sub_diag. cbn. now rewrite <- app_assoc. }
    assert (Hin1 : Forall (handle_in w1) before).
    { eapply Forall_impl; [exact Hin'|]. intros p Hp q Hq.
      rewrite Hlen1. now apply Hp. }
    destruct (IH (done ++ [p0']) rest n a1 w1 Hrows1' Hatt' Hin1)
      as (a2 & w2 & before' & Hloop & Hrows2 & Hall2 & Hal2 & Hlen2 & Hfin2).
    exists a2, w2, (p0' :: before'). splits.
    + cbn [length Nat.add]. rewrite Hstep.
      replace (S (length done)) with (length (done ++ [p0']))
        by (rewrite length_app; cbn; lia).
      rewrite Hloop. f_equal. rewrite length_app. cbn. lia.
    + rewrite Hrows2. now rewrite <- app_assoc.
    + constructor.
      * unfold refreshed. splits; auto. intros h' Hh'.
        rewrite (handle_attached p0 args h Hproc) in Hh'.
        injection Hh' as <-. rewrite Hst1. unfold child_alive.
        change (@lookup pid Child (list Child) _ h (children w) = Some c) in Hc.
        now rewrite Hc.
      * eapply Forall2_impl; [exact Hall2|]. intros p p'.
        now apply refreshed_alive.
    + intros q. now rewrite Hal2.
    + lia.
    + congruence.
Qed.

Lemma refresh_process_list_rows a w :
  Application.refresh_process_list (a, w)
  = match Application.refresh_rows (length (rows_of a)) 0
            (Application.draw [GetYX; AddStr 5 0 Application.rule] a, w) with
    | (Ok _, (a1, w1)) => (Ok tt, (Application.draw [MoveBack] a1, w1))
    | (Raise e, s) => (Raise e, s)
    end.
Proof.
  destruct a as [sc cmd lc lm pos fin off dbg [l]].
  unfold Application.refresh_process_list, rows_of.
  unfold bind at 1. rewrite update_returns.
  unfold bind at 1. unfold Application.on_table, ProcessTable.get_count.
  run. unfold bind.
  destruct (Application.refresh_rows (length l) 0 _) as [[[]|e] [a1 w1]];
    reflexivity.
Qed.


Lemma mainloop_tick rt bi rest a w :
  Application.finish a = false ->
  Application.mainloop rt bi (key_timeout :: rest) (a, w)
  = match Application.refresh_process_list (a, w) with
    | (Ok _, s2) => Application.mainloop rt bi rest s2
    | (Raise e, s2) =>
        match Application.on_table ProcessTable.kill_all s2 with
        | (Ok _, s3) => (Some (Throws (Error e)), s3)
        | (Raise e', s3) => (Some (Throws (Error e')), s3)
        end
    end.
Proof.
  intros Hfin. unfold Application.mainloop.
  rewrite (loop_step rt bi key_timeout rest a w Hfin).
  change (Application.getch rt bi key_timeout (a, w))
    with (Returns (-1)%Z : app_outcome Z, (a, w)).
  cbv iota beta.
  change ((-1 =? 0)%Z) with false. change ((-1 =? -1)%Z) with true.
  cbv iota.
  destruct (Application.refresh_process_list (a, w)) as [[[]|e] s2];
    reflexivity.
Qed.

(** X21.  A timeout tick on a registry with a stopped row ends
    [mainloop].  [refresh_status] raises on the first row that holds no
    process; the handler of [mainloop] calls [kill_all], which raises on the
    same row, and that [AttributeError] is what leaves [mainloop].  The rows
    before the stopped row have been stopped and their processes are dead;
    the rows behind it have not been visited: the processes that only they
    hold are alive as before, although the dashboard has ended. *)
Theorem X21_tick_on_stopped_row_ends_mainloop rt bi a w before p after rest :
  Application.finish a = false ->
  rows_of a = before ++ p :: after ->
  Forall is_attached before ->
  Forall (handle_in w) before ->
  stopped p ->
  exists a' w' halted_rows,
    Application.mainloop rt bi (key_timeout :: rest) (a, w)
    = (Some (Throws (Error (no_attribute "kill"))), (a', w'))
    /\ rows_of a' = halted_rows ++ Process.set_status "Stop" p :: after
    /\ length halted_rows = length before
    /\ Forall stopped halted_rows
    /\ (forall q, held_by before q -> child_alive w' q = false)
    /\ (forall q, ~ held_by before q -> child_alive w' q = child_alive w q).
Proof.
  intros Hfin Hrows Hatt Hin Hs.
  rewrite (mainloop_tick rt bi rest a w Hfin), refresh_process_list_rows.
  destruct (refresh_rows_prefix before [] (p :: after) (S (length after))
              (Application.draw [GetYX; AddStr 5 0 Application.rule] a) w)
    as (a1 & w1 & before' & Hloop & Hrows1 & Hall & Hal & Hlen & _);
    try assumption.
  cbn [app length Nat.add] in Hloop, Hrows1.
  pose proof (Forall2_length _ _ _ Hall) as Hlen'.
  replace (length (rows_of a)) with (length before + S (length after))
    by (rewrite Hrows, length_app; reflexivity).
  rewrite Hloop.
  assert (Hp : rows_of a1 !! length before = Some p).
  { rewrite Hrows1. now apply list_lookup_middle. }
  rewrite (refresh_rows_stopped (length after) a1 w1 (length before) p Hp Hs).
  rewrite Hrows1, insert_app_r_alt by lia.
  replace (length before - length before') with 0 by lia.
  cbn [insert list_insert].
  unfold Application.on_table.
  cbn [Application.process_table Application.set_process_table].
  assert (Hs' : stopped (Process.set_status "Stop" p)) by exact Hs.
  rewrite (kill_all_stops_at_first_stopped before'
             (Process.set_status "Stop" p) after w1
             (refreshed_attached w before before' Hall Hatt) Hs').
  eexists _, (kill_world before' w1), (map halted before').
  splits.
  - reflexivity.
  - reflexivity.
  - now rewrite length_map.
  - apply Forall_map. apply Forall_true. intros x. reflexivity.
  - intros q Hq. apply kill_world_held.
    now apply (refreshed_held w before before' q Hall).
  - intros q Hq.
    destruct (child_alive (kill_world before' w1) q) eqn:E.
    + apply kill_world_alive in E. destruct E as [E _]. now rewrite <- Hal.
    + destruct (child_alive w q) eqn:E'; [|reflexivity].
      assert (Ht : child_alive (kill_world before' w1) q = true).
      { apply kill_world_alive. split; [now rewrite Hal|].
        intros Hq'. apply Hq.
        now apply (refreshed_held w before before' q Hall). }
      congruence.
Qed.

(** ** The cursor during the main loop *)

Lemma same_line_in_line a a' :
  same_line a a' -> cursor_in_line a -> cursor_in_line a'.
Proof.
  unfold same_line, cursor_in_line. intros (Hc & Hp & _) H.
  now rewrite Hc, Hp.
Qed.

Lemma refresh_rows_same_line n : forall idx,
  keeps same_line (Application.refresh_rows n idx).
Proof.
  induction n as [|n IH]; intros idx; cbn [Application.refresh_rows].
  - apply (keeps_ret _ same_line_refl).
  - repeat keeps_step same_line_refl same_line_trans;
      try (now unfold same_line; splits).
Qed.

Lemma refresh_process_list_same_line :
  keeps same_line Application.refresh_process_list.
Proof.
  unfold Application.refresh_process_list.
  repeat keeps_step same_line_refl same_line_trans;
    try (now unfold same_line; splits).
  apply refresh_rows_same_line.
Qed.

Lemma refresh_window_same_line : keeps same_line Application.refresh_window.
Proof.
  unfold Application.refresh_window, Application.refresh_all.
  repeat keeps_step same_line_refl same_line_trans;
    try (now unfold same_line; splits).
  apply refresh_rows_same_line.
Qed.

Lemma named_key_in_line ch a w :
  cursor_in_line a ->
  cursor_in_line (fst (snd (Application.named_key ch (a, w)))).
Proof.
  intros H. unfold Application.named_key.
  repeat match goal with
         | |- context [if String.eqb ?x ?y then _ else _] =>
             destruct (String.eqb x y)
         end.
  - exact (apply_edit_in_line CursorLeft a H).
  - exact (apply_edit_in_line CursorRight a H).
  - exact (apply_edit_in_line LoadLast a H).
  - eapply same_line_in_line; [|exact H].
    exact (refresh_window_same_line (a, w)).
  - exact (apply_edit_in_line Home a H).
  - exact (apply_edit_in_line End_ a H).
  - exact (apply_edit_in_line DeleteKey a H).
  - exact H.
Qed.

Lemma process_command_in_line rt bi s :
  cursor_in_line (fst (snd (Application.process_command rt bi s))).
Proof.
  destruct s as [a w]. rewrite process_command_effect.
  destruct (Application.dispatch rt bi
              (split_words (PyStr.strip (Application.command a)))
              (entered a, w)) as [[[]|e] [a1 w1]];
    unfold cursor_in_line; cbn; lia.
Qed.

Lemma getch_in_line rt bi key a w :
  cursor_in_line a ->
  cursor_in_line (fst (snd (Application.getch rt bi key (a, w)))).
Proof.
  intros H. destruct key as [ch|]; [|exact H].
  unfold Application.getch. cbv zeta.
  set (a1 := Application.refresh_debug_line
               (Application.set_debug_str (Application.debug_text ch)
                  (fst (a, w)))).
  assert (H1 : cursor_in_line a1) by exact H.
  change (snd (a, w)) with w.
  assert (Hn : cursor_in_line
                 (fst (snd (match Application.named_key ch (a1, w) with
                            | (Ok _, s2) => (Returns 0%Z, s2)
                            | (Raise e, s2) => (Throws (Error e), s2)
                            end)))).
  { pose proof (named_key_in_line ch a1 w H1) as Hk.
    now destruct (Application.named_key ch (a1, w)) as [[[]|e] s2]. }
  destruct ch as [|c [|c' t]]; [exact Hn| |exact Hn].
  clear Hn.
  destruct (nat_of_ascii c =? 3)%nat; [exact H1|].
  destruct (nat_of_ascii c =? 26)%nat; [exact H1|].
  destruct (nat_of_ascii c =? 27)%nat; [exact H1|].
  destruct (nat_of_ascii c =? 10)%nat.
  { pose proof (process_command_in_line rt bi (a1, w)) as Hp.
    now destruct (Application.process_command rt bi (a1, w)) as [[[]|e] s2]. }
  destruct (nat_of_ascii c =? 8)%nat.
  { exact (apply_edit_in_line Backspace a1 H1). }
  exact H1.
Qed.

(** X22.  The cursor never leaves the command line.  Whatever keys
    [getkey] hands out and whatever the commands do, after every turn of the
    loop of [mainloop] the cursor position is between 0 and the length of
    the command, so that the slices taken at the cursor by [update_command],
    [command_backspace] and [command_delete] cut the command where the
    cursor is shown. *)
Theorem X22_cursor_stays_in_line rt bi keys : forall a w,
  cursor_in_line a ->
  cursor_in_line (fst (snd (Application.loop rt bi keys (a, w)))).
Proof.
  induction keys as [|key rest IH]; intros a w H.
  - cbn [Application.loop fst].
    now destruct (Application.finish a).
  - destruct (Application.finish a) eqn:Hfin.
    + now rewrite loop_finished.
    + rewrite (loop_step rt bi key rest a w Hfin).
      pose proof (getch_in_line rt bi key a w H) as Hg.
      destruct (Application.getch rt bi key (a, w)) as [[ch|e] [a1 w1]];
        [|exact Hg].
      cbn [fst snd] in Hg.
      destruct (ch =? 0)%Z; [now apply IH|].
      destruct (ch =? -1)%Z.
      * pose proof (refresh_process_list_same_line (a1, w1)) as Hr.
        destruct (Application.refresh_process_list (a1, w1))
          as [[[]|e] [a2 w2]]; cbn [fst snd] in Hr.
        -- apply IH. eapply same_line_in_line; eassumption.
        -- eapply same_line_in_line; eassumption.
      * apply IH.
        exact (apply_edit_in_line (Typed (ascii_of_nat (Z.to_nat ch))) a1 Hg).
Qed.

(** ** Typing a command *)

Lemma getch_printable rt bi c a w :
  printable c ->
  Application.getch rt bi (Some (String c "")) (a, w)
  = (Returns (Z.of_nat (nat_of_ascii c)),
     (Application.refresh_debug_line
        (Application.set_debug_str
           (Application.debug_text (String c "")) a), w)).
Proof.
  intros [Hlo Hhi]. unfold Application.getch. cbv zeta.
  assert (H3 : (nat_of_ascii c =? 3)%nat = false) by (apply Nat.eqb_neq; lia).
  assert (H26 : (nat_of_ascii c =? 26)%nat = false) by (apply Nat.eqb_neq; lia).
  assert (H27 : (nat_of_ascii c =? 27)%nat = false) by (apply Nat.eqb_neq; lia).
  assert (H10 : (nat_of_ascii c =? 10)%nat = false) by (apply Nat.eqb_neq; lia).
  assert (H8 : (nat_of_ascii c =? 8)%nat = false) by (apply Nat.eqb_neq; lia).
  rewrite H3, H26, H27, H10, H8.
  assert (Hl : (nat_of_ascii c <? 32)%nat = false) by (apply Nat.ltb_ge; lia).
  assert (Hh : (127 <=? nat_of_ascii c)%nat = false)
    by (apply Nat.leb_gt; lia).
  rewrite Hl, Hh. reflexivity.
Qed.

Lemma getch_enter rt bi a w :
  Application.getch rt bi key_enter (a, w)
  = (Returns 0%Z,
     snd (Application.process_command rt bi
            (Application.refresh_debug_line
               (Application.set_debug_str
                  (Application.debug_text (String (ascii_of_nat 10) "")) a),
             w))).
Proof.
  unfold key_enter, Application.getch. cbv zeta.
  change (nat_of_ascii (ascii_of_nat 10)) with 10.
  cbn [Nat.eqb]. cbv beta iota delta [fst snd].
  destruct (process_command_returns rt bi
              (Application.refresh_debug_line
                 (Application.set_debug_str
                    (Application.debug_text (String (ascii_of_nat 10) "")) a),
               w)) as [s2 Hs2].
  rewrite Hs2. reflexivity.
Qed.

(** X23.  What is typed is what is executed.  From a dashboard that is
    not ending and whose cursor is at the end of the command, typing
    printable characters and then Enter makes the loop of [mainloop] call
    [process_command] on the command followed by exactly these characters,
    with the registry, the world and the last command as they were before
    the typing; the loop then goes on with the next key. *)
Theorem X23_typed_line_is_executed rt bi l rest : forall a w,
  Application.finish a = false ->
  Application.position a = String.length (Application.command a) ->
  Forall printable l ->
  exists a1,
    Application.command a1 = Application.command a +:+ string_of_list l
    /\ Application.process_table a1 = Application.process_table a
    /\ Application.last_command a1 = Application.last_command a
    /\ Application.loop rt bi (keys_of l ++ key_enter :: rest) (a, w)
       = Application.loop rt bi rest
           (snd (Application.process_command rt bi (a1, w))).
Proof.
  induction l as [|c l IH]; intros a w Hfin Hpos Hall.
  - cbn [keys_of map app].
    rewrite (loop_step rt bi key_enter rest a w Hfin), getch_enter.
    cbn [Z.eqb].
    eexists. splits; [| | |reflexivity].
    + cbn. now rewrite str_app_nil_r.
    + reflexivity.
    + reflexivity.
  - inversion Hall as [|? ? Hc Hall']; subst.
    cbn [keys_of map app].
    rewrite (loop_step rt bi (Some (String c "")) _ a w Hfin).
    rewrite (getch_printable rt bi c a w Hc).
    assert (E0 : (Z.of_nat (nat_of_ascii c) =? 0)%Z = false)
      by (apply Z.eqb_neq; destruct Hc; lia).
    assert (E1 : (Z.of_nat (nat_of_ascii c) =? -1)%Z = false)
      by (apply Z.eqb_neq; lia).
    rewrite E0, E1, Nat2Z.id, ascii_nat_embedding.
    cbv beta iota delta [fst snd].
    set (a0 := Application.refresh_debug_line
                 (Application.set_debug_str
                    (Application.debug_text (String c "")) a)).
    assert (Hpos0 : Application.position a0
                    = String.length (Application.command a0)) by exact Hpos.
    destruct (type_at_end [c] a0 Hpos0) as [Hcmd' Hpos'].
    cbn [fold_left] in Hcmd', Hpos'.
    destruct (IH (Application.update_command c a0) w) as (a1 & H1 & H2 & H3 & H4).
    + exact Hfin.
    + rewrite Hpos', Hcmd', str_length_app. reflexivity.
    + exact Hall'.
    + exists a1. splits.
      * rewrite H1, Hcmd'. rewrite str_app_assoc. reflexivity.
      * rewrite H2. reflexivity.
      * rewrite H3. reflexivity.
      * exact H4.
Qed.

(** ** The properties on the sample dashboards *)

Ltac rows_of_scenario P tw :=
  let l := eval vm_compute in (ProcessTable.process_list (fst tw)) in
  change (Forall P l).

Ltac each_row tac :=
  repeat match goal with
         | |- Forall _ [] => constructor
         | |- Forall _ (_ :: _) => constructor; [tac|]
         end.

Ltac handle_below :=
  let h := fresh "h" in
  let Hh := fresh "Hh" in
  intros h Hh; vm_compute in Hh; injection Hh as <-; vm_compute; lia.

Lemma two_rows_restartable :
  Forall (restartable CPython.runtime) (ProcessTable.process_list (fst two_rows)).
Proof.
  rows_of_scenario (restartable CPython.runtime) two_rows.
  each_row ltac:(unfold restartable; splits;
                 [right; eexists _, _; reflexivity|reflexivity..]).
Defined.

Lemma two_rows_attached :
  Forall is_attached (ProcessTable.process_list (fst two_rows)).
Proof.
  rows_of_scenario is_attached two_rows.
  each_row ltac:(eexists _, _; reflexivity).
Defined.



Lemma X2_witness :
  exists w',
    ProcessTable.kill_all (fst two_rows, snd two_rows)
    = (Ok tt,
       ({| ProcessTable.process_list :=
             map halted (ProcessTable.process_list (fst two_rows)) |}, w')).
Proof.
  destruct (X2_kill_all_stops_all CPython.runtime (fst two_rows)
              (snd two_rows) two_rows_attached two_rows_restartable)
    as (w' & H1 & _).
  exists w'. exact H1.
Defined.

Lemma X3_witness :
  ProcessTable.delete (-1) (fst two_rows, snd two_rows)
  = (Ok tt,
     ({| ProcessTable.process_list :=
           delete 1 (ProcessTable.process_list (fst two_rows)) |},
      killed 1 (snd two_rows))).
Proof.
  exact (proj1 (proj1 (X3_delete_removes_running_row (fst two_rows)
                         (snd two_rows) (-1) 1 row_b eq_refl eq_refl)
                  ["sleep"; "5"] 1 eq_refl)).
Defined.

Lemma X4_witness :
  exists w',
    ProcessTable.delete_all (fst two_rows, snd two_rows)
    = (Ok tt, (ProcessTable.init, w')).
Proof.
  destruct (proj1 (X4_delete_all_empties (fst two_rows) (snd two_rows))
              two_rows_attached) as (w' & H1 & _).
  exists w'. exact H1.
Defined.


Lemma X6_witness :
  exists column,
    fst (ProcessTable.get_status 0 (fst two_rows, snd two_rows))
    = Ok ("id:     0 | status: Run    | com: " +:+ column +:+ " | res: ")
    /\ String.length column = 20.
Proof.
  destruct (X6_get_status_line (fst two_rows) (snd two_rows) 0 0 row_a
              eq_refl eq_refl) as (column & H1 & H2 & _).
  exists column. split; [|exact H2]. rewrite H1. reflexivity.
Defined.

Lemma X7_witness :
  Forall (fun p => exists h, Process.handle p = Some h /\ 2 <= h)
    (ProcessTable.process_list
       (fst (snd (ProcessTable.load_config CPython.runtime "cfg"
                    (fst text_rows,
                     snd (snd (ProcessTable.save_config "cfg" text_rows))))))).
Proof.
  assert (Hatt : Forall is_attached (ProcessTable.process_list (fst text_rows))).
  { rows_of_scenario is_attached text_rows.
    each_row ltac:(eexists _, _; reflexivity). }
  assert (Hin : Forall (handle_in
                          (snd (snd (ProcessTable.save_config "cfg" text_rows))))
                  (ProcessTable.process_list (fst text_rows))).
  { rows_of_scenario
      (handle_in (snd (snd (ProcessTable.save_config "cfg" text_rows))))
      text_rows.
    each_row handle_below. }
  exact (proj2 (proj1 (proj2 (X7_load_config_is_destructive CPython.runtime
                                (fst text_rows)
                                (snd (snd (ProcessTable.save_config "cfg"
                                             text_rows)))
                                "cfg"))
                  _ eq_refl Hatt Hin)).
Defined.

Lemma X8_witness :
  exists w',
    read_all 3 (attached ["echo"; "hi"] 0, two_chunks)
    = ([Ok (Some ("a" +:+ PyStr.nl)); Ok (Some ("b" +:+ PyStr.nl)); Ok None],
       (attached ["echo"; "hi"] 0, w')).
Proof.
  destruct (X8_readlines_in_order ["echo"; "hi"] 0 3 two_chunks _ eq_refl)
    as (w' & c' & H & _).
  exists w'. exact H.
Defined.

Lemma X9_witness :
  exists p' w',
    Process.refresh_status (row_a, monitor_exit 0 (snd one_row)) = (Ok tt, (p', w'))
    /\ Process.status p' = "Stop".
Proof.
  destruct (proj2 (X9_refresh_reports_liveness row_a (snd one_row)
                     ["echo"; "hi"] 0 _ eq_refl eq_refl))
    as (p' & w' & H1 & H2 & _).
  exists p', w'. split; assumption.
Defined.

Lemma X10_witness :
  ProcessListener.polls
    (snd (ProcessListener.process_entry CPython.runtime ["sleep"; "5"]
            three_ticks)) = 4.
Proof.
  refine (proj1 (X10_process_entry_leaves_at_first_exit CPython.runtime
                   ["sleep"; "5"] three_ticks 3 eq_refl _ _ _)).
  - lia.
  - intros t Ht [H|H]; destruct t as [|[|[|t]]]; try discriminate H; lia.
  - right. reflexivity.
Defined.

Lemma X11_witness :
  Forall (fun chunk => chunk <> "")
    (ProcessListener.stdout_chunks
       (ProcessListener.actions
          (snd (ProcessListener.process_entry CPython.runtime ["echo"; "hi"]
                  prints_hi)))).
Proof.
  exact (proj1 (X11_process_entry_chunks CPython.runtime ["echo"; "hi"]
                  prints_hi eq_refl)).
Defined.

Lemma X12_witness :
  cursor_in_line (apply_edit Backspace (fst (dashboard "kill 0" two_rows))).
Proof.
  refine (proj1 (X12_edits_keep_cursor_in_line Backspace
                   (fst (dashboard "kill 0" two_rows)) _)).
  vm_compute. lia.
Defined.

Lemma X13_witness :
  Application.command
    (Application.command_backspace
       (Application.update_command "x" (fst (dashboard "kill 0" two_rows))))
  = "kill 0".
Proof.
  refine (proj1 (proj2 (proj2 (X13_typing_and_backspace "x"
                                 (fst (dashboard "kill 0" two_rows)) _)))).
  vm_compute. lia.
Defined.

Lemma X15_witness :
  exists a',
    Application.process_command CPython.runtime builtins
      (dashboard "kill" two_rows)
    = (Ok tt, (a', snd two_rows))
    /\ Application.last_message a' = "list index out of range".
Proof.
  destruct (proj1 (proj2 (X15_incomplete_commands CPython.runtime builtins
                            (fst (dashboard "kill" two_rows)) (snd two_rows)))
              "kill" eq_refl eq_refl) as (a' & H1 & H2 & _).
  exists a'. split; assumption.
Defined.

Lemma X16_witness :
  exists a',
    Application.process_command CPython.runtime builtins
      (dashboard "kill 2" two_rows)
    = (Ok tt, (a', snd two_rows))
    /\ Application.last_message a' = "list index out of range"
    /\ Application.process_table a' = fst two_rows.
Proof.
  refine (proj2 (proj2 (proj2
            (X16_index_commands CPython.runtime builtins
               (fst (dashboard "kill 2" two_rows)) (snd two_rows)
               "kill" "2" [] 2 eq_refl _ eq_refl))) eq_refl eq_refl).
  discriminate.
Defined.

Lemma X17_witness :
  exists q a' w',
    Application.process_command CPython.runtime builtins
      (dashboard "add c sleep 1" two_rows)
    = (Ok tt, (a', w'))
    /\ ProcessTable.process_list (Application.process_table a')
       = ProcessTable.process_list (fst two_rows) ++ [q]
    /\ Process.name q = "c"
    /\ Process.commands q = CmdList ["sleep"; "1"].
Proof.
  destruct (X17_add_command CPython.runtime builtins
              (fst (dashboard "add c sleep 1" two_rows)) (snd two_rows)
              "add" "c" ["sleep"; "1"] eq_refl eq_refl eq_refl)
    as (q & a' & w' & H1 & H2 & H3 & H4 & _).
  exists q, a', w'. splits; assumption.
Defined.

Lemma X18_witness :
  fst (Application.getch CPython.runtime builtins (Some "a")
         (dashboard "" two_rows)) = Returns 97%Z.
Proof.
  exact (f_equal fst
           (proj1 (proj2 (X18_getch_classifies CPython.runtime builtins
                            (fst (dashboard "" two_rows)) (snd two_rows)))
              "a"%char ltac:(vm_compute; lia))).
Defined.

Lemma X19_witness :
  exists a',
    Application.mainloop CPython.runtime builtins [key_escape]
      (dashboard "" two_rows)
    = (Some (Returns tt),
       (a', kill_world (ProcessTable.process_list (fst two_rows))
              (snd two_rows))).
Proof.
  destruct (proj1 (proj1 (X19_mainloop_shutdown CPython.runtime builtins
                            (fst (dashboard "" two_rows)) (snd two_rows) []
                            eq_refl)
                     two_rows_attached)) as (a' & H & _).
  exists a'. exact H.
Defined.


Lemma X21_witness :
  exists a' w',
    Application.mainloop CPython.runtime builtins [key_timeout]
      (dashboard "" second_killed)
    = (Some (Throws (Error (no_attribute "kill"))), (a', w'))
    /\ child_alive w' 0 = false.
Proof.
  assert (Hatt : Forall is_attached [row_a])
    by (each_row ltac:(eexists _, _; reflexivity)).
  assert (Hin : Forall (handle_in (snd second_killed)) [row_a])
    by (each_row handle_below).
  destruct (X21_tick_on_stopped_row_ends_mainloop CPython.runtime builtins
              (fst (dashboard "" second_killed)) (snd second_killed)
              [row_a] (halted row_b) [] [] eq_refl eq_refl Hatt Hin eq_refl)
    as (a' & w' & l & H1 & _ & _ & _ & H2 & _).
  exists a', w'. split; [exact H1|]. apply H2.
  exists row_a. split; [constructor|reflexivity].
Defined.

Lemma X22_witness :
  cursor_in_line
    (fst (snd (Application.loop CPython.runtime builtins
                 [Some "KEY_LEFT"; Some "x"; Some "KEY_DC"; key_enter]
                 (dashboard "kill 0" two_rows)))).
Proof.
  refine (X22_cursor_stays_in_line CPython.runtime builtins
            [Some "KEY_LEFT"; Some "x"; Some "KEY_DC"; key_enter]
            (fst (dashboard "kill 0" two_rows)) (snd two_rows) _).
  vm_compute. lia.
Defined.

Lemma X23_witness :
  exists a1,
    Application.command a1 = "kill 0"
    /\ Application.loop CPython.runtime builtins
         (keys_of ["k"; "i"; "l"; "l"; " "; "0"]%char ++ [key_enter])
         (dashboard "" two_rows)
       = Application.loop CPython.runtime builtins []
           (snd (Application.process_command CPython.runtime builtins
                   (a1, snd two_rows))).
Proof.
  destruct (X23_typed_line_is_executed CPython.runtime builtins
              ["k"; "i"; "l"; "l"; " "; "0"]%char []
              (fst (dashboard "" two_rows)) (snd two_rows) eq_refl eq_refl)
    as (a1 & H1 & _ & _ & H2).
  { each_row ltac:(vm_compute; lia). }
  exists a1. split; assumption.
Defined.

(** The message of [kill] with a number that is no index, and what
    [load] does on a dashboard with a stopped row. *)
Example kill_huge_number :
  Application.last_message
    (fst (snd (Application.process_command CPython.runtime builtins
                 (dashboard "kill 9223372036854775808" two_rows))))
  = "cannot fit 'int' into an index-sized integer".
Proof. reflexivity. Qed.

Example load_with_stopped_row :
  let saved := snd (snd (ProcessTable.save_config "cfg" second_killed)) in
  let loaded := ProcessTable.load_config CPython.runtime "cfg"
                  (fst second_killed, saved) in
  fst loaded = Raise (no_attribute "kill")
  /\ Process.handle <$> ProcessTable.process_list (fst (snd loaded))
     = [None; None]
  /\ length (ProcessTable.process_list (fst (snd loaded))) = 2.
Proof. repeat split. Qed.
